(** * plugin-openchat: a shallow embedding of the adapter core

    The development follows the TypeScript sources file by file:

    - [Js]                 the ECMAScript primitives the sources rely on
                           (strings as UTF-16 code units, [Map] with its
                           insertion order);
    - [OpenChatIds]        utils/openchatIds.ts;
    - [OpenChatClient]     services/openchatClient.ts (the Installation
                           Registry and the metadata builders);
    - [ActionContext]      actions/openChatActionContext.ts;
    - [UserDirectory]      services/openchatUserDirectory.ts;
    - [Notify]             bot/handlers/notify.ts;
    - [MessageManager]     services/openchatMessageManager.ts.

    Definitions come first; the lemmas and the theorems about them follow. *)

From Stdlib Require Import List String Ascii NArith ZArith Bool Lia DecimalString.
From Stdlib Require DecimalZ DecimalPos.
Import ListNotations.

Set Implicit Arguments.

(* ================================================================== *)
(** * Part I: the model                                                *)
(* ================================================================== *)

(** ** ECMAScript primitives *)

Module Js.

(** A JavaScript string is a finite sequence of UTF-16 code units. *)
Definition str := list N.

(** An ASCII literal of the sources, as a sequence of code units. *)
Definition lit (s : string) : str := map N_of_ascii (list_ascii_of_string s).

(** [Boolean(s)]: a string is truthy when it is not empty. *)
Definition truthy (s : str) : bool :=
  match s with
  | [] => false
  | _ :: _ => true
  end.

(** [Boolean(v)] for a value that is [undefined] or a string. *)
Definition truthy_opt (v : option str) : bool :=
  match v with
  | Some s => truthy s
  | None => false
  end.

(** [a === b] on strings. *)
Fixpoint eqb (a b : str) : bool :=
  match a, b with
  | [], [] => true
  | x :: a', y :: b' => N.eqb x y && eqb a' b'
  | _, _ => false
  end.

(** [a ?? b] *)
Definition nullish {A : Type} (a : option A) (b : A) : A :=
  match a with
  | Some x => x
  | None => b
  end.

(** [a ?? b] where [b] may be [undefined] as well. *)
Definition nullish_opt {A : Type} (a b : option A) : option A :=
  match a with
  | Some x => Some x
  | None => b
  end.

(** [String(n)] and template interpolation of an integer. *)
Definition ofZ (z : Z) : str := lit (NilZero.string_of_int (Z.to_int z)).

(** [s.length] *)
Definition length (s : str) : Z := Z.of_nat (List.length s).

(** WhiteSpace and LineTerminator code units of ECMAScript, the ones
    [String.prototype.trim] strips. *)
Definition isWhiteSpace (c : N) : bool :=
  (N.leb 9 c && N.leb c 13) || N.eqb c 32 || N.eqb c 160 ||
  N.eqb c 5760 || (N.leb 8192 c && N.leb c 8202) ||
  N.eqb c 8232 || N.eqb c 8233 || N.eqb c 8239 || N.eqb c 8287 ||
  N.eqb c 12288 || N.eqb c 65279.

Fixpoint trimStart (s : str) : str :=
  match s with
  | [] => []
  | c :: s' => if isWhiteSpace c then trimStart s' else s
  end.

Definition trimEnd (s : str) : str := rev (trimStart (rev s)).

(** [s.trim()] *)
Definition trim (s : str) : str := trimEnd (trimStart s).

Fixpoint startsWith (s p : str) : bool :=
  match p, s with
  | [], _ => true
  | _ :: _, [] => false
  | y :: p', x :: s' => N.eqb x y && startsWith s' p'
  end.

(** [s.includes(sub)] *)
Fixpoint includes (s sub : str) : bool :=
  startsWith s sub ||
  match s with
  | [] => false
  | _ :: s' => includes s' sub
  end.

(** The relative index of [String.prototype.slice]. *)
Definition relativeIndex (len i : Z) : Z :=
  if (i <? 0)%Z then Z.max (len + i) 0 else Z.min i len.

(** [s.slice(start, end)]; [end] is [None] when the argument is omitted. *)
Definition slice (s : str) (start : Z) (end_ : option Z) : str :=
  let len := length s in
  let from := relativeIndex len start in
  let to := match end_ with
            | None => len
            | Some e => relativeIndex len e
            end in
  firstn (Z.to_nat (Z.max (to - from) 0)) (skipn (Z.to_nat from) s).

(** [s.replace(/c/g, r)] for a pattern of one code unit. *)
Definition replaceAll (c : N) (r : str) (s : str) : str :=
  flat_map (fun x => if N.eqb x c then r else [x]) s.

(** A computation either returns or throws an [Error] with a message. *)
Inductive result (A : Type) : Type :=
| Ok (value : A)
| Throw (message : str).
Arguments Ok {A} value.
Arguments Throw {A} message.

(** *** [Map<string, V>]

    A [Map] iterates in insertion order: [set] on a key that is present
    replaces the value where it stands, [set] on a new key appends, and
    [delete] removes the entry. *)
Definition Map (V : Type) := list (str * V).

Section MapOps.
Variable V : Type.

Definition empty : Map V := [].

Fixpoint get (m : Map V) (k : str) : option V :=
  match m with
  | [] => None
  | (k', v) :: m' => if eqb k' k then Some v else get m' k
  end.

Definition has (m : Map V) (k : str) : bool :=
  match get m k with
  | Some _ => true
  | None => false
  end.

Fixpoint set (m : Map V) (k : str) (v : V) : Map V :=
  match m with
  | [] => [(k, v)]
  | (k', v') :: m' =>
      if eqb k' k then (k', v) :: m' else (k', v') :: set m' k v
  end.

Fixpoint delete (m : Map V) (k : str) : Map V :=
  match m with
  | [] => []
  | (k', v') :: m' =>
      if eqb k' k then m' else (k', v') :: delete m' k
  end.

Definition size (m : Map V) : Z := Z.of_nat (List.length m).

(** [m.entries().next()]: [None] when the iterator is done. *)
Definition first (m : Map V) : option (str * V) :=
  match m with
  | [] => None
  | e :: _ => Some e
  end.

Definition keys (m : Map V) : list str := map fst m.
End MapOps.

End Js.

Notation "` s" := (Js.lit s) (at level 1, s at level 0, format "` s").

(** ** utils/openchatIds.ts *)

Module OpenChatIds.

Definition UUID := Js.str.

Definition OPENCHAT_UUID_NAMESPACE : Js.str :=
  `"6ba7b810-9dad-11d1-80b4-00c04fd430c8".

Section WithUuid.
(** [v5] of the uuid package (name-based, SHA-1), which is not part of the
    repository: a function of the name and the namespace, taken as it is on
    the names it accepts. *)
Variable uuidv5 : Js.str -> Js.str -> UUID.

(** The name [makeRoomUuid] hashes. *)
Definition roomName (chatKind identifier : Js.str) : Js.str :=
  `"openchat-room-" ++ chatKind ++ `"-" ++ identifier.

Definition makeRoomUuid (chatKind identifier : Js.str) : UUID :=
  uuidv5 (roomName chatKind identifier) OPENCHAT_UUID_NAMESPACE.

Definition makeUserUuid (identifier : Js.str) : UUID :=
  uuidv5 (`"openchat-user-" ++ identifier) OPENCHAT_UUID_NAMESPACE.

Definition makeMessageUuid (identifier : Js.str) : UUID :=
  uuidv5 (`"openchat-message-" ++ identifier) OPENCHAT_UUID_NAMESPACE.

End WithUuid.

End OpenChatIds.

(** ** The types of the bot-client library and of types/index.ts *)

(** [CommunityIdentifier], [GroupChatIdentifier], [DirectChatIdentifier] and
    [ChannelIdentifier] of the bot-client library.  An
    [InstallationLocation] is one of the first three, a [ChatIdentifier] one
    of the last three. *)
Inductive Identifier : Type :=
| CommunityIdentifier (communityId : Js.str)
| GroupChatIdentifier (groupId : Js.str)
| DirectChatIdentifier (userId : Js.str)
| ChannelIdentifier (communityId : Js.str) (channelId : Z).

Definition isInstallationLocation (i : Identifier) : bool :=
  match i with
  | ChannelIdentifier _ _ => false
  | _ => true
  end.

Definition isChatIdentifier (i : Identifier) : bool :=
  match i with
  | CommunityIdentifier _ => false
  | _ => true
  end.

(** The [kind] field of an identifier. *)
Definition kind (i : Identifier) : Js.str :=
  match i with
  | CommunityIdentifier _ => `"community"
  | GroupChatIdentifier _ => `"group_chat"
  | DirectChatIdentifier _ => `"direct_chat"
  | ChannelIdentifier _ _ => `"channel"
  end.

(** [chatIdentifierToInstallationLocation] of the bot-client library: a
    channel is installed through its community, every other chat is its own
    location. *)
Definition chatIdentifierToInstallationLocation (chatId : Identifier)
  : Identifier :=
  match chatId with
  | ChannelIdentifier communityId _ => CommunityIdentifier communityId
  | other => other
  end.

(** [Permissions.rawPermissions] *)
Record Permissions : Type := mkPermissions {
  perm_chat : Z;
  perm_community : Z;
  perm_message : Z
}.

Record InstallationRecord : Type := mkInstallationRecord {
  rec_apiGateway : Js.str;
  grantedCommandPermissions : Permissions;
  grantedAutonomousPermissions : Permissions
}.

Inductive ActionScope : Type :=
| CommunityActionScope (location : Identifier)
| ChatActionScope (location : Identifier).

Record OpenChatInstallation : Type := mkInstallation {
  location : Identifier;
  scope : ActionScope;
  record : InstallationRecord
}.

Inductive ChatKind : Type := direct | group | channel.

Definition chatKindText (k : ChatKind) : Js.str :=
  match k with
  | direct => `"direct"
  | group => `"group"
  | channel => `"channel"
  end.

(** [OpenChatMessageMetadata].  The candidates of context resolution are
    read from untyped objects, so a field may be missing at run time: each
    field is [None] when the property is absent or [undefined]. *)
Record OpenChatMessageMetadata : Type := mkMetadata {
  chatKind : option ChatKind;
  chatId : option Js.str;
  locationKey : option Js.str;
  roomKey : option Js.str;
  messageId : option Js.str;
  threadId : option Z;
  replyToMessageId : option Js.str;
  apiGateway : option Js.str
}.

(** The client handle [BotClientFactory.createClientInAutonomouseContext]
    returns, identified by what it was created from. *)
Record BotClient : Type := mkBotClient {
  client_scope : ActionScope;
  client_apiGatewayUrl : Js.str;
  client_permissions : option Permissions
}.

(** [ChannelType] of the agent runtime, as far as the plugin uses it. *)
Inductive ChannelType : Type := DM | GROUP.

Record MentionContext : Type := mkMentionContext {
  isMention : bool;
  isReply : bool;
  isThread : bool;
  mentionType : option Js.str
}.

Record Content : Type := mkContent {
  text : Js.str;
  source : Js.str;
  channelType : ChannelType;
  mentionContext : MentionContext;
  inReplyTo : option OpenChatIds.UUID
}.

(** [Memory] of the agent runtime: the fields the plugin writes and reads.
    [memory_openchat] is [metadata.openchat] ([None] when it is missing) and
    [memory_sender] the [sender] the message manager adds to it. *)
Record Memory : Type := mkMemory {
  id : OpenChatIds.UUID;
  entityId : OpenChatIds.UUID;
  agentId : OpenChatIds.UUID;
  roomId : OpenChatIds.UUID;
  content : Content;
  memory_openchat : option OpenChatMessageMetadata;
  memory_sender : option Js.str;
  createdAt : Z
}.

(** ** services/openchatClient.ts *)

Module OpenChatClient.

(** The service object: the Installation Registry and the lines the
    service writes to [runtime.logger.info]. *)
Record OpenChatClientService : Type := mkService {
  installations : Js.Map OpenChatInstallation;
  infoLog : list Js.str
}.

(** The service as its constructor leaves it. *)
Definition create : OpenChatClientService :=
  {| installations := Js.empty OpenChatInstallation; infoLog := [] |}.

Definition getLocationKey (location : Identifier) : Js.str :=
  match location with
  | CommunityIdentifier communityId => `"community:" ++ communityId
  | GroupChatIdentifier groupId => `"group:" ++ groupId
  | DirectChatIdentifier userId => `"direct:" ++ userId
  | ChannelIdentifier _ _ => `"direct:undefined"
  end.

Definition scopeFromLocation (location : Identifier) : ActionScope :=
  if Js.eqb (kind location) `"community"
  then CommunityActionScope location
  else ChatActionScope location.

Definition createClientForScope (scope : ActionScope)
  (apiGatewayUrl : Js.str) (permissions : option Permissions) : BotClient :=
  mkBotClient scope apiGatewayUrl permissions.

Definition recordInstallation (this : OpenChatClientService)
  (location : Identifier) (record : InstallationRecord)
  : OpenChatClientService :=
  let scope := scopeFromLocation location in
  let key := getLocationKey location in
  {| installations :=
       Js.set this.(installations) key (mkInstallation location scope record);
     infoLog :=
       this.(infoLog) ++
       [`"Bot installed in " ++ kind location ++ `": " ++ key ++
        `" (messagePermMask=" ++
        Js.ofZ record.(grantedAutonomousPermissions).(perm_message) ++ `")"]
  |}.

Definition recordUninstallation (this : OpenChatClientService)
  (location : Identifier) : OpenChatClientService :=
  let key := getLocationKey location in
  {| installations := Js.delete this.(installations) key;
     infoLog := this.(infoLog) ++ [`"Bot uninstalled from scope: " ++ key]
  |}.

Definition getInstallations (this : OpenChatClientService)
  : Js.Map OpenChatInstallation :=
  this.(installations).

Definition getChatKindFromLocation (location : Identifier) : ChatKind :=
  if Js.eqb (kind location) `"direct_chat" then direct
  else if Js.eqb (kind location) `"group_chat" then group
  else channel.

Definition describeLocation (location : Identifier) : Js.str :=
  match location with
  | CommunityIdentifier communityId => communityId
  | GroupChatIdentifier groupId => groupId
  | DirectChatIdentifier userId => userId
  | ChannelIdentifier _ _ => `"unknown"
  end.

Definition getRoomKeyFromLocation (location : Identifier)
  (thread : option Z) : Js.str :=
  let base := describeLocation location in
  match thread with
  | Some t => base ++ `":" ++ Js.ofZ t
  | None => base
  end.

Definition buildMetadataFromInstallation (locationKey : Js.str)
  (installation : OpenChatInstallation)
  (overrides : option OpenChatMessageMetadata) : OpenChatMessageMetadata :=
  let over {A} (f : OpenChatMessageMetadata -> option A) : option A :=
    match overrides with
    | Some o => f o
    | None => None
    end in
  {| chatKind := Some (getChatKindFromLocation installation.(location));
     chatId := Some (describeLocation installation.(location));
     locationKey := Some locationKey;
     roomKey :=
       Some (getRoomKeyFromLocation installation.(location) (over threadId));
     messageId := Some (Js.nullish (over messageId) `"");
     apiGateway :=
       Some (Js.nullish (over apiGateway)
               installation.(record).(rec_apiGateway));
     threadId := over threadId;
     replyToMessageId := over replyToMessageId
  |}.

Definition getInstallationByChatId (this : OpenChatClientService)
  (chatId : Identifier) : option OpenChatInstallation :=
  let location := chatIdentifierToInstallationLocation chatId in
  Js.get this.(installations) (getLocationKey location).

Definition createClientForLocation (this : OpenChatClientService)
  (location : Identifier) : option BotClient :=
  match Js.get this.(installations) (getLocationKey location) with
  | None => None
  | Some installation =>
      Some (createClientForScope installation.(scope)
              installation.(record).(rec_apiGateway)
              (Some installation.(record).(grantedAutonomousPermissions)))
  end.

Definition getChatKind (chatId : Identifier) : ChatKind :=
  if Js.eqb (kind chatId) `"direct_chat" then direct
  else if Js.eqb (kind chatId) `"group_chat" then group
  else channel.

Definition describeChat (chatId : Identifier) : Js.str :=
  match chatId with
  | ChannelIdentifier communityId channelId =>
      communityId ++ `"-" ++ Js.ofZ channelId
  | GroupChatIdentifier groupId => groupId
  | DirectChatIdentifier userId => userId
  | CommunityIdentifier communityId => `"[object Object]"
  end.

Definition getRoomKey (chatId : Identifier) (thread : option Z) : Js.str :=
  let base := describeChat chatId in
  match thread with
  | Some t => base ++ `":" ++ Js.ofZ t
  | None => base
  end.

Definition buildMessageMetadata (chatId : Identifier) (messageId : Z)
  (apiGateway : Js.str) (thread : option Z) : OpenChatMessageMetadata :=
  let location := chatIdentifierToInstallationLocation chatId in
  let locationKey := getLocationKey location in
  let roomKey := getRoomKey chatId thread in
  {| chatKind := Some (getChatKind chatId);
     chatId := Some (describeChat chatId);
     locationKey := Some locationKey;
     roomKey := Some roomKey;
     messageId := Some (Js.ofZ messageId);
     threadId := thread;
     replyToMessageId := None;
     apiGateway := Some apiGateway
  |}.

End OpenChatClient.

(** ** actions/openChatActionContext.ts *)

Module ActionContext.
Import OpenChatClient.

(** [state.openchat.metadata] and [state.openchat.locationKey] *)
Record State : Type := mkState {
  state_metadata : option OpenChatMessageMetadata;
  state_locationKey : option Js.str
}.

(** [options.openchatMetadata], [options.metadata.openchat] and
    [options.openchat.locationKey] *)
Record Options : Type := mkOptions {
  openchatMetadata : option OpenChatMessageMetadata;
  options_metadata_openchat : option OpenChatMessageMetadata;
  options_locationKey : option Js.str
}.

Record OpenChatResolvedContext : Type := mkContext {
  service : OpenChatClientService;
  metadata : OpenChatMessageMetadata;
  installation : OpenChatInstallation;
  client : BotClient
}.

(** [o?.f] *)
Definition opt {A B : Type} (o : option A) (f : A -> option B) : option B :=
  match o with
  | Some x => f x
  | None => None
  end.

(** The three candidates by their origin: the call options (where
    [openchatMetadata] shadows [metadata.openchat]), the state, the message. *)
Definition optionCandidate (options : option Options)
  : option OpenChatMessageMetadata :=
  match opt options openchatMetadata with
  | Some m => Some m
  | None => opt options options_metadata_openchat
  end.

Definition stateCandidate (state : option State)
  : option OpenChatMessageMetadata :=
  opt state state_metadata.

Definition messageCandidate (message : Memory)
  : option OpenChatMessageMetadata :=
  message.(memory_openchat).

(** The array [candidates] that [extractMetadata] builds: at most one entry
    from the options, at most one from the state, and always the entry of
    the message, which may be [undefined]. *)
Definition candidates (message : Memory) (state : option State)
  (options : option Options) : list (option OpenChatMessageMetadata) :=
  (match opt options openchatMetadata with
   | Some m => [Some m]
   | None =>
       match opt options options_metadata_openchat with
       | Some m => [Some m]
       | None => []
       end
   end) ++
  (match opt state state_metadata with
   | Some m => [Some m]
   | None => []
   end) ++
  [message.(memory_openchat)].

Definition hasLocationKey (candidate : option OpenChatMessageMetadata)
  : bool :=
  Js.truthy_opt (opt candidate locationKey).

Definition extractMetadata (message : Memory) (state : option State)
  (options : option Options) : option OpenChatMessageMetadata :=
  match find hasLocationKey (candidates message state options) with
  | Some candidate => candidate
  | None => None
  end.

(** The three lookups of [resolveOpenChatContext], each yielding the
    installation and the location key it settles on. *)
Definition byMetadata (installations : Js.Map OpenChatInstallation)
  (metadata : option OpenChatMessageMetadata)
  : option (OpenChatInstallation * Js.str) :=
  match opt metadata locationKey with
  | Some key =>
      if Js.truthy key then
        match Js.get installations key with
        | Some existing => Some (existing, key)
        | None => None
        end
      else None
  | None => None
  end.

Definition preferredKey (state : option State) (options : option Options)
  : option Js.str :=
  Js.nullish_opt (opt options options_locationKey)
                 (opt state state_locationKey).

Definition byPreferredKey (installations : Js.Map OpenChatInstallation)
  (state : option State) (options : option Options)
  : option (OpenChatInstallation * Js.str) :=
  match preferredKey state options with
  | Some key =>
      if Js.truthy key && Js.has installations key then
        match Js.get installations key with
        | Some i => Some (i, key)
        | None => None
        end
      else None
  | None => None
  end.

Definition byFirstEntry (installations : Js.Map OpenChatInstallation)
  : option (OpenChatInstallation * Js.str) :=
  match Js.first installations with
  | Some (key, i) => Some (i, key)
  | None => None
  end.

(** [a] unless it is unset, then [b]: the guard
    [if (!installation || !locationKey)] before the second and the third
    lookup. *)
Definition orElse {A : Type} (a b : option A) : option A :=
  match a with
  | Some x => Some x
  | None => b
  end.

(** The last guard, [if (!installation || !locationKey) return undefined]:
    the first two lookups only settle on a non-empty key, the third one
    takes the key of the first entry as it is. *)
Definition settled (r : option (OpenChatInstallation * Js.str))
  : option (OpenChatInstallation * Js.str) :=
  match r with
  | Some (i, key) => if Js.truthy key then Some (i, key) else None
  | None => None
  end.

(** The installation and location key after the three lookups. *)
Definition pickInstallation (installations : Js.Map OpenChatInstallation)
  (metadata : option OpenChatMessageMetadata)
  (state : option State) (options : option Options)
  : option (OpenChatInstallation * Js.str) :=
  settled
    (orElse (byMetadata installations metadata)
       (orElse (byPreferredKey installations state options)
          (byFirstEntry installations))).

(** The metadata of the resolved context (lines 89-97).  In the object
    [{...metadata, ...built, locationKey}] every field of the metadata type
    is an own property of [built], so each one is taken from [built]. *)
Definition completeMetadata (metadata : option OpenChatMessageMetadata)
  (locationKey : Js.str) (installation : OpenChatInstallation)
  : OpenChatMessageMetadata :=
  match metadata with
  | None => buildMetadataFromInstallation locationKey installation None
  | Some m =>
      if negb (hasLocationKey (Some m))
      then
        let built :=
          buildMetadataFromInstallation locationKey installation (Some m) in
        {| chatKind := built.(chatKind);
           chatId := built.(chatId);
           locationKey := Some locationKey;
           roomKey := built.(roomKey);
           messageId := built.(messageId);
           threadId := built.(threadId);
           replyToMessageId := built.(replyToMessageId);
           apiGateway := built.(apiGateway) |}
      else m
  end.

(** [runtime.getService("openchat")] is [None] when the service is not
    registered; [None] as a result is [undefined]. *)
Definition resolveOpenChatContext
  (runtimeService : option OpenChatClientService)
  (message : Memory) (state : option State) (options : option Options)
  : option OpenChatResolvedContext :=
  match runtimeService with
  | None => None
  | Some service =>
      let installations := getInstallations service in
      if (Js.size installations =? 0)%Z then None
      else
        let metadata := extractMetadata message state options in
        match pickInstallation installations metadata state options with
        | None => None
        | Some (installation, locationKey) =>
            let metadata :=
              completeMetadata metadata locationKey installation in
            let client :=
              createClientForScope installation.(scope)
                installation.(record).(rec_apiGateway)
                (Some installation.(record).(grantedAutonomousPermissions)) in
            Some (mkContext service metadata installation client)
        end
  end.

End ActionContext.

(** ** services/openchatUserDirectory.ts *)

Module UserDirectory.
Import Js (result, Ok, Throw).

Record OpenChatUserProfile : Type := mkProfile {
  userId : Js.str;
  username : option Js.str;
  displayName : option Js.str
}.

(** [RawPrincipal]: text, or the bytes of a [Uint8Array] or [number[]]. *)
Inductive RawPrincipal : Type :=
| RawText (text : Js.str)
| RawBytes (bytes : list N).

Record RawStable : Type := mkStable {
  stable_username : Js.str;
  stable_display_name : option Js.str
}.

Record RawUserSummary : Type := mkSummary {
  user_id : RawPrincipal;
  stable : option RawStable
}.

(** The decoded [UsersResponse]: the users of [Success], or no [Success]. *)
Definition UsersResponse := option (list RawUserSummary).

Record CachedProfile : Type := mkCached {
  profile : OpenChatUserProfile;
  expiresAt : Z
}.

Definition DEFAULT_CACHE_TTL_MS : Z := 1000 * 60 * 15.

(** What [agent.query] followed by [PACKER.unpack] comes to. *)
Inductive QueryOutcome : Type :=
| QueryThrows (message : Js.str)
| QueryNotReplied
| QueryReplied (decoded : UsersResponse).

(** The collaborators outside the repository: the principal codec of
    @dfinity/principal and the remote directory behind the HTTP agent. *)
Record Remote : Type := mkRemote {
  Principal_fromText : Js.str -> result (list N);
  Principal_toText : list N -> result Js.str;
  agent_query : list N -> list (list N) -> QueryOutcome
}.

(** The directory object, together with what it has sent out: the warnings
    given to the logger (message and first argument) and the batches of
    principals it has queried the remote directory for. *)
Record Directory : Type := mkDirectory {
  cache : Js.Map CachedProfile;
  cacheTtlMs : Z;
  storageIndexCanisterId : Js.str;
  warnings : list (Js.str * Js.str);
  remoteQueries : list (list (list N))
}.

Record DirectoryOptions : Type := mkDirectoryOptions {
  opt_storageIndexCanisterId : Js.str;
  opt_cacheTtlMs : option Z
}.

(** The constructor, as far as the cache is concerned. *)
Definition create (options : DirectoryOptions) : Directory :=
  {| cache := Js.empty CachedProfile;
     cacheTtlMs := Js.nullish options.(opt_cacheTtlMs) DEFAULT_CACHE_TTL_MS;
     storageIndexCanisterId := options.(opt_storageIndexCanisterId);
     warnings := [];
     remoteQueries := [] |}.

(** *** The monad of the directory's methods: state and exceptions *)

Definition M (A : Type) : Type := Directory -> result A * Directory.

Definition ret {A : Type} (a : A) : M A := fun d => (Ok a, d).

Definition throw {A : Type} (message : Js.str) : M A :=
  fun d => (Throw message, d).

Definition bind {A B : Type} (m : M A) (k : A -> M B) : M B :=
  fun d =>
    match m d with
    | (Ok a, d') => k a d'
    | (Throw e, d') => (Throw e, d')
    end.

(** [try { m } catch (error) { handler error }] *)
Definition tryCatch {A : Type} (m : M A) (handler : Js.str -> M A) : M A :=
  fun d =>
    match m d with
    | (Ok a, d') => (Ok a, d')
    | (Throw e, d') => handler e d'
    end.

Definition gets {A : Type} (f : Directory -> A) : M A := fun d => (Ok (f d), d).

Definition modify (f : Directory -> Directory) : M unit :=
  fun d => (Ok tt, f d).

Notation "x <- m ;; k" := (bind m (fun x => k))
  (at level 61, m at next level, right associativity).
Notation "m ;;; k" := (bind m (fun _ => k))
  (at level 61, right associativity).

Fixpoint mapM {A B : Type} (f : A -> M B) (l : list A) : M (list B) :=
  match l with
  | [] => ret []
  | x :: l' => y <- f x ;; ys <- mapM f l' ;; ret (y :: ys)
  end.

(** The writes of the methods to the directory. *)
Definition addWarning (d : Directory) (message detail : Js.str) : Directory :=
  {| cache := d.(cache);
     cacheTtlMs := d.(cacheTtlMs);
     storageIndexCanisterId := d.(storageIndexCanisterId);
     warnings := d.(warnings) ++ [(message, detail)];
     remoteQueries := d.(remoteQueries) |}.

Definition setCached (d : Directory) (key : Js.str) (entry : CachedProfile)
  : Directory :=
  {| cache := Js.set d.(cache) key entry;
     cacheTtlMs := d.(cacheTtlMs);
     storageIndexCanisterId := d.(storageIndexCanisterId);
     warnings := d.(warnings);
     remoteQueries := d.(remoteQueries) |}.

Definition addQuery (d : Directory) (users : list (list N)) : Directory :=
  {| cache := d.(cache);
     cacheTtlMs := d.(cacheTtlMs);
     storageIndexCanisterId := d.(storageIndexCanisterId);
     warnings := d.(warnings);
     remoteQueries := d.(remoteQueries) ++ [users] |}.

Definition warn (message detail : Js.str) : M unit :=
  modify (fun d => addWarning d message detail).

Definition cacheSet (key : Js.str) (entry : CachedProfile) : M unit :=
  modify (fun d => setCached d key entry).

Definition noteQuery (users : list (list N)) : M unit :=
  modify (fun d => addQuery d users).

Section WithRemote.
Variable remote : Remote.

Definition invalidPrincipal : Js.str :=
  `"[OpenChat] Invalid principal provided to user directory".

Definition principalToBytes (id : Js.str) : M (option (list N)) :=
  match remote.(Principal_fromText) id with
  | Ok bytes => ret (Some bytes)
  | Throw _ => warn invalidPrincipal id ;;; ret None
  end.

Definition principalToText (value : RawPrincipal) : M (option Js.str) :=
  match value with
  | RawText text => ret (Some text)
  | RawBytes bytes =>
      match remote.(Principal_toText) bytes with
      | Ok text => ret (Some text)
      | Throw e =>
          warn `"[OpenChat] Unable to decode principal from user directory" e ;;;
          ret None
      end
  end.

Definition mapSummary (summary : RawUserSummary)
  : M (option OpenChatUserProfile) :=
  decoded <- principalToText summary.(user_id) ;;
  match decoded with
  | Some (c :: text) =>
      ret (Some {| userId := c :: text;
                   username := option_map stable_username summary.(stable);
                   displayName :=
                     match summary.(stable) with
                     | Some s => s.(stable_display_name)
                     | None => None
                     end |})
  | Some [] | None => ret None
  end.

(** [xs.filter(Boolean)] on values that are objects or [null]. *)
Definition somes {A : Type} (l : list (option A)) : list A :=
  flat_map (fun o => match o with Some x => [x] | None => [] end) l.

(** [agent.query(Principal.fromText(canisterId), ...)]: the canister id is
    decoded first, then the request goes out. *)
Definition remoteQuery (users : list (list N)) : M QueryOutcome :=
  canisterId <- gets storageIndexCanisterId ;;
  match remote.(Principal_fromText) canisterId with
  | Throw e => throw e
  | Ok canister =>
      noteQuery users ;;;
      ret (remote.(agent_query) canister users)
  end.

(** [lookupProfiles].  The [await this.ready] at its head waits for
    [ensureRootKey], which catches its own failure and so never throws; it
    has no part in what follows. *)
Definition lookupProfiles (userIds : list Js.str)
  : M (list OpenChatUserProfile) :=
  encoded <- mapM principalToBytes userIds ;;
  let normalizedIds := somes encoded in
  match normalizedIds with
  | [] => ret []
  | _ :: _ =>
      response <- remoteQuery normalizedIds ;;
      match response with
      | QueryThrows e => throw e
      | QueryNotReplied =>
          canisterId <- gets storageIndexCanisterId ;;
          throw (`"User directory query was rejected for " ++ canisterId)
      | QueryReplied None => ret []
      | QueryReplied (Some users) =>
          profiles <- mapM mapSummary users ;;
          ret (somes profiles)
      end
  end.

Definition cacheKey (apiGateway userId : Js.str) : Js.str :=
  apiGateway ++ `":" ++ userId.

(** [getProfile].  [Date.now()] is read twice: [now] is its value at the
    cache check, [later] its value when the looked-up profile is stored. *)
Definition getProfile (apiGateway : option Js.str) (userId : Js.str)
  (now later : Z) : M (option OpenChatUserProfile) :=
  defaultScope <- gets storageIndexCanisterId ;;
  let scopeKey := Js.nullish apiGateway defaultScope in
  if negb (Js.truthy scopeKey) || negb (Js.truthy userId) then ret None
  else
    let cacheKey := cacheKey scopeKey userId in
    cached <- gets (fun d => Js.get d.(cache) cacheKey) ;;
    let fetch :=
      tryCatch
        (profiles <- lookupProfiles [userId] ;;
         match profiles with
         | profile :: _ =>
             ttl <- gets cacheTtlMs ;;
             cacheSet cacheKey
               {| profile := profile; expiresAt := later + ttl |} ;;;
             ret (Some profile)
         | [] => ret None
         end)
        (fun e =>
           warn `"[OpenChat] Failed to resolve user profile" e ;;;
           ret None) in
    match cached with
    | Some c =>
        if (c.(expiresAt) >? now)%Z then ret (Some c.(profile)) else fetch
    | None => fetch
    end.

End WithRemote.

End UserDirectory.

(** ** The events of the bot-client library *)

Inductive MessageContent : Type :=
| text_content (text : option Js.str)
| image_content (caption : option Js.str)
| video_content (caption : option Js.str)
| audio_content (caption : option Js.str)
| file_content (name : Js.str)
| poll_content (options : list Js.str)
| other_content (kind : Js.str).

(** A chat event of kind ["message"].  [senderContext] holds the [kind] of
    the sender context when there is one, [repliesTo] the [eventIndex]. *)
Record OCMessageEvent : Type := mkMessageEvent {
  ev_messageId : Z;
  sender : Js.str;
  deleted : bool;
  senderContext : option Js.str;
  ev_content : MessageContent;
  repliesTo : option Z
}.

Inductive ChatEvent : Type :=
| message_event (m : OCMessageEvent)
| member_joined (userId : Js.str)
| other_event (kind : Js.str).

Record BotChatEvent : Type := mkBotChatEvent {
  ev_chatId : Identifier;
  thread : option Z;
  event : ChatEvent
}.

(** ** services/openchatMessageManager.ts *)

Module MessageManager.
Import OpenChatIds.

Definition sanitizeText (text : option Js.str) : Js.str :=
  match text with
  | Some (c :: t) => Js.trim (Js.replaceAll 0 [] (c :: t))
  | Some [] | None => []
  end.

Definition withCaption (caption : option Js.str) : Js.str :=
  match caption with
  | Some (c :: t) => `": " ++ c :: t
  | Some [] | None => []
  end.

Definition buildPlaceholderForContent (event : OCMessageEvent) : Js.str :=
  match event.(ev_content) with
  | text_content text => sanitizeText text
  | image_content caption => `"Received an image" ++ withCaption caption
  | video_content caption => `"Received a video" ++ withCaption caption
  | audio_content caption => `"Received an audio clip" ++ withCaption caption
  | file_content name => `"Received a file: " ++ name
  | poll_content options =>
      `"Received a poll with " ++ Js.ofZ (Z.of_nat (List.length options)) ++
      `" options."
  | other_content kind =>
      `"Received " ++ Js.replaceAll 95 `" " kind ++ `"."
  end.

(** The agent runtime as the manager sees it: [ensureConnection] is [None]
    when the runtime has no such method and otherwise says whether the call
    returns or throws; [messageService] says whether the pipeline is there. *)
Record Runtime : Type := mkRuntime {
  rt_agentId : UUID;
  character_name : option Js.str;
  ensureConnection : option (Js.result unit);
  messageService : bool
}.

(** The arguments [createResponseCallback] closes over. *)
Record ResponseCallback : Type := mkCallback {
  cb_botClient : BotClient;
  cb_roomId : UUID;
  cb_metadata : OpenChatMessageMetadata;
  cb_incomingMessageId : UUID;
  cb_channelType : ChannelType
}.

(** What a call of [handleMessageEvent] does to the outside, in order. *)
Inductive Effect : Type :=
| LogDebug (message : Js.str)
| LogWarn (message detail : Js.str)
| LogError (message : Js.str)
| EnsureConnection (entityId roomId : UUID) (userName : Js.str)
    (type : ChannelType) (channelId : option Js.str)
| HandleMessage (memory : Memory) (callback : ResponseCallback).

Definition isForward (e : Effect) : bool :=
  match e with
  | HandleMessage _ _ => true
  | _ => false
  end.

Definition touchesRuntime (e : Effect) : bool :=
  match e with
  | HandleMessage _ _ | EnsureConnection _ _ _ _ _ => true
  | _ => false
  end.

Section WithRuntime.
Variable uuidv5 : Js.str -> Js.str -> UUID.
(** [String.prototype.toLowerCase] *)
Variable toLowerCase : Js.str -> Js.str.
Variable runtime : Runtime.

Definition containsBotMention (text : Js.str) : bool :=
  match runtime.(character_name) with
  | Some (c :: name) =>
      if Js.truthy text then
        let normalized := toLowerCase text in
        let mention := toLowerCase (`"@" ++ c :: name) in
        Js.includes normalized mention
      else false
  | Some [] | None => false
  end.

(** [Boolean(n)] for a number that is an integer or [undefined]. *)
Definition truthyNumber (n : option Z) : bool :=
  match n with
  | Some z => negb (z =? 0)%Z
  | None => false
  end.

(** The text of a field that the template literal interpolates:
    ["undefined"] when the field is missing. *)
Definition interpolated (v : option Js.str) : Js.str :=
  Js.nullish v `"undefined".

(** [handleMessageEvent]; [now] is [Date.now()] when the memory is built. *)
Definition handleMessageEvent (botClient : BotClient)
  (chatEvent : BotChatEvent) (metadata : OpenChatMessageMetadata) (now : Z)
  : list Effect :=
  match chatEvent.(event) with
  | member_joined _ | other_event _ => []
  | message_event event =>
      if event.(deleted) then []
      else if match event.(senderContext) with
              | Some k => Js.eqb k `"bot"
              | None => false
              end then []
      else
        let textContent := buildPlaceholderForContent event in
        if negb (Js.truthy textContent)
        then [LogDebug `"[OpenChat] Skipping empty message event"]
        else
          let channelType :=
            match metadata.(chatKind) with
            | Some direct => DM
            | _ => GROUP
            end in
          let roomId :=
            makeRoomUuid uuidv5
              (interpolated (option_map chatKindText metadata.(chatKind)))
              (interpolated metadata.(roomKey)) in
          let senderId := makeUserUuid uuidv5 event.(sender) in
          let incomingMessageId :=
            makeMessageUuid uuidv5
              (interpolated metadata.(chatId) ++ `"-" ++
               interpolated metadata.(messageId)) in
          let connection :=
            match runtime.(ensureConnection) with
            | None => []
            | Some outcome =>
                EnsureConnection senderId roomId event.(sender) channelType
                  metadata.(chatId) ::
                match outcome with
                | Js.Ok _ => []
                | Js.Throw e =>
                    [LogWarn `"[OpenChat] ensureConnection failed" e]
                end
            end in
          let mentionContext :=
            {| isMention := containsBotMention textContent;
               isReply := match event.(repliesTo) with
                          | Some _ => true
                          | None => false
                          end;
               isThread := truthyNumber metadata.(threadId);
               mentionType :=
                 match event.(repliesTo) with
                 | Some _ => Some `"reply"
                 | None =>
                     if truthyNumber metadata.(threadId)
                     then Some `"thread" else None
                 end |} in
          let memory :=
            {| id := incomingMessageId;
               entityId := senderId;
               agentId := runtime.(rt_agentId);
               roomId := roomId;
               content :=
                 {| text := textContent;
                    source := `"openchat";
                    channelType := channelType;
                    mentionContext := mentionContext;
                    inReplyTo :=
                      match event.(repliesTo) with
                      | Some eventIndex =>
                          Some (makeMessageUuid uuidv5
                                  (interpolated metadata.(chatId) ++ `"-" ++
                                   Js.ofZ eventIndex))
                      | None => None
                      end |};
               memory_openchat := Some metadata;
               memory_sender := Some event.(sender);
               createdAt := now |} in
          if negb runtime.(messageService)
          then connection ++
               [LogError `"[OpenChat] messageService is not available"]
          else
            let callback :=
              mkCallback botClient roomId metadata incomingMessageId
                channelType in
            connection ++ [HandleMessage memory callback]
  end.

End WithRuntime.

End MessageManager.

(** ** bot/handlers/notify.ts *)

Module Notify.
Import OpenChatClient.
Import UserDirectory (OpenChatUserProfile, username, displayName).

Record Member : Type := mkMember {
  descriptor : Js.str;
  shortLabel : Js.str;
  mention : Js.str
}.

(** [profile?.field?.trim()] *)
Definition trimmed (profile : option OpenChatUserProfile)
  (field : OpenChatUserProfile -> option Js.str) : option Js.str :=
  match profile with
  | Some p => option_map Js.trim (field p)
  | None => None
  end.

Definition shorten (fallback : Js.str) : Js.str :=
  if (Js.length fallback <=? 11)%Z then fallback
  else Js.slice fallback 0 (Some 5%Z) ++ `"..." ++
       Js.slice fallback (-4) None.

Definition describeUser (profile : option OpenChatUserProfile)
  (fallback : Js.str) : Member :=
  let username := trimmed profile username in
  let displayName := trimmed profile displayName in
  let mention := `"@UserId(" ++ fallback ++ `")" in
  let handle :=
    match username with
    | Some (c :: u) => Some (`"@" ++ c :: u)
    | Some [] | None => None
    end in
  match displayName, handle with
  | Some (c :: d), Some handle =>
      mkMember ((c :: d) ++ `" (" ++ handle ++ `")") (c :: d) mention
  | Some (c :: d), None => mkMember (c :: d) (c :: d) mention
  | _, Some handle => mkMember handle handle mention
  | _, None =>
      let shortened := shorten fallback in
      mkMember shortened shortened mention
  end.

(** The waving-hand sign U+1F44B that ends the stock welcome, as its two
    code units. *)
Definition wavingHand : Js.str := [55357%N; 56395%N].

(** Lines 119-128 of [handleMemberJoined]: the welcome before the mention
    is looked for, given what [runtime.useModel] came to. *)
Definition welcomeBody (generated : Js.result Js.str) (member : Member)
  : Js.str :=
  let welcomeMsg :=
    match generated with
    | Js.Ok text => Js.trim text
    | Js.Throw _ => []
    end in
  if negb (Js.truthy welcomeMsg)
  then `"Welcome to the chat, " ++ member.(shortLabel) ++ `"! " ++ wavingHand
  else welcomeMsg.

(** Lines 130-132: the text that is sent. *)
Definition welcomeText (generated : Js.result Js.str) (member : Member)
  : Js.str :=
  let welcomeMsg := welcomeBody generated member in
  if negb (Js.includes welcomeMsg member.(mention))
  then Js.trim (member.(mention) ++ `" " ++ welcomeMsg)
  else welcomeMsg.

Definition roomDescriptor (chatId : Identifier) : Js.str :=
  match chatId with
  | GroupChatIdentifier groupId => `"group " ++ groupId
  | DirectChatIdentifier _ => `"this space"
  | ChannelIdentifier _ channelId => Js.trim (`"channel " ++ Js.ofZ channelId)
  | CommunityIdentifier _ => `"the room"
  end.

Definition newline : Js.str := [10%N].

Definition welcomePrompt (characterName : Js.str) (member : Member)
  (chatId : Identifier) : Js.str :=
  `"You are " ++ characterName ++ `"." ++ newline ++
  `"Craft a warm human welcome for " ++ member.(descriptor) ++
  `" who just joined " ++ roomDescriptor chatId ++ `"." ++ newline ++
  `"Keep it <=2 sentences, weave in one starter question, and avoid AI disclaimers.".

(** What a call of [handleMemberJoined] does to the outside, in order. *)
Inductive Effect : Type :=
| LogWarn (message detail : Js.str)
| LogError (message detail : Js.str)
| ResolveUserProfile (userId apiGateway : Js.str)
| UseModel (prompt : Js.str)
| SendMessage (client : BotClient) (text : Js.str).

(** [a || b] on strings *)
Definition orString (a b : Js.str) : Js.str :=
  if Js.truthy a then a else b.

(** [handleMemberJoined].  [setting] is the value of
    OPENCHAT_WELCOME_NEW_MEMBERS; the awaited results of the collaborators
    are arguments: [profile] of [service.resolveUserProfile], [generated]
    of [runtime.useModel] and [sent] of creating and sending the message. *)
Definition handleMemberJoined (setting : option Js.str)
  (characterName : Js.str) (service : OpenChatClientService)
  (chatEvent : BotChatEvent) (apiGateway : Js.str)
  (profile : option OpenChatUserProfile)
  (generated : Js.result Js.str) (sent : Js.result unit) : list Effect :=
  let shouldWelcome :=
    match setting with
    | Some v => Js.eqb v `"true"
    | None => false
    end in
  match chatEvent.(event) with
  | member_joined userId =>
      if negb shouldWelcome then []
      else
        match getInstallationByChatId service chatEvent.(ev_chatId) with
        | None =>
            [LogWarn
               `"[OpenChat] Received member_joined for unknown installation"
               []]
        | Some installation =>
            let gateway :=
              orString installation.(record).(rec_apiGateway) apiGateway in
            let client :=
              createClientForScope installation.(scope) gateway
                (Some installation.(record).(grantedAutonomousPermissions)) in
            let member := describeUser profile userId in
            let prompt :=
              welcomePrompt characterName member chatEvent.(ev_chatId) in
            [ResolveUserProfile userId gateway; UseModel prompt] ++
            match generated with
            | Js.Ok _ => []
            | Js.Throw e =>
                [LogWarn `"[OpenChat] Failed to generate LLM welcome" e]
            end ++
            [SendMessage client (welcomeText generated member)] ++
            match sent with
            | Js.Ok _ => []
            | Js.Throw e =>
                [LogError `"[OpenChat] Failed to send member welcome" e]
            end
        end
  | message_event _ | other_event _ => []
  end.

(** *** The rejection callback of [notifyHandler] *)

(** [failure?.error]: a string, an [Error] with its message, another value
    with the text [JSON.stringify] gives for it ([None] when it gives
    [undefined]), or nothing. *)
Inductive FailureError : Type :=
| error_string (text : Js.str)
| error_Error (message : Js.str)
| error_other (json : option Js.str)
| error_missing.

Definition quote : Js.str := [34%N].

Definition errorMessage (error : FailureError) : option Js.str :=
  match error with
  | error_string text => Some text
  | error_Error message => Some message
  | error_other json => json
  | error_missing => Some (quote ++ `"Unknown error" ++ quote)
  end.

(** The callback: [Ok] when it returns, [Throw] with the message of the
    error it throws.  [new Error(undefined)] has the empty message. *)
Definition onRejected (error : FailureError) : Js.result unit :=
  let errorMessage := errorMessage error in
  if match errorMessage with
     | Some m => Js.eqb m `"Invalid scope"
     | None => false
     end
  then Js.Ok tt
  else
    match error with
    | error_Error message => Js.Throw message
    | _ => Js.Throw (Js.nullish errorMessage [])
    end.

(** *** The Registry under [routeBotEvent] *)

Inductive BotEvent : Type :=
| bot_installed_event (location : Identifier)
    (grantedCommandPermissions grantedAutonomousPermissions : Permissions)
| bot_uninstalled_event (location : Identifier)
| bot_chat_event (chatEvent : BotChatEvent)
| bot_community_event (kind : Js.str)
| unhandled_event (kind : Js.str).

(** What [routeBotEvent] does to the service: [handleInstallEvent] records
    the installation, [handleUninstallEvent] removes it, and no other event
    touches the Registry. *)
Definition routeBotEvent (service : OpenChatClientService)
  (event : BotEvent) (apiGateway : Js.str) : OpenChatClientService :=
  match event with
  | bot_installed_event location command autonomous =>
      recordInstallation service location
        (mkInstallationRecord apiGateway command autonomous)
  | bot_uninstalled_event location => recordUninstallation service location
  | bot_chat_event _ | bot_community_event _ | unhandled_event _ => service
  end.

(** The service after a sequence of deliveries, each an event with the
    gateway it came through, starting from a fresh service. *)
Definition serviceAfter (deliveries : list (BotEvent * Js.str))
  : OpenChatClientService :=
  fold_left (fun service d => routeBotEvent service (fst d) (snd d))
    deliveries OpenChatClient.create.

End Notify.

(** ** Invariants *)

(** A Registry is in order when no key occurs twice and every entry sits
    under the location key of its own location, with the scope of that
    location. *)
Definition RegistryOk (m : Js.Map OpenChatInstallation) : Prop :=
  NoDup (Js.keys m) /\
  Forall (fun e =>
            fst e = OpenChatClient.getLocationKey (snd e).(location) /\
            (snd e).(scope) =
              OpenChatClient.scopeFromLocation (snd e).(location)) m.

(** The context [resolveOpenChatContext] builds once the installation and
    the location key are settled. *)
Definition contextOf (service : OpenChatClient.OpenChatClientService)
  (metadata : OpenChatMessageMetadata) (installation : OpenChatInstallation)
  : ActionContext.OpenChatResolvedContext :=
  ActionContext.mkContext service metadata installation
    (OpenChatClient.createClientForScope installation.(scope)
       installation.(record).(rec_apiGateway)
       (Some installation.(record).(grantedAutonomousPermissions))).

(** ** The directory's state across a call *)

Module DirectoryFrame.
Import UserDirectory.

(** The bytes of an id, [None] when [Principal.fromText] throws on it. *)
Definition encoded (remote : Remote) (id : Js.str) : option (list N) :=
  match remote.(Principal_fromText) id with
  | Js.Ok bytes => Some bytes
  | Js.Throw _ => None
  end.

(** The directory after a warning for each id that does not encode. *)
Fixpoint warnedFor (remote : Remote) (d : Directory) (ids : list Js.str)
  : Directory :=
  match ids with
  | [] => d
  | id :: ids' =>
      warnedFor remote
        (match encoded remote id with
         | Some _ => d
         | None => addWarning d invalidPrincipal id
         end) ids'
  end.

(** [d'] has the cache and the configuration of [d]. *)
Definition sameStore (d d' : Directory) : Prop :=
  d'.(cache) = d.(cache) /\
  d'.(cacheTtlMs) = d.(cacheTtlMs) /\
  d'.(storageIndexCanisterId) = d.(storageIndexCanisterId).

(** [d'] differs from [d] by warnings at most. *)
Definition onlyWarned (d d' : Directory) : Prop :=
  sameStore d d' /\ d'.(remoteQueries) = d.(remoteQueries).

(** The scope key of [getProfile]. *)
Definition scopeKeyOf (d : Directory) (apiGateway : option Js.str) : Js.str :=
  Js.nullish apiGateway d.(storageIndexCanisterId).

(** What [getProfile] makes of a lookup that ran from [d] to [d']. *)
Definition afterLookup (key : Js.str) (later : Z)
  (looked : Js.result (list OpenChatUserProfile) * Directory)
  : Js.result (option OpenChatUserProfile) * Directory :=
  match looked with
  | (Js.Ok (profile :: _), d') =>
      (Js.Ok (Some profile),
       setCached d' key (mkCached profile (later + d'.(cacheTtlMs))))
  | (Js.Ok [], d') => (Js.Ok None, d')
  | (Js.Throw e, d') =>
      (Js.Ok None,
       addWarning d' `"[OpenChat] Failed to resolve user profile" e)
  end.

End DirectoryFrame.

(** ** Sample data *)

Module Sample.
Import OpenChatClient ActionContext.

Definition granted : Permissions := mkPermissions 0 0 31.
Definition gateway : Js.str := `"https://gateway.example".
Definition groupA : Identifier := GroupChatIdentifier `"a".
Definition groupB : Identifier := GroupChatIdentifier `"b".
Definition directU : Identifier := DirectChatIdentifier `"u".

Definition installedAt (location : Identifier) : Notify.BotEvent * Js.str :=
  (Notify.bot_installed_event location granted granted, gateway).

(** A service where the bot was installed in group a, then in group b, then
    in the direct chat with u. *)
Definition deliveries : list (Notify.BotEvent * Js.str) :=
  [installedAt groupA; installedAt groupB; installedAt directU].

Definition service : OpenChatClientService := Notify.serviceAfter deliveries.

Definition installationAt (location : Identifier) : OpenChatInstallation :=
  mkInstallation location (scopeFromLocation location)
    (mkInstallationRecord gateway granted granted).

(** The metadata of message 42 of group a, under a given location key. *)
Definition metadataUnder (key : Js.str) : OpenChatMessageMetadata :=
  {| chatKind := Some group;
     chatId := Some `"a";
     locationKey := Some key;
     roomKey := Some `"a";
     messageId := Some `"42";
     threadId := None;
     replyToMessageId := None;
     apiGateway := Some gateway |}.

(** The metadata of message 42 in thread 7 of group a, which came through
    another gateway and carries an empty location key. *)
Definition metadataWithoutKey : OpenChatMessageMetadata :=
  {| chatKind := Some group;
     chatId := Some `"a";
     locationKey := Some [];
     roomKey := Some `"a:7";
     messageId := Some `"42";
     threadId := Some 7%Z;
     replyToMessageId := None;
     apiGateway := Some `"https://other.example" |}.

Definition memoryWith (openchat : option OpenChatMessageMetadata) : Memory :=
  {| id := [];
     entityId := [];
     agentId := [];
     roomId := [];
     content :=
       {| text := `"hello";
          source := `"openchat";
          channelType := GROUP;
          mentionContext := mkMentionContext false false false None;
          inReplyTo := None |};
     memory_openchat := openchat;
     memory_sender := None;
     createdAt := 0 |}.

Definition optionsWith (m : OpenChatMessageMetadata) : Options :=
  mkOptions (Some m) None None.

Definition stateWith (m : OpenChatMessageMetadata) : State :=
  mkState (Some m) None.

(** A member whose id has more than 11 code units joins group a. *)
Definition newcomer : Js.str := `"xlmdg-vkosr-fae".

Definition joined : BotChatEvent :=
  mkBotChatEvent groupA None (member_joined newcomer).

(** A principal codec that knows two principals, the management canister
    [aaaaa-aa] (no bytes) and the anonymous principal [2vxsx-fae] (the byte
    4), and a directory that knows the anonymous principal as [anon]. *)
Definition fromText (id : Js.str) : Js.result (list N) :=
  if Js.eqb id `"aaaaa-aa" then Js.Ok []
  else if Js.eqb id `"2vxsx-fae" then Js.Ok [4%N]
  else Js.Throw `"Invalid principal".

Definition toText (bytes : list N) : Js.result Js.str :=
  match bytes with
  | [] => Js.Ok `"aaaaa-aa"
  | [4%N] => Js.Ok `"2vxsx-fae"
  | _ => Js.Throw `"Invalid principal"
  end.

Definition query (canister : list N) (users : list (list N))
  : UserDirectory.QueryOutcome :=
  UserDirectory.QueryReplied
    (Some (map (fun bytes =>
                  UserDirectory.mkSummary (UserDirectory.RawBytes bytes)
                    (Some (UserDirectory.mkStable `"anon" None)))
               users)).

Definition remote : UserDirectory.Remote :=
  UserDirectory.mkRemote fromText toText query.

Definition directory : UserDirectory.Directory :=
  UserDirectory.create (UserDirectory.mkDirectoryOptions `"aaaaa-aa" None).

Definition anonymous : UserDirectory.OpenChatUserProfile :=
  UserDirectory.mkProfile `"2vxsx-fae" (Some `"anon") None.

(** Stand-ins of the two functions the message manager takes from outside:
    the name itself for its name-based identifier, and lower case on the
    letters A to Z. *)
Definition nameAsUuid (name namespace : Js.str) : OpenChatIds.UUID := name.

Definition asciiLower (s : Js.str) : Js.str :=
  map (fun c => if (N.leb 65 c && N.leb c 90)%bool then (c + 32)%N else c) s.

Definition runtime : MessageManager.Runtime :=
  MessageManager.mkRuntime `"agent" (Some `"Eliza") (Some (Js.Ok tt)) true.

Definition botClient : BotClient :=
  mkBotClient (ChatActionScope groupA) gateway (Some granted).

(** Message 42 of group a, from a given kind of sender, with a given text. *)
Definition messageFrom (senderKind : option Js.str) (isDeleted : bool)
  (text : Js.str) : BotChatEvent :=
  mkBotChatEvent groupA None
    (message_event
       (mkMessageEvent 42 newcomer isDeleted senderKind
          (text_content (Some text)) None)).

End Sample.

(** ** bot/handlers/notify.ts: the install and the message handler *)

Module NotifyHandlers.
Import OpenChatClient.

(** What [handleInstallEvent] does to the outside, in order. *)
Inductive Effect : Type :=
| LogInfo (message : Js.str)
| LogWarn (message : Js.str)
| LogError (message detail : Js.str)
| SendMessage (client : BotClient) (text : Js.str).

Definition newline : Js.str := [10%N].

Definition defaultBioLine : Js.str :=
  `"I'm here to help you with various tasks and conversations.".

(** The text of [sendWelcomeMessage]; [bio0] is [runtime.character.bio?.[0]]. *)
Definition welcomeMessage (characterName : Js.str) (bio0 : option Js.str)
  : Js.str :=
  let bioLine :=
    match bio0 with
    | Some (c :: b) => c :: b
    | Some [] | None => defaultBioLine
    end in
  Notify.wavingHand ++ `" Hello! I'm " ++ characterName ++
  `", your AI assistant." ++ newline ++ newline ++
  bioLine ++ newline ++ newline ++
  `"Use `/help` to see available commands or `/chat <message>` to start chatting with me!".

(** What [client.sendMessage] resolves to: a response tagged with its
    kind, ["success"] or a failure with its message. *)
Inductive SendResponse : Type :=
| send_success (messageId : Z)
| send_failure (message : Js.str).

(** [sendWelcomeMessage]: the message goes out and the info line follows,
    unless creating or sending the message throws.  The response of
    [client.sendMessage] is awaited and not looked at. *)
Definition sendWelcomeMessage (client : BotClient)
  (characterName : Js.str) (bio0 : option Js.str) (context : Js.str)
  (sent : Js.result SendResponse) : Js.result (list Effect) :=
  match sent with
  | Js.Ok _ =>
      Js.Ok [SendMessage client (welcomeMessage characterName bio0);
             LogInfo (`"[OpenChat] Sent welcome message to " ++ context)]
  | Js.Throw e => Js.Throw e
  end.

(** [handleInstallEvent]: the service after the event and what went out.
    [setting] is the value of OPENCHAT_WELCOME_NEW_MEMBERS and [sent] what
    creating and sending the welcome comes to: the response of the
    platform, or the error thrown. *)
Definition handleInstallEvent (setting : option Js.str)
  (characterName : Js.str) (bio0 : option Js.str)
  (service : OpenChatClientService) (location : Identifier)
  (grantedCommand grantedAutonomous : Permissions) (apiGateway : Js.str)
  (sent : Js.result SendResponse) : OpenChatClientService * list Effect :=
  let record :=
    mkInstallationRecord apiGateway grantedCommand grantedAutonomous in
  let service := recordInstallation service location record in
  let shouldWelcome :=
    match setting with
    | Some v => Js.eqb v `"true"
    | None => false
    end in
  if negb shouldWelcome then (service, [])
  else
    match createClientForLocation service location with
    | None =>
        (service,
         [LogWarn `"[OpenChat] Unable to create client for welcome message"])
    | Some client =>
        match sendWelcomeMessage client characterName bio0 (kind location)
                sent with
        | Js.Ok effects => (service, effects)
        | Js.Throw e =>
            (service,
             [SendMessage client (welcomeMessage characterName bio0);
              LogError `"[OpenChat] Error sending welcome message" e])
        end
    end.

Section WithRuntime.
Variable uuidv5 : Js.str -> Js.str -> OpenChatIds.UUID.
Variable toLowerCase : Js.str -> Js.str.
Variable runtime : MessageManager.Runtime.

(** [handleMessageEvent] of notify.ts: the client of the installation of
    the chat when there is one, else the client the event came with; the
    metadata carries the gateway of the event. *)
Definition handleMessageEvent (client : BotClient)
  (chatEvent : BotChatEvent) (apiGateway : Js.str)
  (service : OpenChatClientService) (now : Z)
  : list MessageManager.Effect :=
  match chatEvent.(event) with
  | message_event m =>
      let activeClient :=
        match getInstallationByChatId service chatEvent.(ev_chatId) with
        | Some installation =>
            createClientForScope installation.(scope)
              (Notify.orString installation.(record).(rec_apiGateway)
                 apiGateway)
              (Some installation.(record).(grantedAutonomousPermissions))
        | None => client
        end in
      let metadata :=
        buildMessageMetadata chatEvent.(ev_chatId) m.(ev_messageId)
          apiGateway chatEvent.(thread) in
      MessageManager.handleMessageEvent uuidv5 toLowerCase runtime
        activeClient chatEvent metadata now
  | member_joined _ | other_event _ => []
  end.

End WithRuntime.

(** The installation the Registry holds under a key after a sequence of
    deliveries, read off the deliveries alone: the last installation or
    uninstallation at a location of that key decides. *)
Fixpoint lastWrite (deliveries : list (Notify.BotEvent * Js.str))
  (key : Js.str) (before : option OpenChatInstallation)
  : option OpenChatInstallation :=
  match deliveries with
  | [] => before
  | (Notify.bot_installed_event location command autonomous, gateway)
    :: rest =>
      lastWrite rest key
        (if Js.eqb (getLocationKey location) key
         then Some (mkInstallation location (scopeFromLocation location)
                      (mkInstallationRecord gateway command autonomous))
         else before)
  | (Notify.bot_uninstalled_event location, _) :: rest =>
      lastWrite rest key
        (if Js.eqb (getLocationKey location) key then None else before)
  | _ :: rest => lastWrite rest key before
  end.

End NotifyHandlers.

(** ** services/openchatMessageManager.ts: the response callback *)

Module ResponseCallback.
Import OpenChatIds MessageManager.

(** The [Content] the pipeline answers with, as far as the callback reads
    it: the text, the number of attachments, and the mention context the
    spread carries over. *)
Record ResponseContent : Type := mkResponseContent {
  rc_text : option Js.str;
  rc_attachments : nat;
  rc_mentionContext : MentionContext
}.

(** The response of [botClient.sendMessage]. *)
Inductive SendResponse : Type :=
| success (messageId : Z)
| failure (message : Js.str).

Inductive Effect : Type :=
| LogWarn (message : Js.str)
| LogError (message detail : Js.str)
| SendMessage (client : BotClient) (text : Js.str)
| CreateMemory (memory : Memory).

Section WithRuntime.
Variable uuidv5 : Js.str -> Js.str -> UUID.
Variable runtime : Runtime.

(** The callback [createResponseCallback] returns, applied to a content.
    [sent] is what creating and sending the message comes to, [persisted]
    what [runtime.createMemory] does ([None] when the runtime has no such
    method), [now] is [Date.now()].  The result is what the callback
    returns, or the error it rejects with, and the effects before that. *)
Definition respond (callback : ResponseCallback) (content : ResponseContent)
  (sent : Js.result SendResponse) (persisted : option (Js.result unit))
  (now : Z) : Js.result (list Memory) * list Effect :=
  let text := sanitizeText content.(rc_text) in
  if negb (Js.truthy text) then (Js.Ok [], [])
  else
    let warned :=
      if (0 <? content.(rc_attachments))%nat
      then [LogWarn
              `"[OpenChat] Attachments are not supported yet for OpenChat responses"]
      else [] in
    let sending := warned ++ [SendMessage callback.(cb_botClient) text] in
    match sent with
    | Js.Throw e => (Js.Throw e, sending)
    | Js.Ok (failure message) =>
        (Js.Ok [],
         sending ++ [LogError `"[OpenChat] Failed to send response" message])
    | Js.Ok (success messageId) =>
        let responseMessageId := Js.ofZ messageId in
        let metadata := callback.(cb_metadata) in
        let memory :=
          {| id :=
               makeMessageUuid uuidv5
                 (interpolated metadata.(chatId) ++ `"-" ++ responseMessageId);
             entityId := runtime.(rt_agentId);
             agentId := runtime.(rt_agentId);
             roomId := callback.(cb_roomId);
             content :=
               {| text := text;
                  source := `"openchat";
                  channelType := callback.(cb_channelType);
                  mentionContext := content.(rc_mentionContext);
                  inReplyTo := Some callback.(cb_incomingMessageId) |};
             memory_openchat :=
               Some {| chatKind := metadata.(chatKind);
                       chatId := metadata.(chatId);
                       locationKey := metadata.(locationKey);
                       roomKey := metadata.(roomKey);
                       messageId := Some responseMessageId;
                       threadId := metadata.(threadId);
                       replyToMessageId := metadata.(replyToMessageId);
                       apiGateway := metadata.(apiGateway) |};
             memory_sender := None;
             createdAt := now |} in
        (Js.Ok [memory],
         sending ++
         match persisted with
         | None => []
         | Some (Js.Ok _) => [CreateMemory memory]
         | Some (Js.Throw e) =>
             [CreateMemory memory;
              LogError `"[OpenChat] Failed to persist response memory" e]
         end)
    end.

End WithRuntime.

End ResponseCallback.

(** ** actions/sendMessage.ts *)

Module SendMessageAction.
Import OpenChatClient.

(** [OpenChatScope] of types/index.ts; [kind] is the string it holds at run
    time. *)
Record OpenChatScope : Type := mkScope {
  scope_kind : Js.str;
  scope_chatId : Js.str;
  scope_communityId : option Js.str
}.

Definition matchesRequestedScope (installation : OpenChatInstallation)
  (scope : OpenChatScope) : bool :=
  let location := installation.(location) in
  if Js.eqb scope.(scope_kind) `"channel" then
    Js.eqb (kind location) `"community" &&
    Js.truthy_opt scope.(scope_communityId) &&
    match location, scope.(scope_communityId) with
    | CommunityIdentifier communityId, Some requested =>
        Js.eqb communityId requested
    | _, _ => false
    end
  else if Js.eqb scope.(scope_kind) `"group" then
    Js.eqb (kind location) `"group_chat" &&
    match location with
    | GroupChatIdentifier groupId => Js.eqb groupId scope.(scope_chatId)
    | _ => false
    end
  else if Js.eqb scope.(scope_kind) `"direct" then
    Js.eqb (kind location) `"direct_chat" &&
    match location with
    | DirectChatIdentifier userId => Js.eqb userId scope.(scope_chatId)
    | _ => false
    end
  else false.

(** [validate] *)
Definition validate (runtimeService : option OpenChatClientService) : bool :=
  match runtimeService with
  | None => false
  | Some service => (0 <? Js.size (getInstallations service))%Z
  end.

(** [Array.from(service.getInstallations().values())] *)
Definition values (service : OpenChatClientService)
  : list OpenChatInstallation :=
  map snd (getInstallations service).

(** The installation the handler sends through: the first that matches the
    requested scope, else the first of all. *)
Definition targetInstallation (service : OpenChatClientService)
  (scope : option OpenChatScope) : option OpenChatInstallation :=
  let installations := values service in
  let requested :=
    match scope with
    | Some s => find (fun i => matchesRequestedScope i s) installations
    | None => None
    end in
  match requested with
  | Some i => Some i
  | None => hd_error installations
  end.

Inductive Effect : Type :=
| LogError (message detail : Js.str)
| LogSuccess (message : Js.str)
| SendMessage (client : BotClient) (text : Js.str)
| Callback (text : Js.str) (succeeded : bool).

(** [handler].  [messageText] is [message.content.text], [requested] is
    [options?.scope], [hasSuccessLogger] and [hasCallback] say whether the
    logger has [success] and whether a callback was passed, and [sent] is
    what creating and sending the message comes to.  [e || "Unknown
    error"] is the text of the failure. *)
Definition handler (runtimeService : option OpenChatClientService)
  (messageText : option Js.str) (requested : option OpenChatScope)
  (hasSuccessLogger hasCallback : bool) (sent : Js.result unit)
  : list Effect :=
  match runtimeService with
  | None => [LogError `"[OpenChat] Service not available" []]
  | Some service =>
      match messageText with
      | Some (c :: t) =>
          match targetInstallation service requested with
          | None => [LogError `"[OpenChat] No target scope available" []]
          | Some target =>
              let client :=
                createClientForScope target.(scope)
                  target.(record).(rec_apiGateway)
                  (Some target.(record).(grantedAutonomousPermissions)) in
              SendMessage client (c :: t) ::
              match sent with
              | Js.Ok _ =>
                  (if hasSuccessLogger
                   then [LogSuccess (`"[OpenChat] Message sent to " ++
                                     kind target.(location))]
                   else []) ++
                  if hasCallback
                  then [Callback (`"Message sent to OpenChat " ++
                                  kind target.(location)) true]
                  else []
              | Js.Throw e =>
                  LogError `"[OpenChat] Error sending message:" e ::
                  if hasCallback
                  then [Callback (`"Failed to send message to OpenChat: " ++
                                  Notify.orString e `"Unknown error") false]
                  else []
              end
          end
      | Some [] | None => [LogError `"[OpenChat] No message text provided" []]
      end
  end.

End SendMessageAction.

(** ** actions/reactToMessage.ts and actions/readChatHistory.ts: the events
    of a chat *)

Module ChatEvents.

(** An entry of [ChatEventsResponse.events]. *)
Record EventWrapper : Type := mkWrapper {
  w_event : ChatEvent;
  w_timestamp : option Z;
  w_index : Z
}.

Inductive ChatEventsResponse : Type :=
| events_success (events : list EventWrapper)
| events_failure (message : Js.str).

Definition asMessage (wrapper : EventWrapper) : option OCMessageEvent :=
  match wrapper.(w_event) with
  | message_event m => Some m
  | member_joined _ | other_event _ => None
  end.

(** The loop of [extractLastMessage], from index [i] down to 0. *)
Fixpoint scanBack (wrappers : list EventWrapper) (i : nat)
  : option OCMessageEvent :=
  match nth_error wrappers i with
  | Some wrapper =>
      match asMessage wrapper with
      | Some m => Some m
      | None =>
          match i with
          | O => None
          | S j => scanBack wrappers j
          end
      end
  | None =>
      match i with
      | O => None
      | S j => scanBack wrappers j
      end
  end.

(** [extractLastMessage] of reactToMessage.ts *)
Definition extractLastMessage (events : ChatEventsResponse)
  : option OCMessageEvent :=
  match events with
  | events_failure _ => None
  | events_success wrappers =>
      match List.length wrappers with
      | O => None
      | S last => scanBack wrappers last
      end
  end.

Record MessageSummary : Type := mkMessageSummary {
  ms_event : OCMessageEvent;
  ms_timestamp : option Z;
  ms_index : Z
}.

(** [extractMessages] of readChatHistory.ts *)
Definition extractMessages (response : ChatEventsResponse)
  : list MessageSummary :=
  match response with
  | events_failure _ => []
  | events_success events =>
      flat_map (fun wrapper =>
                  match asMessage wrapper with
                  | Some m =>
                      [mkMessageSummary m wrapper.(w_timestamp)
                         wrapper.(w_index)]
                  | None => []
                  end) events
  end.

(** [limitValue] of readChatHistory.ts, on integers. *)
Definition limitValue (value min max : Z) : Z :=
  Z.max min (Z.min max value).

(** The page the history handler asks for.  [optionsLimit] and [stateLimit]
    are [options?.limit] and [state?.openchat?.historyLimit] when they are
    integers, [latestEventIndex] the one of the chat summary when it has
    one. *)
Record ChatEventsCriteria : Type := mkCriteria {
  startEventIndex : Z;
  ascending : bool;
  maxEvents : Z;
  maxMessages : Z
}.

Definition historyLimit (optionsLimit stateLimit : option Z) : Z :=
  limitValue (Js.nullish optionsLimit (Js.nullish stateLimit 10%Z)) 1 50.

Definition historyCriteria (optionsLimit stateLimit : option Z)
  (latestEventIndex : option Z) : ChatEventsCriteria :=
  let limit := historyLimit optionsLimit stateLimit in
  let latestEventIndex := Js.nullish latestEventIndex 0%Z in
  {| startEventIndex := Z.max 0 (latestEventIndex - limit);
     ascending := true;
     maxEvents := limit;
     maxMessages := limit |}.

End ChatEvents.

(** ** actions/deleteMessage.ts *)

Module DeleteMessageAction.

(** A message id as the handler may be given it. *)
Inductive IdValue : Type :=
| id_undefined
| id_string (text : Js.str)
| id_number (n : Z)
| id_bigint (n : Z).

(** [Boolean(v)] *)
Definition truthy (v : IdValue) : bool :=
  match v with
  | id_undefined => false
  | id_string text => Js.truthy text
  | id_number n | id_bigint n => negb (n =? 0)%Z
  end.

(** [options?.messageIds]: missing, one value, or an array. *)
Inductive IdsInput : Type :=
| ids_missing
| ids_single (v : IdValue)
| ids_array (values : list IdValue).

Definition normalizeIds (input : IdsInput) : list IdValue :=
  match input with
  | ids_missing => []
  | ids_single v => if truthy v then [v] else []
  | ids_array values => values
  end.

Definition isUndefined (v : IdValue) : bool :=
  match v with
  | id_undefined => true
  | _ => false
  end.

(** [a || b] *)
Definition orValue (a b : IdValue) : IdValue :=
  if truthy a then a else b.

Section WithBigInt.
(** [BigInt(text)]: [None] when it throws. *)
Variable BigInt_ofString : Js.str -> option Z.

(** [typeof value === "bigint" ? value : BigInt(value)], [None] when the
    conversion throws. *)
Definition toBigInt (value : IdValue) : option Z :=
  match value with
  | id_undefined => None
  | id_string text => BigInt_ofString text
  | id_number n => Some n
  | id_bigint n => Some n
  end.

Definition parseMessageIds (values : list IdValue) : list Z :=
  flat_map (fun value =>
              match toBigInt value with
              | Some n => [n]
              | None => []
              end) values.

(** The ids the handler collects before it parses them (lines 101-112):
    the two lists, else the target, and the message of the context when
    nothing but [undefined] is there. *)
Definition providedIds (optionsIds stateIds : IdsInput)
  (optionsTarget stateTarget : IdValue) (contextMessageId : option Js.str)
  : list IdValue :=
  let provided := normalizeIds optionsIds ++ normalizeIds stateIds in
  let provided :=
    match provided with
    | [] => [orValue optionsTarget stateTarget]
    | _ :: _ => provided
    end in
  match provided with
  | [] => [match contextMessageId with
           | Some text => id_string text
           | None => id_undefined
           end]
  | _ :: _ =>
      if forallb isUndefined provided
      then provided ++ [match contextMessageId with
                        | Some text => id_string text
                        | None => id_undefined
                        end]
      else provided
  end.

(** The ids [handler] passes to [client.deleteMessages]; with the empty
    list it warns and deletes nothing. *)
Definition messageIds (optionsIds stateIds : IdsInput)
  (optionsTarget stateTarget : IdValue) (contextMessageId : option Js.str)
  : list Z :=
  parseMessageIds
    (providedIds optionsIds stateIds optionsTarget stateTarget
       contextMessageId).

End WithBigInt.

End DeleteMessageAction.

(** ** actions/reactToMessage.ts: the target of a reaction *)

Module ReactAction.
Import ActionContext ChatEvents DeleteMessageAction.

(** The thumbs-up sign U+1F44D, a surrogate pair. *)
Definition DEFAULT_REACTION : Js.str := [55357; 56397]%N.

(** [(options?.reaction || state?.openchat?.reaction || DEFAULT_REACTION)
    .toString().trim()], for reactions that are strings. *)
Definition reactionText (optionsReaction stateReaction : option Js.str)
  : Js.str :=
  Js.trim
    match optionsReaction with
    | Some (c :: rest) => c :: rest
    | Some [] | None =>
        match stateReaction with
        | Some (c :: rest) => c :: rest
        | Some [] | None => DEFAULT_REACTION
        end
    end.

(** What [client.chatSummary()] resolves to. *)
Inductive ChatSummaryResponse : Type :=
| summary_error
| summary_success (latestEventIndex : option Z).

(** What [client.addReaction] resolves to. *)
Inductive ReactionResponse : Type :=
| reaction_success
| reaction_failure (message : option Js.str) (code : option Z).

(** The page [fetchLatestMessageId] asks for. *)
Definition latestCriteria (latestEventIndex : Z) : ChatEventsCriteria :=
  {| startEventIndex := Z.max 0 (latestEventIndex - 1);
     ascending := true;
     maxEvents := 2;
     maxMessages := 2 |}.

Inductive Effect : Type :=
| LogWarn (message : Js.str)
| LogError (message : Js.str) (detail : option Js.str)
| LogInfo (message : Js.str)
| AddReaction (messageId : Z) (reaction : Js.str) (thread : option Z)
| Callback (text : Js.str) (succeeded : bool).

(** [!messageId] on [bigint | undefined] *)
Definition missing (messageId : option Z) : bool :=
  match messageId with
  | None => true
  | Some n => (n =? 0)%Z
  end.

(** [fetchLatestMessageId].  [summary] is what [client.chatSummary()] comes
    to and [chatEvents] what [client.chatEvents] comes to for a page and a
    thread; the message of [events_failure] is the text the source logs,
    [events.message ?? events.code?.toString() ?? "Unknown error"].  The
    result holds the id, the metadata of the context afterwards and what
    was logged. *)
Definition fetchLatestMessageId (metadata : OpenChatMessageMetadata)
  (summary : Js.result ChatSummaryResponse)
  (chatEvents : ChatEventsCriteria -> option Z ->
                Js.result ChatEventsResponse)
  : option Z * OpenChatMessageMetadata * list Effect :=
  let unexpected (e : Js.str) :=
    (None, metadata,
     [LogError `"[OpenChat] Unexpected error while resolving reaction target"
        (Some e)]) in
  match summary with
  | Js.Throw e => unexpected e
  | Js.Ok summary_error | Js.Ok (summary_success None) =>
      (None, metadata, [])
  | Js.Ok (summary_success (Some latestEventIndex)) =>
      match chatEvents (latestCriteria latestEventIndex)
              metadata.(threadId) with
      | Js.Throw e => unexpected e
      | Js.Ok (events_failure message) =>
          (None, metadata,
           [LogError
              `"[OpenChat] Failed to fetch events while resolving reaction target"
              (Some message)])
      | Js.Ok (events_success wrappers) =>
          match extractLastMessage (events_success wrappers) with
          | None => (None, metadata, [])
          | Some lastMessage =>
              (Some lastMessage.(ev_messageId),
               {| chatKind := metadata.(chatKind);
                  chatId := metadata.(chatId);
                  locationKey := metadata.(locationKey);
                  roomKey := metadata.(roomKey);
                  messageId := Some (Js.ofZ lastMessage.(ev_messageId));
                  threadId := metadata.(threadId);
                  replyToMessageId :=
                    option_map Js.ofZ lastMessage.(repliesTo);
                  apiGateway := metadata.(apiGateway) |},
               [])
          end
      end
  end.

Section WithBigInt.
(** [BigInt(text)]: [None] when it throws. *)
Variable BigInt_ofString : Js.str -> option Z.

Definition safeBigInt (value : IdValue) : option Z :=
  match value with
  | id_undefined => None
  | id_string _ | id_number _ | id_bigint _ =>
      toBigInt BigInt_ofString value
  end.

(** [options?.targetMessageId || state?.openchat?.targetMessageId ||
    context.metadata.messageId] *)
Definition targetId (optionsTarget stateTarget : IdValue)
  (metadata : OpenChatMessageMetadata) : IdValue :=
  orValue (orValue optionsTarget stateTarget)
    match metadata.(messageId) with
    | Some text => id_string text
    | None => id_undefined
    end.

(** [handler].  [context] is what [resolveOpenChatContext] returned,
    [reacted] what [client.addReaction] comes to, [hasCallback] says
    whether a callback was passed.  The handler rejects when
    [addReaction] does. *)
Definition handler (context : option OpenChatResolvedContext)
  (optionsReaction stateReaction : option Js.str)
  (optionsTarget stateTarget : IdValue)
  (summary : Js.result ChatSummaryResponse)
  (chatEvents : ChatEventsCriteria -> option Z ->
                Js.result ChatEventsResponse)
  (reacted : Js.result ReactionResponse) (hasCallback : bool)
  : Js.result unit * list Effect :=
  match context with
  | None =>
      (Js.Ok tt,
       [LogError `"[OpenChat] Unable to resolve context for reaction" None])
  | Some context =>
      let reaction := reactionText optionsReaction stateReaction in
      if negb (Js.truthy reaction)
      then (Js.Ok tt, [LogWarn `"[OpenChat] Reaction text missing"])
      else
        let messageId :=
          safeBigInt (targetId optionsTarget stateTarget context.(metadata)) in
        let '(messageId, metadata, looked) :=
          if missing messageId
          then fetchLatestMessageId context.(metadata) summary chatEvents
          else (messageId, context.(metadata), []) in
        match messageId with
        | Some id =>
            if (id =? 0)%Z
            then
              (Js.Ok tt,
               looked ++
               [LogWarn
                  `"[OpenChat] Could not determine target message id for reaction"])
            else
              match reacted with
              | Js.Throw e =>
                  (Js.Throw e,
                   looked ++ [AddReaction id reaction metadata.(threadId)])
              | Js.Ok (reaction_failure message code) =>
                  let errorMessage :=
                    Js.nullish message
                      (Js.nullish (option_map Js.ofZ code)
                         `"Unknown error") in
                  (Js.Ok tt,
                   looked ++
                   AddReaction id reaction metadata.(threadId) ::
                   LogError `"[OpenChat] Failed to add reaction"
                     (Some errorMessage) ::
                   if hasCallback
                   then [Callback (`"Failed to react in OpenChat: " ++
                                   errorMessage) false]
                   else [])
              | Js.Ok reaction_success =>
                  (Js.Ok tt,
                   looked ++
                   AddReaction id reaction metadata.(threadId) ::
                   LogInfo (`"[OpenChat] Added reaction '" ++ reaction ++
                            `"' in " ++
                            MessageManager.interpolated metadata.(chatId)) ::
                   if hasCallback
                   then [Callback (`"Reacted with " ++ reaction ++
                                   `" in OpenChat") true]
                   else [])
              end
        | None =>
            (Js.Ok tt,
             looked ++
             [LogWarn
                `"[OpenChat] Could not determine target message id for reaction"])
        end
  end.

End WithBigInt.

End ReactAction.

(** ** The shape of a text *)

Module TextShape.

(** The text is empty or starts with a code unit that is not white space. *)
Definition startsClean (s : Js.str) : Prop :=
  match s with
  | [] => True
  | c :: _ => Js.isWhiteSpace c = false
  end.

(** The text is empty or ends with a code unit that is not white space. *)
Definition endsClean (s : Js.str) : Prop := startsClean (rev s).

End TextShape.

(** ** More sample data *)

Module Cases.

(** Message 43 of group a: a picture of a cat, from a user. *)
Definition picture : BotChatEvent :=
  mkBotChatEvent Sample.groupA None
    (message_event
       (mkMessageEvent 43 Sample.newcomer false (Some `"user")
          (image_content (Some `"cat")) None)).

Definition hello : BotChatEvent :=
  Sample.messageFrom (Some `"user") false `"hello".

(** The callback of the message manager for message 42 of group a. *)
Definition callback : MessageManager.ResponseCallback :=
  MessageManager.mkCallback Sample.botClient `"room"
    (Sample.metadataUnder `"group:a") `"incoming" GROUP.

Definition answer (text : Js.str) : ResponseCallback.ResponseContent :=
  ResponseCallback.mkResponseContent (Some text) 0
    (mkMentionContext false false false None).

(** [BigInt] on the strings of decimal digits, the only ones the cases
    below hand to it; any other string is taken to throw. *)
Fixpoint digitsFrom (acc : Z) (s : Js.str) : option Z :=
  match s with
  | [] => Some acc
  | c :: rest =>
      if (48 <=? c)%N && (c <=? 57)%N
      then digitsFrom (10 * acc + Z.of_N (c - 48)) rest
      else None
  end.

Definition digits (s : Js.str) : option Z := digitsFrom 0 s.

End Cases.

(* ================================================================== *)
(** * Part II: facts                                                   *)
(* ================================================================== *)

Unset Implicit Arguments.

(** ** Strings *)

Section StringFacts.

Lemma eqb_refl (a : Js.str) : Js.eqb a a = true.
Proof.
  induction a as [|x a IH]; simpl; [reflexivity|].
  now rewrite N.eqb_refl, IH.
Qed.

Lemma eqb_eq (a b : Js.str) : Js.eqb a b = true <-> a = b.
Proof.
  split.
  - revert b. induction a as [|x a IH]; intros [|y b] H; simpl in H;
      try discriminate; [reflexivity|].
    apply andb_true_iff in H as [Hx Hab].
    apply N.eqb_eq in Hx. apply IH in Hab. now subst.
  - intros ->. apply eqb_refl.
Qed.

Lemma eqb_neq (a b : Js.str) : Js.eqb a b = false <-> a <> b.
Proof.
  split.
  - intros H E. apply eqb_eq in E. congruence.
  - intros H. destruct (Js.eqb a b) eqn:E; [|reflexivity].
    apply eqb_eq in E. contradiction.
Qed.

Lemma truthy_app_l (a b : Js.str) :
  Js.truthy a = true -> Js.truthy (a ++ b) = true.
Proof. destruct a; simpl; [discriminate|reflexivity]. Qed.

Lemma truthy_cons (c : N) (a : Js.str) : Js.truthy (c :: a) = true.
Proof. reflexivity. Qed.

Lemma startsWith_app (p s : Js.str) : Js.startsWith (p ++ s) p = true.
Proof.
  induction p as [|x p IH]; simpl.
  - destruct s; reflexivity.
  - now rewrite N.eqb_refl, IH.
Qed.

Lemma startsWith_nil (s : Js.str) : Js.startsWith s [] = true.
Proof. destruct s; reflexivity. Qed.

Lemma startsWith_prefix (s p : Js.str) :
  Js.startsWith s p = true <-> exists r, s = p ++ r.
Proof.
  split.
  - revert s. induction p as [|y p IH]; intros s H.
    + exists s. reflexivity.
    + destruct s as [|x s]; simpl in H; [discriminate|].
      apply andb_true_iff in H as [Hx Hp].
      apply N.eqb_eq in Hx. destruct (IH _ Hp) as [r ->].
      exists r. now subst.
  - intros [r ->]. apply startsWith_app.
Qed.

(** [s.includes(sub)] holds exactly when [sub] occurs in [s]. *)
Lemma includes_occurs (s sub : Js.str) :
  Js.includes s sub = true <-> exists l r, s = l ++ sub ++ r.
Proof.
  split.
  - induction s as [|x s IH]; cbn [Js.includes]; intros H.
    + rewrite orb_false_r in H. apply startsWith_prefix in H as [r Hr].
      exists [], r. exact Hr.
    + apply orb_true_iff in H as [H|H].
      * apply startsWith_prefix in H as [r Hr]. exists [], r. exact Hr.
      * destruct (IH H) as (l & r & ->). exists (x :: l), r. reflexivity.
  - intros (l & r & ->). induction l as [|x l IH].
    + cbn [app]. destruct (sub ++ r) eqn:E; cbn [Js.includes];
        rewrite <- E, startsWith_app; reflexivity.
    + cbn [app Js.includes]. rewrite IH. apply orb_true_r.
Qed.

Lemma includes_prefix (p r : Js.str) : Js.includes (p ++ r) p = true.
Proof. apply includes_occurs. exists [], r. reflexivity. Qed.

Lemma trimStart_keeps (c : N) (s : Js.str) :
  Js.isWhiteSpace c = false -> Js.trimStart (c :: s) = c :: s.
Proof. intros H. simpl. now rewrite H. Qed.

(** Trimming the front leaves a suffix, and everything from the first
    code unit that is not white space on. *)
Lemma trimStart_app_keeps (l : Js.str) (c : N) (r : Js.str) :
  Js.isWhiteSpace c = false ->
  exists l', Js.trimStart (l ++ c :: r) = l' ++ c :: r.
Proof.
  intros H. induction l as [|x l IH]; simpl.
  - exists []. now rewrite H.
  - destruct (Js.isWhiteSpace x).
    + exact IH.
    + exists (x :: l). reflexivity.
Qed.

(** A text that starts and ends with code units that are not white space
    survives [trim] as a prefix of the result, whatever follows it. *)
Lemma trim_keeps_prefix (a : N) (m : Js.str) (z : N) (rest : Js.str) :
  Js.isWhiteSpace a = false ->
  Js.isWhiteSpace z = false ->
  exists rest', Js.trim ((a :: m ++ [z]) ++ rest) = (a :: m ++ [z]) ++ rest'.
Proof.
  intros Ha Hz. unfold Js.trim, Js.trimEnd.
  change ((a :: m ++ [z]) ++ rest) with (a :: (m ++ [z]) ++ rest).
  rewrite (trimStart_keeps _ _ Ha).
  assert (E : rev (a :: (m ++ [z]) ++ rest) = rev rest ++ z :: rev (a :: m)).
  { change (a :: (m ++ [z]) ++ rest) with ((a :: m ++ [z]) ++ rest).
    rewrite rev_app_distr.
    change (a :: m ++ [z]) with ((a :: m) ++ [z]).
    rewrite rev_app_distr. reflexivity. }
  rewrite E.
  destruct (trimStart_app_keeps (rev rest) z (rev (a :: m)) Hz) as [l' ->].
  exists (rev l').
  rewrite rev_app_distr.
  change (z :: rev (a :: m)) with ([z] ++ rev (a :: m)).
  rewrite rev_app_distr, rev_involutive. simpl.
  now rewrite <- !app_assoc.
Qed.

End StringFacts.

(** ** Maps *)

Section MapFacts.
Variable V : Type.
Implicit Types (m : Js.Map V) (k : Js.str) (v : V).

Lemma get_set_same m k v : Js.get (Js.set m k v) k = Some v.
Proof.
  induction m as [|[k' v'] m IH]; simpl.
  - now rewrite eqb_refl.
  - destruct (Js.eqb k' k) eqn:E; simpl; rewrite E; [reflexivity|exact IH].
Qed.

Lemma get_set_other m k k' v :
  k <> k' -> Js.get (Js.set m k v) k' = Js.get m k'.
Proof.
  intros Hne. induction m as [|[k0 v0] m IH]; simpl.
  - apply eqb_neq in Hne. now rewrite Hne.
  - destruct (Js.eqb k0 k) eqn:E; simpl.
    + apply eqb_eq in E. subst k0.
      apply eqb_neq in Hne. now rewrite Hne.
    + now rewrite IH.
Qed.

Lemma get_None_keys m k : Js.get m k = None <-> ~ In k (Js.keys m).
Proof.
  induction m as [|[k' v'] m IH]; simpl.
  - tauto.
  - destruct (Js.eqb k' k) eqn:E.
    + apply eqb_eq in E. split; [discriminate|]. intros H. exfalso. auto.
    + apply eqb_neq in E. rewrite IH. tauto.
Qed.

Lemma has_get m k : Js.has m k = true <-> exists v, Js.get m k = Some v.
Proof.
  unfold Js.has. destruct (Js.get m k) as [v|].
  - split; [eauto|reflexivity].
  - split; [discriminate|]. intros [v H]. discriminate.
Qed.

(** Deleting a key that is absent changes nothing. *)
Lemma delete_absent m k : Js.get m k = None -> Js.delete m k = m.
Proof.
  induction m as [|[k' v'] m IH]; simpl; [reflexivity|].
  destruct (Js.eqb k' k); [discriminate|].
  intros H. now rewrite IH.
Qed.

Lemma keys_delete m k k' :
  In k' (Js.keys (Js.delete m k)) -> In k' (Js.keys m).
Proof.
  induction m as [|[k0 v0] m IH]; simpl; [tauto|].
  destruct (Js.eqb k0 k); simpl; tauto.
Qed.

Lemma keys_set m k v k' :
  In k' (Js.keys (Js.set m k v)) <-> k' = k \/ In k' (Js.keys m).
Proof.
  induction m as [|[k0 v0] m IH]; simpl.
  - intuition congruence.
  - destruct (Js.eqb k0 k) eqn:E; simpl.
    + apply eqb_eq in E. subst. intuition congruence.
    + rewrite IH. tauto.
Qed.

Lemma NoDup_set m k v : NoDup (Js.keys m) -> NoDup (Js.keys (Js.set m k v)).
Proof.
  induction m as [|[k0 v0] m IH]; simpl; intros H.
  - constructor; [tauto|constructor].
  - inversion H as [|? ? Hnot Hnd]; subst.
    destruct (Js.eqb k0 k) eqn:E; simpl.
    + now constructor.
    + constructor; [|now apply IH].
      rewrite keys_set. apply eqb_neq in E. intuition congruence.
Qed.

Lemma NoDup_delete m k : NoDup (Js.keys m) -> NoDup (Js.keys (Js.delete m k)).
Proof.
  induction m as [|[k0 v0] m IH]; simpl; intros H; [constructor|].
  inversion H as [|? ? Hnot Hnd]; subst.
  destruct (Js.eqb k0 k); simpl; [exact Hnd|].
  constructor; [|now apply IH].
  intros Hin. apply Hnot. eapply keys_delete; eauto.
Qed.

(** On a map, where no key occurs twice, a deleted key is gone. *)
Lemma get_delete_same m k :
  NoDup (Js.keys m) -> Js.get (Js.delete m k) k = None.
Proof.
  induction m as [|[k0 v0] m IH]; simpl; intros H; [reflexivity|].
  inversion H as [|? ? Hnot Hnd]; subst.
  destruct (Js.eqb k0 k) eqn:E; simpl.
  - apply eqb_eq in E. subst. now apply get_None_keys.
  - rewrite E. now apply IH.
Qed.

Lemma get_delete_other m k k' :
  k <> k' -> Js.get (Js.delete m k) k' = Js.get m k'.
Proof.
  intros Hne. induction m as [|[k0 v0] m IH]; simpl; [reflexivity|].
  destruct (Js.eqb k0 k) eqn:E; simpl.
  - apply eqb_eq in E. subst k0. apply eqb_neq in Hne. now rewrite Hne.
  - now rewrite IH.
Qed.

(** [set] never moves the first entry of a map that has one: a new key
    goes to the end, a present key keeps its place. *)
Lemma first_set m k v e :
  Js.first m = Some e ->
  Js.first (Js.set m k v) = Some (fst e, if Js.eqb (fst e) k then v else snd e).
Proof.
  destruct m as [|[k0 v0] m]; simpl; [discriminate|].
  intros [= <-]. simpl. destruct (Js.eqb k0 k); reflexivity.
Qed.

Lemma first_get m k v : Js.first m = Some (k, v) -> Js.get m k = Some v.
Proof.
  destruct m as [|[k0 v0] m]; simpl; [discriminate|].
  intros [= -> ->]. now rewrite eqb_refl.
Qed.

Lemma size_zero m : (Js.size m =? 0)%Z = true <-> m = [].
Proof.
  unfold Js.size. destruct m; simpl; split; intros H;
    try reflexivity; try discriminate.
Qed.

Lemma get_Some_size m k v : Js.get m k = Some v -> (Js.size m =? 0)%Z = false.
Proof.
  destruct m; [discriminate|]. intros _. reflexivity.
Qed.

End MapFacts.

(** ** The Installation Registry *)

Section RegistryFacts.
Import OpenChatClient.

Lemma getLocationKey_truthy (location : Identifier) :
  Js.truthy (getLocationKey location) = true.
Proof. destruct location; reflexivity. Qed.

Lemma RegistryOk_empty : RegistryOk (Js.empty OpenChatInstallation).
Proof. split; constructor. Qed.

Lemma Forall_set (P : Js.str * OpenChatInstallation -> Prop)
  (m : Js.Map OpenChatInstallation) k v :
  Forall P m -> P (k, v) -> Forall P (Js.set m k v).
Proof.
  intros Hm Hkv. induction Hm as [|[k0 v0] m H0 Hm IH]; simpl.
  - constructor; [exact Hkv|constructor].
  - destruct (Js.eqb k0 k) eqn:E.
    + apply eqb_eq in E. subst k0. now constructor.
    + now constructor.
Qed.

Lemma Forall_delete (P : Js.str * OpenChatInstallation -> Prop)
  (m : Js.Map OpenChatInstallation) k :
  Forall P m -> Forall P (Js.delete m k).
Proof.
  intros Hm. induction Hm as [|[k0 v0] m H0 Hm IH]; simpl; [constructor|].
  destruct (Js.eqb k0 k); [exact Hm|now constructor].
Qed.

Lemma RegistryOk_recordInstallation service location record :
  RegistryOk (installations service) ->
  RegistryOk (installations (recordInstallation service location record)).
Proof.
  intros [Hnd Hall]. split; simpl.
  - now apply NoDup_set.
  - apply Forall_set; [exact Hall|]. split; reflexivity.
Qed.

Lemma RegistryOk_recordUninstallation service location :
  RegistryOk (installations service) ->
  RegistryOk (installations (recordUninstallation service location)).
Proof.
  intros [Hnd Hall]. split; simpl.
  - now apply NoDup_delete.
  - now apply Forall_delete.
Qed.

Lemma RegistryOk_routeBotEvent service event apiGateway :
  RegistryOk (installations service) ->
  RegistryOk (installations (Notify.routeBotEvent service event apiGateway)).
Proof.
  intros H. destruct event; cbn [Notify.routeBotEvent]; try exact H.
  - now apply RegistryOk_recordInstallation.
  - now apply RegistryOk_recordUninstallation.
Qed.

(** Every Registry the service can reach is in order. *)
Lemma RegistryOk_serviceAfter deliveries :
  RegistryOk (installations (Notify.serviceAfter deliveries)).
Proof.
  unfold Notify.serviceAfter.
  assert (G : forall service,
             RegistryOk (installations service) ->
             RegistryOk (installations
               (fold_left (fun s d => Notify.routeBotEvent s (fst d) (snd d))
                  deliveries service))).
  { induction deliveries as [|d ds IH]; intros service H; simpl; [exact H|].
    apply IH. now apply RegistryOk_routeBotEvent. }
  apply G. exact RegistryOk_empty.
Qed.

Lemma RegistryOk_first_truthy (m : Js.Map OpenChatInstallation) k i :
  RegistryOk m -> Js.first m = Some (k, i) -> Js.truthy k = true.
Proof.
  intros [_ Hall] Hf. destruct m as [|e m]; [discriminate|].
  simpl in Hf. injection Hf as ->. inversion Hall as [|? ? [Hk _] _]; subst.
  simpl in Hk. rewrite Hk. apply getLocationKey_truthy.
Qed.

(** C6. Installing at a location and then uninstalling it leaves the
    Registry without the key of that location; uninstalling a location whose
    key is absent leaves the Registry as it was, so that a second
    uninstallation changes nothing; and installing again after the
    uninstallation puts an installation with the new record under the key.
    The Registry is any one the service reaches from its start. *)
Theorem C6_install_uninstall :
  forall deliveries location record record',
    let service := Notify.serviceAfter deliveries in
    let key := getLocationKey location in
    let installed := recordInstallation service location record in
    let removed := recordUninstallation installed location in
    Js.get (installations removed) key = None /\
    (Js.get (installations service) key = None ->
     installations (recordUninstallation service location) =
     installations service) /\
    installations (recordUninstallation removed location) =
    installations removed /\
    Js.get (installations (recordInstallation removed location record')) key =
    Some (mkInstallation location (scopeFromLocation location) record').
Proof.
  intros deliveries location record record' service key installed removed.
  assert (Hok : RegistryOk (installations installed)).
  { apply RegistryOk_recordInstallation, RegistryOk_serviceAfter. }
  assert (Hgone : Js.get (installations removed) key = None).
  { simpl. apply get_delete_same. simpl in Hok. apply Hok. }
  repeat split.
  - exact Hgone.
  - intros Habsent. simpl. now apply delete_absent.
  - simpl. apply delete_absent. exact Hgone.
  - simpl. apply get_set_same.
Qed.

(** An uninstallation at a location where the bot is not installed, after
    one installation elsewhere. *)
Lemma C6_install_uninstall_witness :
  let granted := mkPermissions 0 0 31 in
  let service :=
    Notify.serviceAfter
      [(Notify.bot_installed_event (GroupChatIdentifier `"42") granted granted,
        `"https://gateway.example")] in
  installations (recordUninstallation service (DirectChatIdentifier `"u1")) =
  installations service.
Proof.
  intros granted service.
  apply (proj1 (proj2 (C6_install_uninstall
           [(Notify.bot_installed_event (GroupChatIdentifier `"42")
               granted granted, `"https://gateway.example")]
           (DirectChatIdentifier `"u1")
           (mkInstallationRecord `"https://gateway.example" granted granted)
           (mkInstallationRecord `"https://gateway.example" granted granted)))).
  reflexivity.
Defined.

End RegistryFacts.

(** ** Context resolution *)

Section ContextFacts.
Import OpenChatClient ActionContext.

Lemma RegistryOk_get_truthy (m : Js.Map OpenChatInstallation) k i :
  RegistryOk m -> Js.get m k = Some i -> Js.truthy k = true.
Proof.
  intros [_ Hall]. induction Hall as [|[k0 i0] m [Hk _] _ IH]; simpl.
  - discriminate.
  - destruct (Js.eqb k0 k) eqn:E.
    + apply eqb_eq in E. subst k0. intros _. simpl in Hk. rewrite Hk.
      apply getLocationKey_truthy.
    + exact IH.
Qed.

(** [extractMetadata] takes the candidates in the order options, state,
    message and returns the first that carries a non-empty location key. *)
Lemma extractMetadata_priority message state options :
  extractMetadata message state options =
  if hasLocationKey (optionCandidate options) then optionCandidate options
  else if hasLocationKey (stateCandidate state) then stateCandidate state
  else if hasLocationKey (messageCandidate message)
       then messageCandidate message
       else None.
Proof.
  unfold extractMetadata, candidates, optionCandidate, stateCandidate,
    messageCandidate.
  destruct (opt options openchatMetadata) as [mo|];
    [|destruct (opt options options_metadata_openchat) as [mo|]];
    destruct (opt state state_metadata) as [ms|];
    cbn [app find];
    repeat match goal with
           | |- context [hasLocationKey ?c] =>
               lazymatch c with
               | None => change (hasLocationKey None) with false
               | _ => destruct (hasLocationKey c) eqn:?
               end
           end;
    cbn [find]; try reflexivity; try congruence.
Qed.

(** Whatever [extractMetadata] returns carries a non-empty location key:
    the branch of the resolver for a found metadata without one is never
    taken. *)
Lemma extractMetadata_hasLocationKey message state options m :
  extractMetadata message state options = Some m ->
  hasLocationKey (Some m) = true /\
  In (Some m) (candidates message state options).
Proof.
  unfold extractMetadata.
  destruct (find hasLocationKey (candidates message state options))
    as [c|] eqn:E; [|discriminate].
  intros ->. apply find_some in E. tauto.
Qed.

Lemma hasLocationKey_key m :
  hasLocationKey (Some m) = true ->
  exists key, locationKey m = Some key /\ Js.truthy key = true.
Proof.
  unfold hasLocationKey. simpl. destruct (locationKey m) as [key|]; simpl.
  - eauto.
  - discriminate.
Qed.

Lemma completeMetadata_extracted message state options key installation :
  completeMetadata (extractMetadata message state options) key installation =
  match extractMetadata message state options with
  | Some m => m
  | None => buildMetadataFromInstallation key installation None
  end.
Proof.
  destruct (extractMetadata message state options) as [m|] eqn:E;
    [|reflexivity].
  apply extractMetadata_hasLocationKey in E as [E _].
  unfold completeMetadata. now rewrite E.
Qed.

Lemma resolve_by_metadata service message state options m key existing :
  extractMetadata message state options = Some m ->
  locationKey m = Some key ->
  Js.get (installations service) key = Some existing ->
  resolveOpenChatContext (Some service) message state options =
  Some (contextOf service m existing).
Proof.
  intros Hm Hkey Hget.
  destruct (extractMetadata_hasLocationKey _ _ _ _ Hm) as [Hhas _].
  destruct (hasLocationKey_key _ Hhas) as (key' & Hkey' & Htruthy).
  assert (key' = key) by congruence. subst key'.
  unfold resolveOpenChatContext, getInstallations. cbv zeta.
  rewrite (get_Some_size _ _ _ _ Hget).
  unfold pickInstallation, byMetadata. rewrite Hm. cbn [opt].
  rewrite Hkey, Htruthy, Hget. cbn [orElse settled]. rewrite Htruthy.
  unfold completeMetadata. rewrite Hhas. reflexivity.
Qed.

Lemma resolve_by_fallback service message state options key first :
  RegistryOk (installations service) ->
  Js.first (installations service) = Some (key, first) ->
  (forall c k, In (Some c) (candidates message state options) ->
               locationKey c = Some k ->
               Js.get (installations service) k = None) ->
  (forall k, opt options options_locationKey = Some k \/
             opt state state_locationKey = Some k ->
             Js.get (installations service) k = None) ->
  resolveOpenChatContext (Some service) message state options =
  Some (contextOf service
          match extractMetadata message state options with
          | Some m => m
          | None => buildMetadataFromInstallation key first None
          end first).
Proof.
  intros Hok Hfirst Hcand Hpref.
  unfold resolveOpenChatContext, getInstallations. cbv zeta.
  rewrite (get_Some_size _ _ _ _ (first_get _ _ _ _ Hfirst)).
  assert (Hmeta : byMetadata (installations service)
                    (extractMetadata message state options) = None).
  { unfold byMetadata.
    destruct (extractMetadata message state options) as [m|] eqn:Em;
      [|reflexivity].
    apply extractMetadata_hasLocationKey in Em as [_ Hin]. cbn [opt].
    destruct (locationKey m) as [k|] eqn:Ek; [|reflexivity].
    rewrite (Hcand _ _ Hin Ek). now destruct (Js.truthy k). }
  assert (Hkey : byPreferredKey (installations service) state options = None).
  { unfold byPreferredKey, preferredKey, Js.nullish_opt.
    destruct (opt options options_locationKey) as [k|] eqn:Eo.
    - rewrite (Hpref k (or_introl eq_refl)).
      now destruct (Js.truthy k && Js.has (installations service) k).
    - destruct (opt state state_locationKey) as [k|] eqn:Es; [|reflexivity].
      rewrite (Hpref k (or_intror eq_refl)).
      now destruct (Js.truthy k && Js.has (installations service) k). }
  unfold pickInstallation, byFirstEntry.
  rewrite Hmeta, Hkey, Hfirst. cbn [orElse settled].
  rewrite (RegistryOk_first_truthy _ _ _ Hok Hfirst).
  rewrite completeMetadata_extracted. reflexivity.
Qed.

Lemma resolve_empty service message state options :
  installations service = [] ->
  resolveOpenChatContext (Some service) message state options = None.
Proof.
  intros H. unfold resolveOpenChatContext, getInstallations.
  now rewrite H.
Qed.

(** C1, as the code has it. The resolver takes the candidates in the order
    options, state, message and selects the first that carries a non-empty
    location key, whether that key resolves in the Registry or not; when the
    key of the selected candidate resolves, the context is built from that
    candidate and the installation under its key; in particular, when all
    three candidates carry distinct keys that resolve, the context is the one
    of the metadata of the options. *)
Theorem C1_context_priority :
  forall deliveries message state options,
    let service := Notify.serviceAfter deliveries in
    let registry := installations service in
    extractMetadata message state options =
      (if hasLocationKey (optionCandidate options)
       then optionCandidate options
       else if hasLocationKey (stateCandidate state)
       then stateCandidate state
       else if hasLocationKey (messageCandidate message)
       then messageCandidate message
       else None) /\
    (forall m key existing,
       extractMetadata message state options = Some m ->
       locationKey m = Some key ->
       Js.get registry key = Some existing ->
       resolveOpenChatContext (Some service) message state options =
       Some (contextOf service m existing)) /\
    (forall mo ms mm ko ks km io is_ im,
       optionCandidate options = Some mo ->
       stateCandidate state = Some ms ->
       messageCandidate message = Some mm ->
       locationKey mo = Some ko ->
       locationKey ms = Some ks ->
       locationKey mm = Some km ->
       ko <> ks -> ko <> km -> ks <> km ->
       Js.get registry ko = Some io ->
       Js.get registry ks = Some is_ ->
       Js.get registry km = Some im ->
       resolveOpenChatContext (Some service) message state options =
       Some (contextOf service mo io)).
Proof.
  intros deliveries message state options service registry.
  split; [apply extractMetadata_priority|].
  split; [intros m key existing; apply resolve_by_metadata|].
  intros mo ms mm ko ks km io is_ im Ho _ _ Hko _ _ _ _ _ Hio _ _.
  apply resolve_by_metadata with (key := ko); [|exact Hko|exact Hio].
  rewrite extractMetadata_priority, Ho.
  unfold hasLocationKey. cbn [opt]. rewrite Hko. cbn [Js.truthy_opt].
  now rewrite (RegistryOk_get_truthy _ _ _
                 (RegistryOk_serviceAfter deliveries) Hio).
Qed.

(** Three candidates under the keys of three installations: the one of the
    options is taken. *)
Lemma C1_context_priority_witness :
  let message := Sample.memoryWith (Some (Sample.metadataUnder `"direct:u")) in
  let state := Some (Sample.stateWith (Sample.metadataUnder `"group:a")) in
  let options := Some (Sample.optionsWith (Sample.metadataUnder `"group:b")) in
  let resolved :=
    Some (contextOf Sample.service (Sample.metadataUnder `"group:b")
            (Sample.installationAt Sample.groupB)) in
  resolveOpenChatContext (Some Sample.service) message state options =
    resolved /\
  resolveOpenChatContext (Some Sample.service) message state options =
    resolved.
Proof.
  intros message state options resolved.
  pose proof (C1_context_priority Sample.deliveries message state options)
    as (_ & Hselected & Hall).
  split.
  - apply Hselected with (key := `"group:b"); reflexivity.
  - apply Hall
      with (ms := Sample.metadataUnder `"group:a")
           (mm := Sample.metadataUnder `"direct:u")
           (ko := `"group:b") (ks := `"group:a") (km := `"direct:u")
           (is_ := Sample.installationAt Sample.groupA)
           (im := Sample.installationAt Sample.directU);
      try reflexivity; vm_compute; discriminate.
Defined.

(** C1, as it is stated, fails: the options carry a metadata whose location
    key is not in the Registry, the state one whose key is.  The resolver
    selects the metadata of the options all the same, and the installation
    is neither that of the state's key: it is the first of the Registry. *)
Lemma C1_counterexample :
  let unresolvable := Sample.metadataUnder `"group:zz" in
  let resolvable := Sample.metadataUnder `"group:b" in
  Js.get (installations Sample.service) `"group:zz" = None /\
  Js.get (installations Sample.service) `"group:b" =
    Some (Sample.installationAt Sample.groupB) /\
  resolveOpenChatContext (Some Sample.service)
    (Sample.memoryWith None)
    (Some (Sample.stateWith resolvable))
    (Some (Sample.optionsWith unresolvable)) =
  Some (contextOf Sample.service unresolvable
          (Sample.installationAt Sample.groupA)).
Proof. repeat split. Qed.

(** C3 at a failing input. The message carries a metadata with an empty
    location key, message id 42, thread 7 and a gateway of its own.
    [extractMetadata] passes over it, so the resolver synthesizes the
    metadata from the installation alone: the message id is empty, there is
    no thread and the gateway is the one of the installation.  The merge of
    lines 91-97, which would have kept the three, is not what comes out. *)
Theorem C3_found_metadata_without_key_not_merged :
  let found := Sample.metadataWithoutKey in
  let first := Sample.installationAt Sample.groupA in
  extractMetadata (Sample.memoryWith (Some found)) None None = None /\
  resolveOpenChatContext (Some Sample.service)
    (Sample.memoryWith (Some found)) None None =
  Some (contextOf Sample.service
          (buildMetadataFromInstallation `"group:a" first None) first) /\
  buildMetadataFromInstallation `"group:a" first None =
    {| chatKind := Some group;
       chatId := Some `"a";
       locationKey := Some `"group:a";
       roomKey := Some `"a";
       messageId := Some [];
       threadId := None;
       replyToMessageId := None;
       apiGateway := Some Sample.gateway |} /\
  completeMetadata (Some found) `"group:a" first =
    {| chatKind := Some group;
       chatId := Some `"a";
       locationKey := Some `"group:a";
       roomKey := Some `"a:7";
       messageId := Some `"42";
       threadId := Some 7%Z;
       replyToMessageId := None;
       apiGateway := Some `"https://other.example" |}.
Proof. repeat split. Qed.

(** C5. With an empty Registry the resolution returns [None], and so it
    does without the service.  In a Registry the service has reached, when
    no candidate metadata carries a key that is in the Registry and neither
    preferred location key is in it, the resolution returns a context with
    the first installation of the Registry in insertion order; after
    installations at A and then at B, with no metadata at all, that is the
    installation at A, whose metadata is synthesized. *)
Theorem C5_fallback_first_installation :
  forall deliveries message state options,
    let service := Notify.serviceAfter deliveries in
    let registry := installations service in
    resolveOpenChatContext None message state options = None /\
    (registry = [] ->
     resolveOpenChatContext (Some service) message state options = None) /\
    (forall key first,
       Js.first registry = Some (key, first) ->
       (forall c k, In (Some c) (candidates message state options) ->
                    locationKey c = Some k -> Js.get registry k = None) ->
       (forall k, opt options options_locationKey = Some k \/
                  opt state state_locationKey = Some k ->
                  Js.get registry k = None) ->
       exists m,
         resolveOpenChatContext (Some service) message state options =
         Some (contextOf service m first)) /\
    (forall A B recordA recordB,
       getLocationKey A <> getLocationKey B ->
       memory_openchat message = None ->
       let installedA := recordInstallation OpenChatClient.create A recordA in
       let installedB := recordInstallation installedA B recordB in
       let first := mkInstallation A (scopeFromLocation A) recordA in
       resolveOpenChatContext (Some installedB) message None None =
       Some (contextOf installedB
               (buildMetadataFromInstallation (getLocationKey A) first None)
               first)).
Proof.
  intros deliveries message state options service registry.
  split; [reflexivity|].
  split; [apply resolve_empty|].
  split.
  - intros key first Hfirst Hcand Hpref. eexists.
    apply resolve_by_fallback with (key := key); try assumption.
    apply RegistryOk_serviceAfter.
  - intros A B recordA recordB Hne Hmsg installedA installedB first.
    assert (Hok : RegistryOk (installations installedB)).
    { do 2 apply RegistryOk_recordInstallation. apply RegistryOk_empty. }
    assert (Hfirst : Js.first (installations installedB) =
                     Some (getLocationKey A, first)).
    { simpl. apply eqb_neq in Hne. now rewrite Hne. }
    rewrite (resolve_by_fallback installedB message None None
               (getLocationKey A) first Hok Hfirst).
    + rewrite extractMetadata_priority.
      unfold optionCandidate, stateCandidate, messageCandidate.
      rewrite Hmsg. reflexivity.
    + intros c k Hin. unfold candidates in Hin. rewrite Hmsg in Hin.
      simpl in Hin. destruct Hin as [Hin|[]]. discriminate.
    + intros k [H|H]; discriminate.
Qed.

(** No metadata and no preferred key: the installation of group a, the
    first one, is taken. *)
Lemma C5_fallback_first_installation_witness :
  let record := mkInstallationRecord Sample.gateway Sample.granted
                  Sample.granted in
  let installedB :=
    recordInstallation
      (recordInstallation OpenChatClient.create Sample.groupA record)
      Sample.groupB record in
  (exists m,
     resolveOpenChatContext (Some Sample.service) (Sample.memoryWith None)
       None None =
     Some (contextOf Sample.service m (Sample.installationAt Sample.groupA)))
  /\
  resolveOpenChatContext (Some installedB) (Sample.memoryWith None) None None =
  Some (contextOf installedB
          (buildMetadataFromInstallation `"group:a"
             (Sample.installationAt Sample.groupA) None)
          (Sample.installationAt Sample.groupA)).
Proof.
  intros record installedB.
  pose proof (C5_fallback_first_installation Sample.deliveries
                (Sample.memoryWith None) None None)
    as (_ & _ & Hfirst & Hscenario).
  split.
  - apply Hfirst with (key := `"group:a").
    + reflexivity.
    + intros c k Hin. simpl in Hin. destruct Hin as [Hin|[]]. discriminate.
    + intros k [H|H]; discriminate.
  - apply (Hscenario Sample.groupA Sample.groupB record record).
    + vm_compute. discriminate.
    + reflexivity.
Defined.

End ContextFacts.

(** ** The user directory *)

Section DirectoryFacts.
Import UserDirectory DirectoryFrame.
Variable remote : Remote.

Lemma sameStore_refl d : sameStore d d.
Proof. repeat split. Qed.

Lemma sameStore_trans d1 d2 d3 :
  sameStore d1 d2 -> sameStore d2 d3 -> sameStore d1 d3.
Proof. unfold sameStore. intuition congruence. Qed.

Lemma onlyWarned_refl d : onlyWarned d d.
Proof. split; [apply sameStore_refl|reflexivity]. Qed.

Lemma onlyWarned_trans d1 d2 d3 :
  onlyWarned d1 d2 -> onlyWarned d2 d3 -> onlyWarned d1 d3.
Proof.
  intros [S1 Q1] [S2 Q2]. split; [eapply sameStore_trans; eauto|congruence].
Qed.

Lemma onlyWarned_addWarning d message detail :
  onlyWarned d (addWarning d message detail).
Proof. repeat split. Qed.

Lemma onlyWarned_warnedFor ids : forall d, onlyWarned d (warnedFor remote d ids).
Proof.
  induction ids as [|id ids IH]; intros d; simpl; [apply onlyWarned_refl|].
  destruct (encoded remote id).
  - apply IH.
  - eapply onlyWarned_trans; [apply onlyWarned_addWarning|apply IH].
Qed.

(** Encoding never throws: every id yields its bytes or [None], and each id
    that does not encode leaves one warning. *)
Lemma mapM_principalToBytes ids : forall d,
  mapM (principalToBytes remote) ids d =
  (Js.Ok (map (encoded remote) ids), warnedFor remote d ids).
Proof.
  induction ids as [|id ids IH]; intros d; [reflexivity|].
  cbn [mapM map warnedFor]. unfold bind at 1.
  unfold principalToBytes, encoded.
  destruct (Principal_fromText remote id) as [bytes|e]; cbn.
  - unfold bind at 1. rewrite IH. reflexivity.
  - unfold bind at 1. rewrite IH. reflexivity.
Qed.

Lemma mapM_mapSummary users : forall d,
  exists profiles d',
    mapM (mapSummary remote) users d = (Js.Ok profiles, d') /\
    onlyWarned d d'.
Proof.
  induction users as [|u users IH]; intros d.
  - exists [], d. split; [reflexivity|apply onlyWarned_refl].
  - cbn [mapM]. unfold bind at 1.
    assert (H : exists o d1, mapSummary remote u d = (Js.Ok o, d1) /\
                             onlyWarned d d1).
    { unfold mapSummary, principalToText, bind.
      destruct (user_id u) as [text|bytes]; cbn.
      - destruct text; eexists _, d; (split; [reflexivity|apply onlyWarned_refl]).
      - destruct (Principal_toText remote bytes) as [text|e]; cbn.
        + destruct text; eexists _, d;
            (split; [reflexivity|apply onlyWarned_refl]).
        + eexists _, _. split; [reflexivity|apply onlyWarned_addWarning]. }
    destruct H as (o & d1 & -> & H1).
    destruct (IH d1) as (ps & d2 & E & H2).
    unfold bind. rewrite E. cbn. eexists _, d2.
    split; [reflexivity|eapply onlyWarned_trans; eauto].
Qed.

(** With no id that encodes, [lookupProfiles] returns the empty list and
    only the warnings are new. *)
Lemma lookupProfiles_none ids d :
  somes (map (encoded remote) ids) = [] ->
  lookupProfiles remote ids d = (Js.Ok [], warnedFor remote d ids).
Proof.
  intros H. unfold lookupProfiles, bind at 1.
  rewrite mapM_principalToBytes, H. reflexivity.
Qed.

(** With an id that encodes and a canister id that decodes, one query goes
    out, for the ids that encode, in their order. *)
Lemma lookupProfiles_some ids d v vs canister :
  somes (map (encoded remote) ids) = v :: vs ->
  Principal_fromText remote (storageIndexCanisterId d) = Js.Ok canister ->
  exists r d',
    lookupProfiles remote ids d = (r, d') /\
    sameStore d d' /\
    remoteQueries d' = remoteQueries d ++ [v :: vs].
Proof.
  intros Hvalid Hcanister.
  destruct (onlyWarned_warnedFor ids d) as [Hstore Hq].
  assert (Hc : storageIndexCanisterId (warnedFor remote d ids) =
               storageIndexCanisterId d) by apply Hstore.
  unfold lookupProfiles, bind at 1.
  rewrite mapM_principalToBytes, Hvalid.
  unfold bind at 1, remoteQuery, bind at 1, gets.
  rewrite Hc, Hcanister. unfold bind at 1, noteQuery, modify, ret.
  set (dq := addQuery (warnedFor remote d ids) (v :: vs)).
  assert (Hdq : sameStore d dq /\
                remoteQueries dq = remoteQueries d ++ [v :: vs]).
  { split; [exact Hstore|]. simpl. now rewrite Hq. }
  destruct (agent_query remote canister (v :: vs)) as [e| |[users|]].
  - eexists _, dq. split; [reflexivity|exact Hdq].
  - eexists _, dq. split; [reflexivity|exact Hdq].
  - destruct (mapM_mapSummary users dq) as (ps & d' & E & [Hs' Hq']).
    unfold bind. rewrite E. eexists _, d'. split; [reflexivity|].
    destruct Hdq as [Hs Hqq].
    split; [eapply sameStore_trans; eauto|congruence].
  - eexists _, dq. split; [reflexivity|exact Hdq].
Qed.

(** A lookup leaves the cache and the configuration alone. *)
Lemma lookupProfiles_sameStore ids d :
  sameStore d (snd (lookupProfiles remote ids d)).
Proof.
  destruct (onlyWarned_warnedFor ids d) as [Hstore Hq].
  destruct (somes (map (encoded remote) ids)) as [|v vs] eqn:Hvalid.
  - rewrite (lookupProfiles_none _ _ Hvalid). exact Hstore.
  - destruct (Principal_fromText remote (storageIndexCanisterId d))
      as [canister|e] eqn:Hcanister.
    + destruct (lookupProfiles_some _ _ _ _ _ Hvalid Hcanister)
        as (r & d' & -> & Hs & _). exact Hs.
    + assert (Hc : storageIndexCanisterId (warnedFor remote d ids) =
                   storageIndexCanisterId d) by apply Hstore.
      unfold lookupProfiles, bind at 1.
      rewrite mapM_principalToBytes, Hvalid.
      unfold bind at 1, remoteQuery, bind at 1, gets.
      rewrite Hc, Hcanister. exact Hstore.
Qed.

Lemma warnings_warnedFor ids : forall d,
  warnings (warnedFor remote d ids) =
  warnings d ++
  map (fun id => (invalidPrincipal, id))
    (filter (fun id => match encoded remote id with
                       | Some _ => false
                       | None => true
                       end) ids).
Proof.
  induction ids as [|id ids IH]; intros d; simpl.
  - now rewrite app_nil_r.
  - destruct (encoded remote id); rewrite IH; [reflexivity|].
    simpl. now rewrite <- app_assoc.
Qed.

(** The ids that encode, alone: they encode to the same bytes and leave no
    warning. *)
Lemma somes_encoded_filter ids :
  somes (map (encoded remote)
           (filter (fun id => match encoded remote id with
                              | Some _ => true
                              | None => false
                              end) ids)) =
  somes (map (encoded remote) ids).
Proof.
  induction ids as [|id ids IH]; [reflexivity|].
  cbn [filter map]. destruct (encoded remote id) as [bytes|] eqn:E.
  - cbn [map]. rewrite E. unfold somes in *. cbn [flat_map].
    now rewrite IH.
  - unfold somes in *. cbn [flat_map app]. exact IH.
Qed.

Lemma warnedFor_filter ids : forall d,
  warnedFor remote d
    (filter (fun id => match encoded remote id with
                       | Some _ => true
                       | None => false
                       end) ids) = d.
Proof.
  induction ids as [|id ids IH]; intros d; [reflexivity|].
  cbn [filter]. destruct (encoded remote id) as [bytes|] eqn:E.
  - cbn [warnedFor]. rewrite E. apply IH.
  - apply IH.
Qed.

(** What [lookupProfiles] comes to once an id encodes: the ids that do not
    are behind it, as warnings, and the outcome is the one of the query for
    the ids that do. *)
Lemma lookupProfiles_query ids d v vs :
  somes (map (encoded remote) ids) = v :: vs ->
  let warned := warnedFor remote d ids in
  lookupProfiles remote ids d =
    match Principal_fromText remote (storageIndexCanisterId d) with
    | Js.Throw e => (Js.Throw e, warned)
    | Js.Ok canister =>
        let asked := addQuery warned (v :: vs) in
        match agent_query remote canister (v :: vs) with
        | QueryThrows e => (Js.Throw e, asked)
        | QueryNotReplied =>
            (Js.Throw (`"User directory query was rejected for " ++
                       storageIndexCanisterId d), asked)
        | QueryReplied None => (Js.Ok [], asked)
        | QueryReplied (Some users) =>
            match mapM (mapSummary remote) users asked with
            | (Js.Ok profiles, d') => (Js.Ok (somes profiles), d')
            | (Js.Throw e, d') => (Js.Throw e, d')
            end
        end
    end.
Proof.
  intros Hvalid warned.
  destruct (onlyWarned_warnedFor ids d) as [Hstore Hq].
  assert (Hc : storageIndexCanisterId warned = storageIndexCanisterId d)
    by apply Hstore.
  unfold lookupProfiles, bind at 1.
  rewrite mapM_principalToBytes, Hvalid. fold warned.
  unfold bind at 1, remoteQuery, bind at 1, gets.
  rewrite Hc.
  destruct (Principal_fromText remote (storageIndexCanisterId d))
    as [canister|e]; [|reflexivity].
  unfold bind at 1, noteQuery, modify, ret. cbv zeta.
  destruct (agent_query remote canister (v :: vs)) as [e| |[users|]];
    try reflexivity.
  unfold bind, gets, throw. cbn. now rewrite Hc.
Qed.

(** C9. [lookupProfiles] never throws for an id that does not encode: it
    logs the id and drops it, and goes on as it would with the ids that
    encode alone.  When no id encodes, and so for the empty list, it returns
    the empty list and no remote query goes out.  Otherwise one query goes
    out, for the ids that encode, and its outcome is the outcome of the
    call: the profiles of the reply, or the error of the canister id, of the
    query or of the rejection. *)
Theorem C9_lookup_drops_invalid_ids :
  forall userIds d,
    let valid := somes (map (encoded remote) userIds) in
    let warned := warnedFor remote d userIds in
    mapM (principalToBytes remote) userIds d =
      (Js.Ok (map (encoded remote) userIds), warned) /\
    warnings warned =
      warnings d ++
      map (fun id => (invalidPrincipal, id))
        (filter (fun id => match encoded remote id with
                           | Some _ => false
                           | None => true
                           end) userIds) /\
    (valid = [] ->
     lookupProfiles remote userIds d = (Js.Ok [], warned) /\
     remoteQueries warned = remoteQueries d) /\
    lookupProfiles remote [] d = (Js.Ok [], d) /\
    (forall canister,
       valid <> [] ->
       Principal_fromText remote (storageIndexCanisterId d) =
         Js.Ok canister ->
       exists r d',
         lookupProfiles remote userIds d = (r, d') /\
         remoteQueries d' = remoteQueries d ++ [valid]) /\
    lookupProfiles remote userIds d =
      lookupProfiles remote
        (filter (fun id => match encoded remote id with
                           | Some _ => true
                           | None => false
                           end) userIds) warned /\
    (forall canister,
       valid <> [] ->
       Principal_fromText remote (storageIndexCanisterId d) =
         Js.Ok canister ->
       let asked := addQuery warned valid in
       lookupProfiles remote userIds d =
         match agent_query remote canister valid with
         | QueryThrows e => (Js.Throw e, asked)
         | QueryNotReplied =>
             (Js.Throw (`"User directory query was rejected for " ++
                        storageIndexCanisterId d), asked)
         | QueryReplied None => (Js.Ok [], asked)
         | QueryReplied (Some users) =>
             match mapM (mapSummary remote) users asked with
             | (Js.Ok profiles, d') => (Js.Ok (somes profiles), d')
             | (Js.Throw e, d') => (Js.Throw e, d')
             end
         end) /\
    (forall e,
       valid <> [] ->
       Principal_fromText remote (storageIndexCanisterId d) = Js.Throw e ->
       lookupProfiles remote userIds d = (Js.Throw e, warned)).
Proof.
  intros userIds d valid warned.
  split; [apply mapM_principalToBytes|].
  split; [apply warnings_warnedFor|].
  split; [|split; [|split; [|split; [|split]]]].
  - intros H. split; [now apply lookupProfiles_none|].
    apply onlyWarned_warnedFor.
  - reflexivity.
  - intros canister Hvalid Hcanister. subst valid.
    destruct (somes (map (encoded remote) userIds)) as [|v vs] eqn:E;
      [contradiction|].
    destruct (lookupProfiles_some _ _ _ _ _ E Hcanister)
      as (r & d' & Hrun & _ & Hq).
    now exists r, d'.
  - unfold lookupProfiles, bind at 1.
    rewrite mapM_principalToBytes.
    symmetry. unfold bind at 1.
    rewrite mapM_principalToBytes, somes_encoded_filter, warnedFor_filter.
    reflexivity.
  - intros canister Hvalid Hcanister asked. subst asked valid.
    destruct (somes (map (encoded remote) userIds)) as [|v vs] eqn:E;
      [contradiction|].
    rewrite (lookupProfiles_query _ _ _ _ E), Hcanister. reflexivity.
  - intros e Hvalid Hcanister. subst valid.
    destruct (somes (map (encoded remote) userIds)) as [|v vs] eqn:E;
      [contradiction|].
    rewrite (lookupProfiles_query _ _ _ _ E), Hcanister. reflexivity.
Qed.

(** [getProfile], case by case. *)
Lemma getProfile_cases apiGateway userId now later d :
  getProfile remote apiGateway userId now later d =
  let scopeKey := scopeKeyOf d apiGateway in
  let key := cacheKey scopeKey userId in
  if negb (Js.truthy scopeKey) || negb (Js.truthy userId)
  then (Js.Ok None, d)
  else
    match Js.get (cache d) key with
    | Some c =>
        if (expiresAt c >? now)%Z then (Js.Ok (Some (profile c)), d)
        else afterLookup key later (lookupProfiles remote [userId] d)
    | None => afterLookup key later (lookupProfiles remote [userId] d)
    end.
Proof.
  unfold getProfile, scopeKeyOf. cbv zeta. unfold bind at 1, gets at 1.
  destruct (negb (Js.truthy (Js.nullish apiGateway (storageIndexCanisterId d)))
            || negb (Js.truthy userId)); [reflexivity|].
  unfold bind at 1, gets at 1.
  assert (Hfetch : forall key,
    tryCatch
      (profiles <- lookupProfiles remote [userId];;
       match profiles with
       | [] => ret None
       | profile :: _ =>
           ttl <- gets cacheTtlMs;;
           cacheSet key {| profile := profile; expiresAt := later + ttl |};;;
           ret (Some profile)
       end)
      (fun e =>
         warn `"[OpenChat] Failed to resolve user profile" e;;; ret None) d =
    afterLookup key later (lookupProfiles remote [userId] d)).
  { intros key. unfold tryCatch, bind at 1.
    destruct (lookupProfiles remote [userId] d) as [[[|p ps]|e] d'];
      reflexivity. }
  destruct (Js.get (cache d) _) as [c|]; [|apply Hfetch].
  destruct (expiresAt c >? now)%Z; [reflexivity|apply Hfetch].
Qed.

Lemma lookupProfiles_found_inv ids d p rest d' :
  lookupProfiles remote ids d = (Js.Ok (p :: rest), d') ->
  exists v vs canister,
    somes (map (encoded remote) ids) = v :: vs /\
    Principal_fromText remote (storageIndexCanisterId d) = Js.Ok canister.
Proof.
  intros H.
  destruct (somes (map (encoded remote) ids)) as [|v vs] eqn:Hvalid.
  - rewrite (lookupProfiles_none _ _ Hvalid) in H. discriminate.
  - destruct (Principal_fromText remote (storageIndexCanisterId d))
      as [canister|e] eqn:Hcanister; [now exists v, vs, canister|].
    exfalso.
    assert (Hc : storageIndexCanisterId (warnedFor remote d ids) =
                 storageIndexCanisterId d) by apply onlyWarned_warnedFor.
    revert H. unfold lookupProfiles, bind at 1.
    rewrite mapM_principalToBytes, Hvalid.
    unfold bind at 1, remoteQuery, bind at 1, gets.
    rewrite Hc, Hcanister. discriminate.
Qed.

Lemma afterLookup_queries key later looked :
  remoteQueries (snd (afterLookup key later looked)) =
  remoteQueries (snd looked).
Proof. destruct looked as [[[|p ps]|e] d']; reflexivity. Qed.

(** C7, as the code has it. With an empty scope key or user id
    [getProfile] returns [None] and touches nothing.  Otherwise: an entry
    under the cache key that expires after [now] is returned and the
    directory is left as it is, so no lookup runs; without such an entry
    [lookupProfiles [userId]] runs, its first profile is stored to expire
    at [later + ttl] and returned, and an empty or a failed lookup gives
    [None] and never throws.  The time to live is 15 minutes by default.
    A profile stored at [t0] is served from the cache one millisecond
    before [t0 + ttl] and looked up again, with one more remote query, one
    millisecond after. *)
Theorem C7_getProfile_cache :
  forall apiGateway userId now later d,
    let scopeKey := scopeKeyOf d apiGateway in
    let key := cacheKey scopeKey userId in
    (Js.truthy scopeKey = false \/ Js.truthy userId = false ->
     getProfile remote apiGateway userId now later d = (Js.Ok None, d)) /\
    (Js.truthy scopeKey = true -> Js.truthy userId = true ->
     (forall c,
        Js.get (cache d) key = Some c -> (now < expiresAt c)%Z ->
        getProfile remote apiGateway userId now later d =
        (Js.Ok (Some (profile c)), d)) /\
     ((forall c, Js.get (cache d) key = Some c -> (expiresAt c <= now)%Z) ->
      getProfile remote apiGateway userId now later d =
      afterLookup key later (lookupProfiles remote [userId] d))) /\
    (forall looked,
       exists r d', afterLookup key later looked = (Js.Ok r, d')) /\
    (forall canister,
       cacheTtlMs (create (mkDirectoryOptions canister None)) =
       (15 * 60 * 1000)%Z) /\
    (forall p rest d' t0 later',
       Js.truthy scopeKey = true -> Js.truthy userId = true ->
       lookupProfiles remote [userId] d = (Js.Ok (p :: rest), d') ->
       let ttl := cacheTtlMs d in
       let stored := setCached d' key (mkCached p (t0 + ttl)) in
       afterLookup key t0 (lookupProfiles remote [userId] d) =
         (Js.Ok (Some p), stored) /\
       getProfile remote apiGateway userId (t0 + ttl - 1) later' stored =
         (Js.Ok (Some p), stored) /\
       getProfile remote apiGateway userId (t0 + ttl + 1) later' stored =
         afterLookup key later' (lookupProfiles remote [userId] stored) /\
       remoteQueries
         (snd (getProfile remote apiGateway userId (t0 + ttl + 1) later'
                 stored)) =
       remoteQueries stored ++ [somes (map (encoded remote) [userId])]).
Proof.
  intros apiGateway userId now later d scopeKey key.
  split; [|split; [|split; [|split]]].
  - intros H. rewrite getProfile_cases. cbv zeta. fold scopeKey.
    destruct H as [-> | ->]; [reflexivity|].
    now rewrite orb_true_r.
  - intros Hscope Huser. split.
    + intros c Hget Hfresh. rewrite getProfile_cases. cbv zeta.
      fold scopeKey. fold key. rewrite Hscope, Huser, Hget. cbn [negb orb].
      replace (expiresAt c >? now)%Z with true by (symmetry; lia).
      reflexivity.
    + intros Hstale. rewrite getProfile_cases. cbv zeta.
      fold scopeKey. fold key. rewrite Hscope, Huser. cbn [negb orb].
      destruct (Js.get (cache d) key) as [c|] eqn:Hget; [|reflexivity].
      specialize (Hstale c eq_refl).
      replace (expiresAt c >? now)%Z with false by (symmetry; lia).
      reflexivity.
  - intros [[[|p ps]|e] d']; simpl; eauto.
  - reflexivity.
  - intros p rest d' t0 later' Hscope Huser Hlook ttl stored.
    pose proof (lookupProfiles_sameStore [userId] d) as Hsame.
    rewrite Hlook in Hsame. destruct Hsame as (Hcache & Httl & Hcanister).
    cbn [snd] in Hcache, Httl, Hcanister.
    assert (Hkey : scopeKeyOf stored apiGateway = scopeKey).
    { unfold scopeKeyOf, scopeKey, stored. cbn. now rewrite Hcanister. }
    assert (Hget : Js.get (cache stored) key =
                   Some (mkCached p (t0 + ttl))).
    { unfold stored. cbn. apply get_set_same. }
    split; [|split; [|split]].
    + rewrite Hlook. unfold afterLookup, stored, ttl. now rewrite Httl.
    + rewrite getProfile_cases. cbv zeta. rewrite Hkey. fold key.
      rewrite Hscope, Huser, Hget. cbn [negb orb expiresAt profile].
      replace (t0 + ttl >? t0 + ttl - 1)%Z with true by (symmetry; lia).
      reflexivity.
    + rewrite getProfile_cases. cbv zeta. rewrite Hkey. fold key.
      rewrite Hscope, Huser, Hget. cbn [negb orb expiresAt profile].
      replace (t0 + ttl >? t0 + ttl + 1)%Z with false by (symmetry; lia).
      reflexivity.
    + rewrite getProfile_cases. cbv zeta. rewrite Hkey. fold key.
      rewrite Hscope, Huser, Hget. cbn [negb orb expiresAt profile].
      replace (t0 + ttl >? t0 + ttl + 1)%Z with false by (symmetry; lia).
      rewrite afterLookup_queries.
      destruct (lookupProfiles_found_inv _ _ _ _ _ Hlook)
        as (v & vs & canister & Hvalid & Hc).
      assert (Hc' : Principal_fromText remote (storageIndexCanisterId stored)
                    = Js.Ok canister).
      { unfold stored. cbn. now rewrite Hcanister. }
      destruct (lookupProfiles_some _ stored _ _ _ Hvalid Hc')
        as (r & d2 & -> & _ & Hq).
      cbn [snd]. now rewrite Hvalid.
Qed.

End DirectoryFacts.

Section DirectoryExamples.
Import UserDirectory DirectoryFrame.

(** A text that is no principal alone, and next to the anonymous
    principal: the text is logged, the one query is for the anonymous
    principal, and its profile comes back. *)
Lemma C9_lookup_drops_invalid_ids_witness :
  (lookupProfiles Sample.remote [`"not-a-principal"] Sample.directory =
     (Js.Ok [],
      addWarning Sample.directory invalidPrincipal `"not-a-principal") /\
   remoteQueries
     (addWarning Sample.directory invalidPrincipal `"not-a-principal") = []) /\
  (exists r d',
     lookupProfiles Sample.remote [`"2vxsx-fae"; `"not-a-principal"]
       Sample.directory = (r, d') /\
     remoteQueries d' = [[[4%N]]]) /\
  lookupProfiles Sample.remote [`"not-a-principal"; `"2vxsx-fae"]
    Sample.directory =
    (Js.Ok [Sample.anonymous],
     addQuery
       (addWarning Sample.directory invalidPrincipal `"not-a-principal")
       [[4%N]]).
Proof.
  split; [|split].
  - apply (proj1 (proj2 (proj2
             (C9_lookup_drops_invalid_ids Sample.remote
                [`"not-a-principal"] Sample.directory)))).
    reflexivity.
  - apply (proj1 (proj2 (proj2 (proj2 (proj2
             (C9_lookup_drops_invalid_ids Sample.remote
                [`"2vxsx-fae"; `"not-a-principal"] Sample.directory))))))
      with (canister := []).
    + vm_compute. discriminate.
    + reflexivity.
  - rewrite (proj1 (proj2 (proj2 (proj2 (proj2 (proj2 (proj2
               (C9_lookup_drops_invalid_ids Sample.remote
                  [`"not-a-principal"; `"2vxsx-fae"] Sample.directory)))))))
               []).
    + reflexivity.
    + vm_compute. discriminate.
    + reflexivity.
Defined.

(** A profile fetched at 1000 ms with the default time to live, asked for
    again just before and just after it expires; and a call with an empty
    gateway. *)
Lemma C7_getProfile_cache_witness :
  let gateway := Some Sample.gateway in
  let user := `"2vxsx-fae" in
  let fetched :=
    setCached (addQuery Sample.directory [[4%N]])
      (cacheKey Sample.gateway user)
      (mkCached Sample.anonymous (1000 + 900000)) in
  getProfile Sample.remote gateway user 0 1000 Sample.directory =
    (Js.Ok (Some Sample.anonymous), fetched) /\
  getProfile Sample.remote gateway user (1000 + 900000 - 1) 0 fetched =
    (Js.Ok (Some Sample.anonymous), fetched) /\
  remoteQueries
    (snd (getProfile Sample.remote gateway user (1000 + 900000 + 1) 0
            fetched)) = [[[4%N]]; [[4%N]]] /\
  getProfile Sample.remote (Some []) user 0 0 Sample.directory =
    (Js.Ok None, Sample.directory).
Proof.
  intros gateway user fetched.
  destruct (C7_getProfile_cache Sample.remote gateway user 0 1000
              Sample.directory) as (_ & Hcache & _ & _ & Hscenario).
  destruct (Hcache eq_refl eq_refl) as [_ Hmiss].
  destruct (Hscenario Sample.anonymous [] (addQuery Sample.directory [[4%N]])
              1000%Z 0%Z eq_refl eq_refl eq_refl)
    as (Hstore & Hhit & _ & Hqueries).
  split; [|split; [|split]].
  - rewrite Hmiss; [exact Hstore|]. intros c Hc. discriminate Hc.
  - exact Hhit.
  - exact Hqueries.
  - apply (proj1 (C7_getProfile_cache Sample.remote (Some []) user 0 0
                    Sample.directory)).
    left. reflexivity.
Defined.

(** C7, as it is stated, fails when the gateway is the empty string: there
    is no cache entry under the key of the user, the remote directory knows
    the user, and yet [getProfile] returns [None] and leaves the directory
    as it was, without a lookup. *)
Lemma C7_counterexample :
  let user := `"2vxsx-fae" in
  Js.get (cache Sample.directory) (cacheKey [] user) = None /\
  lookupProfiles Sample.remote [user] Sample.directory =
    (Js.Ok [Sample.anonymous], addQuery Sample.directory [[4%N]]) /\
  getProfile Sample.remote (Some []) user 0 0 Sample.directory =
    (Js.Ok None, Sample.directory).
Proof. repeat split. Qed.

End DirectoryExamples.

(** ** The notification handlers *)

Section NotifyFacts.
Import OpenChatClient Notify.

Lemma mention_describeUser profile userId :
  mention (describeUser profile userId) = `"@UserId(" ++ userId ++ `")".
Proof.
  unfold describeUser.
  destruct (trimmed profile UserDirectory.displayName) as [[|c d]|];
    destruct (trimmed profile UserDirectory.username) as [[|c' u]|];
    reflexivity.
Qed.

(** The mention token survives the [trim] of the text it was put in front
    of, as a prefix. *)
Lemma trim_mention_prefix userId rest :
  exists rest',
    Js.trim ((`"@UserId(" ++ userId ++ `")") ++ rest) =
    (`"@UserId(" ++ userId ++ `")") ++ rest'.
Proof.
  pose proof (trim_keeps_prefix 64 (`"UserId(" ++ userId) 41 rest
                eq_refl eq_refl) as [rest' H].
  exists rest'.
  replace (`"@UserId(" ++ userId ++ `")")
    with (64%N :: (`"UserId(" ++ userId) ++ [41%N]).
  - exact H.
  - reflexivity.
Qed.

Lemma slice_front (s : Js.str) (n : Z) :
  (0 <= n <= Js.length s)%Z ->
  Js.slice s 0 (Some n) = firstn (Z.to_nat n) s.
Proof.
  intros H. unfold Js.slice, Js.relativeIndex.
  replace (0 <? 0)%Z with false by reflexivity.
  replace (n <? 0)%Z with false by (symmetry; lia).
  rewrite Z.min_l by lia. rewrite Z.min_l by lia.
  rewrite Z.sub_0_r, Z.max_l by lia. reflexivity.
Qed.

Lemma slice_back (s : Js.str) (n : Z) :
  (0 < n <= Js.length s)%Z ->
  Js.slice s (- n) None = skipn (List.length s - Z.to_nat n) s.
Proof.
  intros H. unfold Js.slice, Js.relativeIndex.
  replace (- n <? 0)%Z with true by (symmetry; lia).
  unfold Js.length in *.
  replace (Z.to_nat (Z.max (Z.of_nat (List.length s) + - n) 0))
    with (List.length s - Z.to_nat n)%nat by lia.
  apply firstn_all2. rewrite length_skipn. lia.
Qed.

(** The label of a user without a profile: the raw id when it has at most
    11 code units, else its first five, three dots and its last four. *)
Lemma shorten_spec (fallback : Js.str) :
  ((Js.length fallback <= 11)%Z -> shorten fallback = fallback) /\
  ((11 < Js.length fallback)%Z ->
   shorten fallback =
   firstn 5 fallback ++ `"..." ++ skipn (List.length fallback - 4) fallback).
Proof.
  unfold shorten. split; intros H.
  - replace (Js.length fallback <=? 11)%Z with true by (symmetry; lia).
    reflexivity.
  - replace (Js.length fallback <=? 11)%Z with false by (symmetry; lia).
    rewrite (slice_front fallback 5) by lia.
    change (Js.slice fallback (-4) None)
      with (Js.slice fallback (Z.opp 4) None).
    rewrite (slice_back fallback 4) by lia. reflexivity.
Qed.

(** The text that is sent contains the mention token of the member. *)
Lemma welcomeText_includes_mention generated profile userId :
  let member := describeUser profile userId in
  Js.includes (welcomeText generated member) (mention member) = true /\
  (Js.includes (welcomeBody generated member) (mention member) = true ->
   welcomeText generated member = welcomeBody generated member) /\
  (Js.includes (welcomeBody generated member) (mention member) = false ->
   exists rest, welcomeText generated member = mention member ++ rest).
Proof.
  intros member. unfold welcomeText. cbv zeta.
  assert (Hm : mention member = `"@UserId(" ++ userId ++ `")")
    by apply mention_describeUser.
  destruct (Js.includes (welcomeBody generated member) (mention member))
    eqn:E; cbn [negb].
  - split; [exact E|]. split; [reflexivity|discriminate].
  - rewrite Hm.
    destruct (trim_mention_prefix userId
                (`" " ++ welcomeBody generated member)) as [rest' H].
    rewrite H. split; [apply includes_prefix|].
    split; [discriminate|]. intros _. now exists rest'.
Qed.

(** C8. For a member_joined event that is handled (the welcome is enabled
    and the installation of the chat is known), whatever the generator
    returned, and when it failed: one message is sent, its text contains the
    mention token of the raw user id, the token is the prefix of the text
    when the welcome did not contain it, and without a profile the label of
    the member is the shortened raw id. *)
Theorem C8_welcome_mentions_member :
  forall characterName service chatEvent apiGateway profile generated sent
         userId installation,
    event chatEvent = member_joined userId ->
    getInstallationByChatId service (ev_chatId chatEvent) =
      Some installation ->
    let member := describeUser profile userId in
    let text := welcomeText generated member in
    let effects :=
      handleMemberJoined (Some `"true") characterName service chatEvent
        apiGateway profile generated sent in
    mention member = `"@UserId(" ++ userId ++ `")" /\
    (exists client, In (SendMessage client text) effects) /\
    (forall client sentText,
       In (SendMessage client sentText) effects -> sentText = text) /\
    Js.includes text (mention member) = true /\
    (Js.includes (welcomeBody generated member) (mention member) = false ->
     exists rest, text = mention member ++ rest) /\
    (profile = None ->
     shortLabel member = shorten userId /\
     descriptor member = shorten userId /\
     ((Js.length userId <= 11)%Z -> shorten userId = userId) /\
     ((11 < Js.length userId)%Z ->
      shorten userId =
      firstn 5 userId ++ `"..." ++ skipn (List.length userId - 4) userId)).
Proof.
  intros characterName service chatEvent apiGateway profile generated sent
    userId installation Hevent Hinstalled member text effects.
  destruct (welcomeText_includes_mention generated profile userId)
    as (Hincl & _ & Hprefix).
  assert (Heffects :
    effects =
    [ResolveUserProfile userId
       (orString (rec_apiGateway (record installation)) apiGateway);
     UseModel (welcomePrompt characterName member (ev_chatId chatEvent))] ++
    match generated with
    | Js.Ok _ => []
    | Js.Throw e => [LogWarn `"[OpenChat] Failed to generate LLM welcome" e]
    end ++
    [SendMessage
       (createClientForScope (scope installation)
          (orString (rec_apiGateway (record installation)) apiGateway)
          (Some (grantedAutonomousPermissions (record installation))))
       text] ++
    match sent with
    | Js.Ok _ => []
    | Js.Throw e => [LogError `"[OpenChat] Failed to send member welcome" e]
    end).
  { unfold effects, handleMemberJoined. rewrite Hevent, Hinstalled.
    reflexivity. }
  split; [apply mention_describeUser|].
  split; [|split; [|split; [exact Hincl|split; [exact Hprefix|]]]].
  - eexists. rewrite Heffects.
    apply in_or_app. right. apply in_or_app. right.
    apply in_or_app. left. left. reflexivity.
  - intros client sentText Hin. rewrite Heffects in Hin.
    destruct generated, sent; cbn in Hin;
      repeat (destruct Hin as [Hin|Hin]; try congruence); contradiction.
  - intros ->. split; [reflexivity|]. split; [reflexivity|].
    apply shorten_spec.
Qed.

(** A member without a profile joins group a while the generator is down. *)
Lemma C8_welcome_mentions_member_witness :
  let member := describeUser None Sample.newcomer in
  let text := welcomeText (Js.Throw `"model unavailable") member in
  text =
    `"@UserId(xlmdg-vkosr-fae) Welcome to the chat, xlmdg...-fae! " ++
    wavingHand /\
  Js.includes text `"@UserId(xlmdg-vkosr-fae)" = true /\
  exists client,
    In (SendMessage client text)
       (handleMemberJoined (Some `"true") `"Eliza" Sample.service
          Sample.joined Sample.gateway None
          (Js.Throw `"model unavailable") (Js.Ok tt)).
Proof.
  intros member text.
  destruct (C8_welcome_mentions_member `"Eliza" Sample.service Sample.joined
              Sample.gateway None (Js.Throw `"model unavailable") (Js.Ok tt)
              Sample.newcomer (Sample.installationAt Sample.groupA)
              eq_refl eq_refl)
    as (_ & Hsent & _ & Hincl & _).
  split; [reflexivity|]. split; [exact Hincl|exact Hsent].
Defined.

(** C2. The rejection callback returns without raising when the reason text
    is exactly "Invalid scope"; with any other reason text it raises an
    error whose message is that text, and it raises as well when there is no
    reason text at all. *)
Theorem C2_rejection_filter :
  forall error,
    (errorMessage error = Some `"Invalid scope" ->
     onRejected error = Js.Ok tt) /\
    (forall reason,
       errorMessage error = Some reason ->
       reason <> `"Invalid scope" ->
       onRejected error = Js.Throw reason) /\
    (errorMessage error = None -> onRejected error = Js.Throw []).
Proof.
  intros error. unfold onRejected. split; [|split].
  - intros ->. reflexivity.
  - intros reason Hreason Hne. rewrite Hreason.
    apply eqb_neq in Hne. rewrite Hne.
    destruct error; cbn in *; congruence.
  - intros Hnone. rewrite Hnone. destruct error; cbn in *; congruence.
Qed.

(** The benign reason as a string and as an Error, and four other
    rejections. *)
Lemma C2_rejection_filter_witness :
  onRejected (error_string `"Invalid scope") = Js.Ok tt /\
  onRejected (error_Error `"Invalid scope") = Js.Ok tt /\
  onRejected (error_string `"invalid scope") = Js.Throw `"invalid scope" /\
  onRejected (error_Error `"Not authorised") = Js.Throw `"Not authorised" /\
  onRejected error_missing = Js.Throw (quote ++ `"Unknown error" ++ quote) /\
  onRejected (error_other None) = Js.Throw [].
Proof.
  split; [|split; [|split; [|split; [|split]]]].
  - apply (proj1 (C2_rejection_filter (error_string `"Invalid scope"))).
    reflexivity.
  - apply (proj1 (C2_rejection_filter (error_Error `"Invalid scope"))).
    reflexivity.
  - apply (proj1 (proj2 (C2_rejection_filter
                           (error_string `"invalid scope"))));
      [reflexivity|vm_compute; discriminate].
  - apply (proj1 (proj2 (C2_rejection_filter
                           (error_Error `"Not authorised"))));
      [reflexivity|vm_compute; discriminate].
  - apply (proj1 (proj2 (C2_rejection_filter error_missing)));
      [reflexivity|vm_compute; discriminate].
  - apply (proj2 (proj2 (C2_rejection_filter (error_other None)))).
    reflexivity.
Defined.

End NotifyFacts.

(** ** The message manager *)

Section MessageManagerFacts.
Import MessageManager.
Variable uuidv5 : Js.str -> Js.str -> OpenChatIds.UUID.
Variable toLowerCase : Js.str -> Js.str.

(** C10. [handleMessageEvent] forwards nothing to the message pipeline when
    the event is not a message, when the message is deleted, when its sender
    context is of kind "bot", or when the text derived from its content is
    empty: it returns with no call of [ensureConnection] and none of the
    message service, so no memory is handed on and no response callback
    exists; at most the skipped empty message is logged.  A message that
    none of the four holds for is forwarded when the message service is
    there, with the derived text as the text of its memory. *)
Theorem C10_ignored_events_not_forwarded :
  forall runtime botClient chatEvent metadata now,
    let effects :=
      handleMessageEvent uuidv5 toLowerCase runtime botClient chatEvent
        metadata now in
    ((forall m, event chatEvent <> message_event m) \/
     (exists m, event chatEvent = message_event m /\
                (deleted m = true \/
                 senderContext m = Some `"bot" \/
                 buildPlaceholderForContent m = [])) ->
     (forall e, In e effects -> touchesRuntime e = false) /\
     (effects = [] \/
      effects = [LogDebug `"[OpenChat] Skipping empty message event"])) /\
    (forall m,
       event chatEvent = message_event m ->
       deleted m = false ->
       senderContext m <> Some `"bot" ->
       buildPlaceholderForContent m <> [] ->
       messageService runtime = true ->
       exists memory callback,
         In (HandleMessage memory callback) effects /\
         text (content memory) = buildPlaceholderForContent m /\
         cb_botClient callback = botClient).
Proof.
  intros runtime botClient chatEvent metadata now effects. split.
  - intros Hignored.
    assert (H : effects = [] \/
                effects = [LogDebug `"[OpenChat] Skipping empty message event"]).
    { unfold effects, handleMessageEvent.
      destruct Hignored as [Hother | (m & Hm & Hwhy)].
      - destruct (event chatEvent) as [m| |]; auto.
        exfalso. now apply (Hother m).
      - rewrite Hm. destruct (deleted m) eqn:Hdel; [now left|].
        destruct Hwhy as [Hd | [Hbot | Hempty]]; [discriminate| |].
        + rewrite Hbot. now left.
        + destruct (senderContext m) as [k|]; [destruct (Js.eqb k `"bot")|];
            rewrite ?Hempty; auto. }
    split; [|exact H].
    intros e Hin. destruct H as [H | H]; rewrite H in Hin.
    + contradiction.
    + destruct Hin as [<- | []]. reflexivity.
  - intros m Hm Hdel Hbot Htext Hservice.
    unfold effects, handleMessageEvent. rewrite Hm, Hdel.
    assert (Hk : match senderContext m with
                 | Some k => Js.eqb k `"bot"
                 | None => false
                 end = false).
    { destruct (senderContext m) as [k|]; [|reflexivity].
      apply eqb_neq. congruence. }
    rewrite Hk.
    destruct (buildPlaceholderForContent m) as [|c t] eqn:Et;
      [contradiction|].
    cbn [Js.truthy negb]. rewrite Hservice. cbn [negb].
    eexists _, _. split; [|split].
    + apply in_or_app. right. left. reflexivity.
    + reflexivity.
    + reflexivity.
Qed.

End MessageManagerFacts.

(** A join, a deleted message, a message of a bot, a blank message, and a
    message that is forwarded. *)
Lemma C10_ignored_events_not_forwarded_witness :
  let run chatEvent :=
    MessageManager.handleMessageEvent Sample.nameAsUuid Sample.asciiLower
      Sample.runtime Sample.botClient chatEvent
      (Sample.metadataUnder `"group:a") 0 in
  (forall e, In e (run Sample.joined) -> MessageManager.touchesRuntime e = false)
  /\
  (forall e, In e (run (Sample.messageFrom (Some `"user") true `"hello")) ->
             MessageManager.touchesRuntime e = false) /\
  (forall e, In e (run (Sample.messageFrom (Some `"bot") false `"hello")) ->
             MessageManager.touchesRuntime e = false) /\
  (forall e, In e (run (Sample.messageFrom None false [32%N; 0%N; 10%N])) ->
             MessageManager.touchesRuntime e = false) /\
  exists memory callback,
    In (MessageManager.HandleMessage memory callback)
       (run (Sample.messageFrom (Some `"user") false `"hello")) /\
    text (content memory) = `"hello" /\
    MessageManager.cb_botClient callback = Sample.botClient.
Proof.
  intros run.
  pose proof (fun chatEvent =>
    C10_ignored_events_not_forwarded Sample.nameAsUuid Sample.asciiLower
      Sample.runtime Sample.botClient chatEvent
      (Sample.metadataUnder `"group:a") 0) as H.
  split; [|split; [|split; [|split]]].
  - apply (proj1 (H Sample.joined)). left. intros m. discriminate.
  - apply (proj1 (H (Sample.messageFrom (Some `"user") true `"hello"))).
    right. eexists. split; [reflexivity|]. left. reflexivity.
  - apply (proj1 (H (Sample.messageFrom (Some `"bot") false `"hello"))).
    right. eexists. split; [reflexivity|]. right. left. reflexivity.
  - apply (proj1 (H (Sample.messageFrom None false [32%N; 0%N; 10%N]))).
    right. eexists. split; [reflexivity|]. right. right. reflexivity.
  - apply (proj2 (H (Sample.messageFrom (Some `"user") false `"hello"))
             _ eq_refl); try reflexivity; vm_compute; discriminate.
Defined.

(** ** The identity mapper *)

Section IdentityFacts.
Import OpenChatIds.

(** A text without the hyphen-minus sign, followed by one and by any text,
    is read back in one way only. *)
Lemma split_at_hyphen (k1 k2 i1 i2 : Js.str) :
  ~ In 45%N k1 -> ~ In 45%N k2 ->
  k1 ++ 45%N :: i1 = k2 ++ 45%N :: i2 ->
  k1 = k2 /\ i1 = i2.
Proof.
  revert k2. induction k1 as [|x k1 IH]; intros [|y k2] H1 H2 E;
    cbn in E.
  - injection E as ->. now split.
  - injection E as <- _. exfalso. apply H2. now left.
  - injection E as -> _. exfalso. apply H1. now left.
  - injection E as -> E.
    destruct (IH k2) as [-> ->]; try assumption.
    + intros Hin. apply H1. now right.
    + intros Hin. apply H2. now right.
    + now split.
Qed.

Lemma roomName_injective (k1 k2 i1 i2 : Js.str) :
  ~ In 45%N k1 -> ~ In 45%N k2 ->
  roomName k1 i1 = roomName k2 i2 ->
  k1 = k2 /\ i1 = i2.
Proof.
  intros H1 H2 E. unfold roomName in E.
  apply app_inv_head in E.
  now apply split_at_hyphen.
Qed.

Lemma chatKindText_no_hyphen (k : ChatKind) : ~ In 45%N (chatKindText k).
Proof. destruct k; cbn; intuition discriminate. Qed.

Lemma chatKindText_injective (k1 k2 : ChatKind) :
  chatKindText k1 = chatKindText k2 -> k1 = k2.
Proof. destruct k1, k2; cbn; intros E; try reflexivity; discriminate. Qed.

(** C4, as the code has it. The three functions are functions of their
    arguments alone, so equal inputs give equal outputs.  For two unequal
    pairs of a chat kind without a hyphen-minus sign (as "direct", "group"
    and "channel" are) and an identifier, [makeRoomUuid] hashes two
    different names; hence, on the chat kinds of the metadata, two unequal
    pairs collide only where [uuidv5] itself sends two different names to
    one value. *)
Theorem C4_identity_mapper :
  forall uuidv5 : Js.str -> Js.str -> UUID,
    (forall k1 i1 k2 i2,
       k1 = k2 -> i1 = i2 ->
       makeRoomUuid uuidv5 k1 i1 = makeRoomUuid uuidv5 k2 i2) /\
    (forall i1 i2,
       i1 = i2 -> makeUserUuid uuidv5 i1 = makeUserUuid uuidv5 i2) /\
    (forall i1 i2,
       i1 = i2 -> makeMessageUuid uuidv5 i1 = makeMessageUuid uuidv5 i2) /\
    (forall k1 i1 k2 i2,
       ~ In 45%N k1 -> ~ In 45%N k2 ->
       (k1, i1) <> (k2, i2) ->
       roomName k1 i1 <> roomName k2 i2) /\
    (forall (k1 k2 : ChatKind) i1 i2,
       (k1, i1) <> (k2, i2) ->
       makeRoomUuid uuidv5 (chatKindText k1) i1 =
       makeRoomUuid uuidv5 (chatKindText k2) i2 ->
       exists name1 name2,
         name1 <> name2 /\
         uuidv5 name1 OPENCHAT_UUID_NAMESPACE =
         uuidv5 name2 OPENCHAT_UUID_NAMESPACE).
Proof.
  intros uuidv5.
  split; [intros k1 i1 k2 i2 -> ->; reflexivity|].
  split; [intros i1 i2 ->; reflexivity|].
  split; [intros i1 i2 ->; reflexivity|].
  split.
  - intros k1 i1 k2 i2 H1 H2 Hne E.
    apply roomName_injective in E as [-> ->]; try assumption.
    now apply Hne.
  - intros k1 k2 i1 i2 Hne E.
    exists (roomName (chatKindText k1) i1), (roomName (chatKindText k2) i2).
    split; [|exact E].
    intros En.
    apply roomName_injective in En as [Ek ->];
      try apply chatKindText_no_hyphen.
    apply chatKindText_injective in Ek. subst. now apply Hne.
Qed.

(** The rooms g1 and g2 of kind group. *)
Lemma C4_identity_mapper_witness :
  makeRoomUuid Sample.nameAsUuid `"group" `"g1" =
    makeRoomUuid Sample.nameAsUuid `"group" `"g1" /\
  roomName `"group" `"g1" <> roomName `"group" `"g2".
Proof.
  pose proof (C4_identity_mapper Sample.nameAsUuid) as (Hsame & _ & _ & Hnames & _).
  split.
  - apply Hsame; reflexivity.
  - apply Hnames; vm_compute; intuition discriminate.
Defined.

(** C4, as it is stated, fails: the chat kind "a-b" with the identifier "c"
    and the chat kind "a" with the identifier "b-c" are two pairs with one
    name, "openchat-room-a-b-c", and so with one identifier, whatever the
    hash is. *)
Lemma C4_counterexample :
  (`"a-b", `"c") <> (`"a", `"b-c") /\
  roomName `"a-b" `"c" = roomName `"a" `"b-c" /\
  forall uuidv5 : Js.str -> Js.str -> UUID,
    makeRoomUuid uuidv5 `"a-b" `"c" = makeRoomUuid uuidv5 `"a" `"b-c".
Proof.
  split; [vm_compute; discriminate|].
  split; [reflexivity|]. intros uuidv5. reflexivity.
Qed.

End IdentityFacts.

(* ================================================================== *)
(** * Part III: further properties of the code                         *)
(* ================================================================== *)

(** ** The Registry and its keys *)

Section RegistryMore.
Import OpenChatClient.

(** X1. Two different installation locations never share a location key,
    and no location key is empty. *)
Theorem X1_location_keys_distinguish :
  forall l1 l2,
    isInstallationLocation l1 = true ->
    isInstallationLocation l2 = true ->
    l1 <> l2 ->
    getLocationKey l1 <> getLocationKey l2 /\
    getLocationKey l1 <> [].
Proof.
  intros l1 l2 H1 H2 Hne. split.
  - intros E. apply Hne.
    destruct l1, l2; try discriminate H1; try discriminate H2;
      cbn in E; try discriminate E.
    + f_equal. injection E as E. exact E.
    + f_equal. injection E as E. exact E.
    + f_equal. injection E as E. exact E.
  - destruct l1; discriminate.
Qed.

(** A group and a community with one native id, and two groups. *)
Lemma X1_location_keys_distinguish_witness :
  getLocationKey (GroupChatIdentifier `"42") <>
    getLocationKey (CommunityIdentifier `"42") /\
  getLocationKey (GroupChatIdentifier `"42") <>
    getLocationKey (GroupChatIdentifier `"421").
Proof.
  split.
  - apply (X1_location_keys_distinguish (GroupChatIdentifier `"42")
             (CommunityIdentifier `"42")); try reflexivity. discriminate.
  - apply (X1_location_keys_distinguish (GroupChatIdentifier `"42")
             (GroupChatIdentifier `"421")); try reflexivity. discriminate.
Defined.

Lemma get_set (m : Js.Map OpenChatInstallation) k v key :
  Js.get (Js.set m k v) key = if Js.eqb k key then Some v else Js.get m key.
Proof.
  destruct (Js.eqb k key) eqn:E.
  - apply eqb_eq in E. subst. apply get_set_same.
  - apply eqb_neq in E. now apply get_set_other.
Qed.

Lemma get_delete (m : Js.Map OpenChatInstallation) k key :
  NoDup (Js.keys m) ->
  Js.get (Js.delete m k) key = if Js.eqb k key then None else Js.get m key.
Proof.
  intros Hnd. destruct (Js.eqb k key) eqn:E.
  - apply eqb_eq in E. subst. now apply get_delete_same.
  - apply eqb_neq in E. now apply get_delete_other.
Qed.

Lemma lastWrite_from service deliveries key :
  RegistryOk (installations service) ->
  Js.get (installations
            (fold_left (fun s d => Notify.routeBotEvent s (fst d) (snd d))
               deliveries service)) key =
  NotifyHandlers.lastWrite deliveries key (Js.get (installations service) key).
Proof.
  revert service. induction deliveries as [|[event gateway] rest IH];
    intros service Hok; [reflexivity|].
  cbn [fold_left fst snd NotifyHandlers.lastWrite].
  rewrite IH by now apply RegistryOk_routeBotEvent.
  destruct event; cbn [Notify.routeBotEvent]; try reflexivity.
  - unfold recordInstallation. cbn [installations]. now rewrite get_set.
  - unfold recordUninstallation. cbn [installations].
    rewrite get_delete by apply Hok. reflexivity.
Qed.

(** X2. After any sequence of deliveries the Registry holds, under every
    key, what the last installation or uninstallation at that key left:
    the installation with the location, the scope of the location and the
    permissions and gateway of that event, or nothing.  Chat and community
    events do not count. *)
Theorem X2_registry_last_write_wins :
  forall deliveries key,
    Js.get (installations (Notify.serviceAfter deliveries)) key =
    NotifyHandlers.lastWrite deliveries key None.
Proof.
  intros deliveries key. unfold Notify.serviceAfter.
  rewrite lastWrite_from by apply RegistryOk_empty. reflexivity.
Qed.

Lemma keys_set_present (m : Js.Map OpenChatInstallation) k v old :
  Js.get m k = Some old -> Js.keys (Js.set m k v) = Js.keys m.
Proof.
  induction m as [|[k0 v0] m IH]; simpl; [discriminate|].
  destruct (Js.eqb k0 k) eqn:E; simpl; [reflexivity|].
  intros H. now rewrite IH.
Qed.

Lemma keys_set_absent (m : Js.Map OpenChatInstallation) k v :
  Js.get m k = None -> Js.keys (Js.set m k v) = Js.keys m ++ [k].
Proof.
  induction m as [|[k0 v0] m IH]; simpl; [reflexivity|].
  destruct (Js.eqb k0 k) eqn:E; simpl; [discriminate|].
  intros H. now rewrite IH.
Qed.

(** X3. Installing at a location that is installed already is an update in
    place: the order of the keys, and with it the first installation, stays
    as it was; at a new location the key goes to the end.  Either way the
    new installation is found under the key and every other key keeps its
    installation. *)
Theorem X3_install_updates_in_place :
  forall service location record,
    let key := getLocationKey location in
    let after := recordInstallation service location record in
    (forall old,
       Js.get (installations service) key = Some old ->
       Js.keys (installations after) = Js.keys (installations service)) /\
    (Js.get (installations service) key = None ->
     Js.keys (installations after) = Js.keys (installations service) ++ [key])
    /\
    Js.get (installations after) key =
      Some (mkInstallation location (scopeFromLocation location) record) /\
    (forall other,
       other <> key ->
       Js.get (installations after) other =
       Js.get (installations service) other).
Proof.
  intros service location record key after. repeat split.
  - intros old H. simpl. eapply keys_set_present; eauto.
  - intros H. simpl. now apply keys_set_absent.
  - simpl. apply get_set_same.
  - intros other Hne. simpl. apply get_set_other.
    intros E. apply Hne. symmetry. exact E.
Qed.

(** The permissions of group a are updated while b and u are installed;
    then the bot is installed in a new group. *)
Lemma X3_install_updates_in_place_witness :
  let updated := mkInstallationRecord Sample.gateway Sample.granted
                   (mkPermissions 0 0 3) in
  Js.keys (installations
             (recordInstallation Sample.service Sample.groupA updated)) =
    [`"group:a"; `"group:b"; `"direct:u"] /\
  Js.keys (installations
             (recordInstallation Sample.service (GroupChatIdentifier `"c")
                updated)) =
    [`"group:a"; `"group:b"; `"direct:u"; `"group:c"] /\
  Js.get (installations
            (recordInstallation Sample.service Sample.groupA updated))
    `"group:b" = Some (Sample.installationAt Sample.groupB).
Proof.
  intros updated.
  destruct (X3_install_updates_in_place Sample.service Sample.groupA updated)
    as (Hpresent & _ & _ & Hother).
  destruct (X3_install_updates_in_place Sample.service
              (GroupChatIdentifier `"c") updated) as (_ & Habsent & _ & _).
  split; [|split].
  - exact (Hpresent _ eq_refl).
  - exact (Habsent eq_refl).
  - rewrite Hother; [reflexivity|]. vm_compute. discriminate.
Defined.

Lemma keys_delete_absent_tail (m : Js.Map OpenChatInstallation) k :
  NoDup (Js.keys m) ->
  Js.keys (Js.delete m k) =
  filter (fun key => negb (Js.eqb key k)) (Js.keys m).
Proof.
  induction m as [|[k0 v0] m IH]; simpl; intros Hnd; [reflexivity|].
  inversion Hnd as [|? ? Hnot Hnd']; subst.
  destruct (Js.eqb k0 k) eqn:E; simpl.
  - apply eqb_eq in E. subst k0.
    symmetry. apply forallb_filter_id.
    apply forallb_forall. intros x Hx.
    apply negb_true_iff, eqb_neq. intros ->. contradiction.
  - now rewrite IH.
Qed.

(** X4. Uninstalling a location and installing it again does not restore
    its place: the key moves behind all the others, so a location that was
    the first of the Registry is the first no longer when others are
    installed. *)
Theorem X4_reinstall_moves_to_end :
  forall deliveries location record,
    let service := Notify.serviceAfter deliveries in
    let key := getLocationKey location in
    let again :=
      recordInstallation (recordUninstallation service location) location
        record in
    Js.keys (installations again) =
    filter (fun k => negb (Js.eqb k key)) (Js.keys (installations service)) ++
    [key].
Proof.
  intros deliveries location record service key again.
  pose proof (RegistryOk_serviceAfter deliveries) as [Hnd _].
  fold service in Hnd. unfold again. simpl.
  rewrite keys_set_absent by now apply get_delete_same.
  now rewrite keys_delete_absent_tail.
Qed.

End RegistryMore.

(** ** The install and the join handler *)

Section NotifyMore.
Import OpenChatClient.

(** X5. [handleInstallEvent] records the installation whatever the welcome
    setting and whatever becomes of the welcome.  With the setting "true"
    the welcome is handed to a client scoped to the location just
    installed, with the gateway and the autonomous permissions of the
    event: the client is always there, so the warning about a missing client
    is never written.  An error thrown while sending is logged; a response
    of the platform that reports a failure is not looked at, and the
    welcome is logged as sent just as after a success.  With any other
    setting nothing goes out. *)
Theorem X5_install_welcome :
  forall setting characterName bio0 service location command autonomous
         apiGateway sent,
    let outcome :=
      NotifyHandlers.handleInstallEvent setting characterName bio0 service
        location command autonomous apiGateway sent in
    let client :=
      createClientForScope (scopeFromLocation location) apiGateway
        (Some autonomous) in
    let welcome :=
      NotifyHandlers.SendMessage client
        (NotifyHandlers.welcomeMessage characterName bio0) in
    let logged :=
      NotifyHandlers.LogInfo
        (`"[OpenChat] Sent welcome message to " ++ kind location) in
    fst outcome =
      recordInstallation service location
        (mkInstallationRecord apiGateway command autonomous) /\
    (setting <> Some `"true" -> snd outcome = []) /\
    (setting = Some `"true" ->
     (forall messageId,
        sent = Js.Ok (NotifyHandlers.send_success messageId) ->
        snd outcome = [welcome; logged]) /\
     (forall message,
        sent = Js.Ok (NotifyHandlers.send_failure message) ->
        snd outcome = [welcome; logged]) /\
     (forall e,
        sent = Js.Throw e ->
        snd outcome =
          [welcome;
           NotifyHandlers.LogError
             `"[OpenChat] Error sending welcome message" e])) /\
    (forall message,
       ~ In (NotifyHandlers.LogWarn message) (snd outcome)) /\
    (forall message detail,
       In (NotifyHandlers.LogError message detail) (snd outcome) ->
       sent = Js.Throw detail).
Proof.
  intros setting characterName bio0 service location command autonomous
    apiGateway sent outcome client welcome logged.
  assert (Hclient :
    createClientForLocation
      (recordInstallation service location
         (mkInstallationRecord apiGateway command autonomous)) location =
    Some client).
  { unfold createClientForLocation, recordInstallation. cbn [installations].
    rewrite get_set_same. reflexivity. }
  assert (Hon :
    snd outcome =
      if negb match setting with
              | Some v => Js.eqb v `"true"
              | None => false
              end
      then []
      else match sent with
           | Js.Ok _ => [welcome; logged]
           | Js.Throw e =>
               [welcome;
                NotifyHandlers.LogError
                  `"[OpenChat] Error sending welcome message" e]
           end).
  { unfold outcome, NotifyHandlers.handleInstallEvent. cbv zeta.
    destruct (negb _); [reflexivity|]. rewrite Hclient.
    now destruct sent. }
  split; [|split; [|split; [|split]]].
  - unfold outcome, NotifyHandlers.handleInstallEvent. cbv zeta.
    destruct (negb _); [reflexivity|]. rewrite Hclient.
    now destruct sent.
  - intros Hoff. rewrite Hon.
    assert (E : match setting with
                | Some v => Js.eqb v `"true"
                | None => false
                end = false).
    { destruct setting as [v|]; [|reflexivity].
      apply eqb_neq. congruence. }
    now rewrite E.
  - intros ->. rewrite Hon, eqb_refl. cbn [negb].
    repeat split; intros x ->; reflexivity.
  - intros message Hin. rewrite Hon in Hin.
    destruct (negb _); [contradiction|].
    destruct sent; cbn in Hin; destruct Hin as [H|[H|[]]]; discriminate H.
  - intros message detail Hin. rewrite Hon in Hin.
    destruct (negb _); [contradiction|].
    destruct sent; cbn in Hin; destruct Hin as [H|[H|[]]];
      try discriminate H.
    now injection H as _ <-.
Qed.

(** The bot is installed in group c with welcomes on: the platform answers
    the welcome with a failure, and sending throws; and with welcomes
    off. *)
Lemma X5_install_welcome_witness :
  let client :=
    createClientForScope (ChatActionScope (GroupChatIdentifier `"c"))
      Sample.gateway (Some Sample.granted) in
  snd (NotifyHandlers.handleInstallEvent (Some `"true") `"Eliza" None
         Sample.service (GroupChatIdentifier `"c") Sample.granted
         Sample.granted Sample.gateway
         (Js.Ok (NotifyHandlers.send_failure `"not authorized"))) =
    [NotifyHandlers.SendMessage client
       (NotifyHandlers.welcomeMessage `"Eliza" None);
     NotifyHandlers.LogInfo `"[OpenChat] Sent welcome message to group_chat"]
  /\
  snd (NotifyHandlers.handleInstallEvent (Some `"true") `"Eliza" None
         Sample.service (GroupChatIdentifier `"c") Sample.granted
         Sample.granted Sample.gateway (Js.Throw `"offline")) =
    [NotifyHandlers.SendMessage client
       (NotifyHandlers.welcomeMessage `"Eliza" None);
     NotifyHandlers.LogError `"[OpenChat] Error sending welcome message"
       `"offline"] /\
  snd (NotifyHandlers.handleInstallEvent (Some `"TRUE") `"Eliza" None
         Sample.service (GroupChatIdentifier `"c") Sample.granted
         Sample.granted Sample.gateway
         (Js.Ok (NotifyHandlers.send_success 1))) = [].
Proof.
  intros client. split; [|split].
  - apply (proj1 (proj2 (proj1 (proj2 (proj2
             (X5_install_welcome (Some `"true") `"Eliza" None
                Sample.service (GroupChatIdentifier `"c") Sample.granted
                Sample.granted Sample.gateway
                (Js.Ok (NotifyHandlers.send_failure `"not authorized")))))
             eq_refl)) `"not authorized").
    reflexivity.
  - apply (proj2 (proj2 (proj1 (proj2 (proj2
             (X5_install_welcome (Some `"true") `"Eliza" None
                Sample.service (GroupChatIdentifier `"c") Sample.granted
                Sample.granted Sample.gateway (Js.Throw `"offline"))))
             eq_refl)) `"offline").
    reflexivity.
  - apply (proj1 (proj2 (X5_install_welcome (Some `"TRUE") `"Eliza" None
             Sample.service (GroupChatIdentifier `"c") Sample.granted
             Sample.granted Sample.gateway
             (Js.Ok (NotifyHandlers.send_success 1))))).
    vm_compute. discriminate.
Defined.

(** X6. [handleMemberJoined] greets nobody unless the setting is exactly
    "true" and the chat has an installation: otherwise it neither resolves
    the profile nor calls the model nor sends a message; at most it warns of
    the unknown installation. *)
Theorem X6_member_joined_gated :
  forall setting characterName service chatEvent apiGateway profile
         generated sent,
    setting <> Some `"true" \/
    getInstallationByChatId service (ev_chatId chatEvent) = None ->
    let effects :=
      Notify.handleMemberJoined setting characterName service chatEvent
        apiGateway profile generated sent in
    effects = [] \/
    effects =
      [Notify.LogWarn
         `"[OpenChat] Received member_joined for unknown installation" []].
Proof.
  intros setting characterName service chatEvent apiGateway profile
    generated sent Hwhy effects.
  unfold effects, Notify.handleMemberJoined.
  destruct (event chatEvent) as [m|userId|k]; try (now left).
  destruct Hwhy as [Hoff|Hunknown].
  - assert (E : match setting with
                | Some v => Js.eqb v `"true"
                | None => false
                end = false).
    { destruct setting as [v|]; [|reflexivity].
      apply eqb_neq. congruence. }
    rewrite E. now left.
  - rewrite Hunknown. destruct (negb _); [now left|now right].
Qed.

(** A member joins group a while the setting is "yes"; a member joins a
    group the bot is not installed in. *)
Lemma X6_member_joined_gated_witness :
  Notify.handleMemberJoined (Some `"yes") `"Eliza" Sample.service
    Sample.joined Sample.gateway None (Js.Ok `"Welcome!") (Js.Ok tt) = [] /\
  Notify.handleMemberJoined (Some `"true") `"Eliza" Sample.service
    (mkBotChatEvent (GroupChatIdentifier `"zz") None
       (member_joined Sample.newcomer))
    Sample.gateway None (Js.Ok `"Welcome!") (Js.Ok tt) =
    [Notify.LogWarn
       `"[OpenChat] Received member_joined for unknown installation" []].
Proof.
  split.
  - destruct (X6_member_joined_gated (Some `"yes") `"Eliza" Sample.service
                Sample.joined Sample.gateway None (Js.Ok `"Welcome!")
                (Js.Ok tt)) as [H|H].
    + left. vm_compute. discriminate.
    + exact H.
    + discriminate H.
  - destruct (X6_member_joined_gated (Some `"true") `"Eliza" Sample.service
                (mkBotChatEvent (GroupChatIdentifier `"zz") None
                   (member_joined Sample.newcomer))
                Sample.gateway None (Js.Ok `"Welcome!") (Js.Ok tt))
      as [H|H].
    + right. reflexivity.
    + discriminate H.
    + exact H.
Defined.

Lemma length_shorten (fallback : Js.str) :
  (Js.length (Notify.shorten fallback) <= 12)%Z.
Proof.
  destruct (Z_le_gt_dec (Js.length fallback) 11) as [Hshort|Hlong].
  - rewrite (proj1 (shorten_spec fallback) Hshort). lia.
  - rewrite (proj2 (shorten_spec fallback)) by lia.
    unfold Js.length in *. rewrite !length_app, length_firstn, length_skipn.
    cbn [List.length Js.lit map list_ascii_of_string]. lia.
Qed.

Lemma truthy_shorten (fallback : Js.str) :
  Js.truthy fallback = true -> Js.truthy (Notify.shorten fallback) = true.
Proof.
  intros H. destruct (Z_le_gt_dec (Js.length fallback) 11) as [Hshort|Hlong].
  - now rewrite (proj1 (shorten_spec fallback) Hshort).
  - rewrite (proj2 (shorten_spec fallback)) by lia.
    destruct fallback as [|c t]; [discriminate|]. reflexivity.
Qed.

(** X7. The labels [describeUser] gives a member are never empty when the
    raw id is not: the display name when it has one that is not blank, else
    the handle of a user name that is not blank, else the shortened raw id.
    The shortened id has at most 12 code units, and the mention token holds
    the raw id whatever the profile says. *)
Theorem X7_member_labels :
  forall profile fallback,
    Js.truthy fallback = true ->
    let member := Notify.describeUser profile fallback in
    let displayName := Notify.trimmed profile UserDirectory.displayName in
    let username := Notify.trimmed profile UserDirectory.username in
    Js.truthy (Notify.shortLabel member) = true /\
    Js.truthy (Notify.descriptor member) = true /\
    (Js.truthy_opt displayName = true ->
     Some (Notify.shortLabel member) = displayName) /\
    (Js.truthy_opt displayName = false ->
     forall name,
       username = Some name -> name <> [] ->
       Notify.shortLabel member = `"@" ++ name) /\
    (Js.truthy_opt displayName = false ->
     Js.truthy_opt username = false ->
     Notify.shortLabel member = Notify.shorten fallback /\
     (Js.length (Notify.shortLabel member) <= 12)%Z) /\
    Notify.mention member = `"@UserId(" ++ fallback ++ `")".
Proof.
  intros profile fallback Hid member displayName username.
  pose proof (truthy_shorten fallback Hid) as Hshort.
  pose proof (length_shorten fallback) as Hlen.
  unfold member, displayName, username, Notify.describeUser.
  destruct (Notify.trimmed profile UserDirectory.displayName) as [[|c d]|];
    destruct (Notify.trimmed profile UserDirectory.username) as [[|c' u]|];
    cbn [Notify.shortLabel Notify.descriptor Notify.mention Js.truthy_opt
         Js.truthy].
  all: split; [assumption || reflexivity|].
  all: split; [assumption || reflexivity|].
  all: split; [intros H; (discriminate H || reflexivity)|].
  all: split;
    [intros H; try discriminate H; intros name Hn Hne;
     try discriminate Hn; injection Hn as <-;
     (reflexivity || now contradiction Hne)|].
  all: split; [|reflexivity].
  all: intros H1 H2; try discriminate H1; try discriminate H2.
  all: split; [reflexivity|exact Hlen].
Qed.

(** A member without a profile, and one whose display name is blank and
    whose user name is alice. *)
Lemma X7_member_labels_witness :
  Notify.shortLabel (Notify.describeUser None Sample.newcomer) =
    `"xlmdg...-fae" /\
  Notify.shortLabel
    (Notify.describeUser
       (Some (UserDirectory.mkProfile Sample.newcomer (Some `" alice ")
                (Some `"  ")))
       Sample.newcomer) = `"@alice".
Proof.
  split.
  - destruct (X7_member_labels None Sample.newcomer eq_refl)
      as (_ & _ & _ & _ & Hnone & _).
    destruct (Hnone eq_refl eq_refl) as [H _].
    exact H.
  - destruct (X7_member_labels
                (Some (UserDirectory.mkProfile Sample.newcomer
                         (Some `" alice ") (Some `"  ")))
                Sample.newcomer eq_refl) as (_ & _ & _ & Hhandle & _).
    apply (Hhandle eq_refl `"alice"); [reflexivity|discriminate].
Defined.

End NotifyMore.

(** ** Texts *)

Section TextMore.
Import TextShape.

Lemma trimStart_startsClean (s : Js.str) : startsClean (Js.trimStart s).
Proof.
  induction s as [|c s IH]; simpl; [exact I|].
  destruct (Js.isWhiteSpace c) eqn:E; [exact IH|exact E].
Qed.

Lemma trimStart_fixed (s : Js.str) : startsClean s -> Js.trimStart s = s.
Proof. destruct s as [|c s]; simpl; [reflexivity|]. now intros ->. Qed.

Lemma trimEnd_endsClean (s : Js.str) : endsClean (Js.trimEnd s).
Proof.
  unfold endsClean, Js.trimEnd. rewrite rev_involutive.
  apply trimStart_startsClean.
Qed.

Lemma trimEnd_startsClean (s : Js.str) :
  startsClean s -> startsClean (Js.trimEnd s).
Proof.
  destruct s as [|c r]; [intros _; exact I|]. intros Hc.
  unfold Js.trimEnd. cbn [rev].
  destruct (trimStart_app_keeps (rev r) c [] Hc) as [l' ->].
  rewrite rev_app_distr. exact Hc.
Qed.

Lemma trim_clean (s : Js.str) :
  startsClean (Js.trim s) /\ endsClean (Js.trim s).
Proof.
  unfold Js.trim. split.
  - apply trimEnd_startsClean, trimStart_startsClean.
  - apply trimEnd_endsClean.
Qed.

Lemma trim_fixed (s : Js.str) :
  startsClean s -> endsClean s -> Js.trim s = s.
Proof.
  intros Hs He. unfold Js.trim, Js.trimEnd.
  rewrite (trimStart_fixed s Hs), (trimStart_fixed (rev s) He).
  apply rev_involutive.
Qed.

Lemma In_trimStart (c : N) (s : Js.str) : In c (Js.trimStart s) -> In c s.
Proof.
  induction s as [|x s IH]; simpl; [tauto|].
  destruct (Js.isWhiteSpace x); simpl; tauto.
Qed.

Lemma In_trim (c : N) (s : Js.str) : In c (Js.trim s) -> In c s.
Proof.
  unfold Js.trim, Js.trimEnd. intros H.
  apply in_rev, In_trimStart in H. apply in_rev in H.
  now apply In_trimStart.
Qed.

Lemma replaceAll_removes (c : N) (s : Js.str) :
  ~ In c (Js.replaceAll c [] s).
Proof.
  unfold Js.replaceAll. induction s as [|x s IH]; simpl; [tauto|].
  destruct (N.eqb x c) eqn:E; simpl; [exact IH|].
  apply N.eqb_neq in E. intros [H|H]; [congruence|now apply IH].
Qed.

Lemma replaceAll_fixed (c : N) (s : Js.str) :
  ~ In c s -> Js.replaceAll c [] s = s.
Proof.
  unfold Js.replaceAll. induction s as [|x s IH]; simpl; [reflexivity|].
  intros H. destruct (N.eqb x c) eqn:E.
  - apply N.eqb_eq in E. exfalso. apply H. now left.
  - simpl. rewrite IH; [reflexivity|]. intros Hin. apply H. now right.
Qed.

(** X8. A sanitized text holds no NUL and neither starts nor ends with
    white space, and sanitizing it once more changes nothing. *)
Theorem X8_sanitizeText_clean :
  forall text,
    let clean := MessageManager.sanitizeText text in
    ~ In 0%N clean /\
    startsClean clean /\
    endsClean clean /\
    MessageManager.sanitizeText (Some clean) = clean.
Proof.
  intros text clean.
  assert (Hnul : ~ In 0%N clean).
  { unfold clean, MessageManager.sanitizeText.
    destruct text as [[|c t]|]; try (simpl; tauto).
    intros H. apply In_trim in H. now apply replaceAll_removes in H. }
  assert (Hshape : startsClean clean /\ endsClean clean).
  { unfold clean, MessageManager.sanitizeText.
    destruct text as [[|c t]|]; try (split; exact I).
    apply trim_clean. }
  destruct Hshape as [Hs He]. repeat split; try assumption.
  unfold MessageManager.sanitizeText at 1.
  destruct clean as [|c t] eqn:Ec; [reflexivity|].
  rewrite replaceAll_fixed by exact Hnul.
  now apply trim_fixed.
Qed.

End TextMore.

(** ** From the event to the pipeline and back *)

Section ForwardMore.
Import OpenChatClient MessageManager.
Variable uuidv5 : Js.str -> Js.str -> OpenChatIds.UUID.
Variable toLowerCase : Js.str -> Js.str.

(** What [handleMessageEvent] does with a message it does not skip, when
    the message service is there. *)
Lemma handleMessageEvent_forwards runtime botClient chatEvent metadata now m :
  event chatEvent = message_event m ->
  deleted m = false ->
  senderContext m <> Some `"bot" ->
  buildPlaceholderForContent m <> [] ->
  messageService runtime = true ->
  exists connection memory callback,
    handleMessageEvent uuidv5 toLowerCase runtime botClient chatEvent
      metadata now = connection ++ [HandleMessage memory callback] /\
    (forall e, In e connection -> isForward e = false) /\
    memory_openchat memory = Some metadata /\
    memory_sender memory = Some (sender m) /\
    text (content memory) = buildPlaceholderForContent m /\
    cb_botClient callback = botClient /\
    cb_metadata callback = metadata /\
    cb_incomingMessageId callback = id memory /\
    cb_roomId callback = roomId memory.
Proof.
  intros Hm Hdel Hbot Htext Hservice.
  unfold handleMessageEvent. rewrite Hm, Hdel.
  assert (Hk : match senderContext m with
               | Some k => Js.eqb k `"bot"
               | None => false
               end = false).
  { destruct (senderContext m) as [k|]; [|reflexivity].
    apply eqb_neq. congruence. }
  rewrite Hk.
  destruct (buildPlaceholderForContent m) as [|c t] eqn:Et;
    [contradiction|].
  cbn [Js.truthy negb]. rewrite Hservice. cbn [negb].
  eexists _, _, _. split; [reflexivity|].
  split; [|repeat split].
  intros e Hin.
  destruct (ensureConnection runtime) as [[u|err]|]; cbn in Hin.
  - destruct Hin as [<-|[]]. reflexivity.
  - destruct Hin as [<-|[<-|[]]]; reflexivity.
  - contradiction.
Qed.

(** X9. Only a text message can be skipped for being empty: the
    placeholder of any other content is never empty, so a message of
    another content that is not deleted and not from a bot is forwarded to
    the message service, with the placeholder as the text of its memory. *)
Theorem X9_non_text_content_is_forwarded :
  forall runtime botClient chatEvent metadata now m,
    event chatEvent = message_event m ->
    (forall t, ev_content m <> text_content t) ->
    Js.truthy (buildPlaceholderForContent m) = true /\
    (deleted m = false ->
     senderContext m <> Some `"bot" ->
     messageService runtime = true ->
     exists memory callback,
       In (HandleMessage memory callback)
          (handleMessageEvent uuidv5 toLowerCase runtime botClient chatEvent
             metadata now) /\
       text (content memory) = buildPlaceholderForContent m).
Proof.
  intros runtime botClient chatEvent metadata now m Hm Hkind.
  assert (Htruthy : Js.truthy (buildPlaceholderForContent m) = true).
  { unfold buildPlaceholderForContent.
    destruct (ev_content m) as [t|c|c|c|n|o|k]; try reflexivity.
    exfalso. now apply (Hkind t). }
  split; [exact Htruthy|].
  intros Hdel Hbot Hservice.
  destruct (handleMessageEvent_forwards runtime botClient chatEvent metadata
              now m Hm Hdel Hbot) as (connection & memory & callback & E & H);
    try assumption.
  - intros E. rewrite E in Htruthy. discriminate.
  - exists memory, callback. split; [|apply H].
    rewrite E. apply in_or_app. right. now left.
Qed.

(** X11. A message of a chat that has an installation is forwarded with a
    client scoped to that installation and with metadata under the location
    key of the chat; and the memory that is forwarded, given back to the
    context resolver on its own, resolves to that installation and to that
    very metadata. *)
Theorem X11_forwarded_memory_resolves_back :
  forall runtime client chatEvent apiGateway service now m installation,
    event chatEvent = message_event m ->
    deleted m = false ->
    senderContext m <> Some `"bot" ->
    buildPlaceholderForContent m <> [] ->
    messageService runtime = true ->
    getInstallationByChatId service (ev_chatId chatEvent) =
      Some installation ->
    let metadata :=
      buildMessageMetadata (ev_chatId chatEvent) (ev_messageId m) apiGateway
        (thread chatEvent) in
    exists memory callback,
      In (HandleMessage memory callback)
         (NotifyHandlers.handleMessageEvent uuidv5 toLowerCase runtime client
            chatEvent apiGateway service now) /\
      cb_botClient callback =
        createClientForScope (scope installation)
          (Notify.orString (rec_apiGateway (record installation)) apiGateway)
          (Some (grantedAutonomousPermissions (record installation))) /\
      locationKey metadata =
        Some (getLocationKey
                (chatIdentifierToInstallationLocation (ev_chatId chatEvent)))
      /\
      ActionContext.resolveOpenChatContext (Some service) memory None None =
        Some (contextOf service metadata installation).
Proof.
  intros runtime client chatEvent apiGateway service now m installation
    Hm Hdel Hbot Htext Hservice Hinstalled metadata.
  unfold NotifyHandlers.handleMessageEvent. rewrite Hm, Hinstalled.
  destruct (handleMessageEvent_forwards runtime
              (createClientForScope (scope installation)
                 (Notify.orString (rec_apiGateway (record installation))
                    apiGateway)
                 (Some (grantedAutonomousPermissions (record installation))))
              chatEvent metadata now m Hm Hdel Hbot Htext Hservice)
    as (connection & memory & callback & E & _ & Hmeta & _ & _ & Hclient & _).
  exists memory, callback. fold metadata. rewrite E.
  split; [apply in_or_app; right; now left|].
  split; [exact Hclient|]. split; [reflexivity|].
  apply resolve_by_metadata
    with (key := getLocationKey
                   (chatIdentifierToInstallationLocation (ev_chatId chatEvent))).
  - rewrite extractMetadata_priority.
    unfold ActionContext.optionCandidate, ActionContext.stateCandidate,
      ActionContext.messageCandidate. cbn [ActionContext.opt].
    rewrite Hmeta.
    change (ActionContext.hasLocationKey None) with false. cbn iota.
    unfold ActionContext.hasLocationKey. cbn [ActionContext.opt].
    unfold metadata at 1. cbn [locationKey buildMessageMetadata].
    cbn [Js.truthy_opt]. now rewrite getLocationKey_truthy.
  - reflexivity.
  - exact Hinstalled.
Qed.

End ForwardMore.

(** A picture with the caption cat is forwarded as its placeholder. *)
Lemma X9_non_text_content_is_forwarded_witness :
  exists memory callback,
    In (MessageManager.HandleMessage memory callback)
       (MessageManager.handleMessageEvent Sample.nameAsUuid Sample.asciiLower
          Sample.runtime Sample.botClient Cases.picture
          (Sample.metadataUnder `"group:a") 0) /\
    text (content memory) = `"Received an image: cat".
Proof.
  apply (proj2 (X9_non_text_content_is_forwarded Sample.nameAsUuid
           Sample.asciiLower Sample.runtime Sample.botClient Cases.picture
           (Sample.metadataUnder `"group:a") 0 _ eq_refl
           ltac:(intros t; discriminate)));
    try reflexivity.
  vm_compute. discriminate.
Defined.

(** The message hello of group a, delivered with the client of the event. *)
Lemma X11_forwarded_memory_resolves_back_witness :
  exists memory callback,
    In (MessageManager.HandleMessage memory callback)
       (NotifyHandlers.handleMessageEvent Sample.nameAsUuid Sample.asciiLower
          Sample.runtime Sample.botClient Cases.hello Sample.gateway
          Sample.service 0) /\
    MessageManager.cb_botClient callback =
      OpenChatClient.createClientForScope (ChatActionScope Sample.groupA)
        Sample.gateway (Some Sample.granted) /\
    locationKey
      (OpenChatClient.buildMessageMetadata Sample.groupA 42 Sample.gateway
         None) = Some `"group:a" /\
    ActionContext.resolveOpenChatContext (Some Sample.service) memory None
      None =
    Some (contextOf Sample.service
            (OpenChatClient.buildMessageMetadata Sample.groupA 42
               Sample.gateway None)
            (Sample.installationAt Sample.groupA)).
Proof.
  apply (X11_forwarded_memory_resolves_back Sample.nameAsUuid
           Sample.asciiLower Sample.runtime Sample.botClient Cases.hello
           Sample.gateway Sample.service 0 _ (Sample.installationAt Sample.groupA)
           eq_refl);
    try reflexivity; vm_compute; discriminate.
Defined.

(** ** The response callback *)

Section ResponseMore.
Import MessageManager ResponseCallback.
Variable uuidv5 : Js.str -> Js.str -> OpenChatIds.UUID.

Lemma sanitizeText_no_nul (text : option Js.str) :
  ~ In 0%N (sanitizeText text).
Proof.
  unfold sanitizeText. destruct text as [[|c t]|]; try (simpl; tauto).
  intros H. apply In_trim in H. now apply replaceAll_removes in H.
Qed.

(** X10. The response callback sends nothing and returns no memory when the
    sanitized text of the response is empty.  Otherwise it hands the
    sanitized text, which holds no NUL, to the client of the callback,
    once; it returns a memory exactly when the send succeeds, whether or
    not the memory could be persisted, and that memory answers the incoming
    message in its room and carries the metadata of the incoming message
    with the id of the response.  It returns no memory when the platform
    answers with a failure, and rejects only when sending throws: what it
    returns does not depend on the memory store. *)
Theorem X10_response_callback :
  forall runtime callback response sent persisted now,
    let clean := sanitizeText (rc_text response) in
    let outcome :=
      respond uuidv5 runtime callback response sent persisted now in
    (clean = [] -> outcome = (Js.Ok [], [])) /\
    (forall client sentText,
       In (SendMessage client sentText) (snd outcome) ->
       client = cb_botClient callback /\ sentText = clean /\
       clean <> [] /\ ~ In 0%N sentText) /\
    (clean <> [] ->
     exists before after,
       snd outcome =
         before ++ [SendMessage (cb_botClient callback) clean] ++ after /\
       (forall e, In e before \/ In e after ->
                  forall client t, e <> SendMessage client t)) /\
    (forall memories,
       fst outcome = Js.Ok memories ->
       memories = [] /\
       (clean = [] \/ exists message, sent = Js.Ok (failure message)) \/
       exists responseId memory,
         clean <> [] /\
         sent = Js.Ok (success responseId) /\
         memories = [memory] /\
         text (content memory) = clean /\
         inReplyTo (content memory) = Some (cb_incomingMessageId callback) /\
         roomId memory = cb_roomId callback /\
         option_map messageId (memory_openchat memory) =
           Some (Some (Js.ofZ responseId)) /\
         option_map locationKey (memory_openchat memory) =
           Some (locationKey (cb_metadata callback))) /\
    (forall responseId,
       clean <> [] ->
       sent = Js.Ok (success responseId) ->
       exists memory,
         fst outcome = Js.Ok [memory] /\
         text (content memory) = clean /\
         inReplyTo (content memory) = Some (cb_incomingMessageId callback) /\
         roomId memory = cb_roomId callback /\
         memory_openchat memory =
           Some {| chatKind := chatKind (cb_metadata callback);
                   chatId := chatId (cb_metadata callback);
                   locationKey := locationKey (cb_metadata callback);
                   roomKey := roomKey (cb_metadata callback);
                   messageId := Some (Js.ofZ responseId);
                   threadId := threadId (cb_metadata callback);
                   replyToMessageId :=
                     replyToMessageId (cb_metadata callback);
                   apiGateway := apiGateway (cb_metadata callback) |} /\
         (forall stored,
            persisted = Some stored ->
            In (CreateMemory memory) (snd outcome))) /\
    (forall message,
       sent = Js.Ok (failure message) -> fst outcome = Js.Ok []) /\
    (forall e,
       clean <> [] -> sent = Js.Throw e -> fst outcome = Js.Throw e) /\
    (forall e,
       fst outcome = Js.Throw e -> clean <> [] /\ sent = Js.Throw e) /\
    fst outcome =
      fst (respond uuidv5 runtime callback response sent None now).
Proof.
  intros runtime callback response sent persisted now clean outcome.
  pose proof (sanitizeText_no_nul (rc_text response)) as Hnul.
  fold clean in Hnul.
  unfold outcome, respond. cbv zeta. fold clean.
  destruct clean as [|c t] eqn:Ec.
  - cbn [Js.truthy negb]. split; [reflexivity|].
    split; [intros client sentText []|].
    split; [intros H; now contradiction H|].
    split; [intros memories [= <-]; left; split; [reflexivity|now left]|].
    split; [intros responseId H; now contradiction H|].
    split; [reflexivity|].
    split; [intros e H; now contradiction H|].
    split; [discriminate|reflexivity].
  - cbn [Js.truthy negb]. split; [discriminate|].
    set (warned := if (0 <? rc_attachments response)%nat then _ else _).
    assert (Hwarned : forall e, In e warned ->
                                forall client s, e <> SendMessage client s).
    { intros e Hin client s. unfold warned in Hin.
      destruct (0 <? rc_attachments response)%nat; [|contradiction].
      destruct Hin as [<-|[]]. discriminate. }
    split; [|split; [|split; [|split; [|split; [|split; [|split]]]]]].
    + intros client sentText Hin.
      assert (Hthis : SendMessage client sentText =
                      SendMessage (cb_botClient callback) (c :: t)).
      { destruct sent as [[mid|msg]|e]; cbn [snd] in Hin;
          repeat (apply in_app_or in Hin as [Hin|Hin]);
          try (exfalso; now apply (Hwarned _ Hin client sentText));
          try (destruct Hin as [Hin|[]]; now symmetry);
          try (destruct Hin as [Hin|[]]; discriminate Hin).
        destruct persisted as [[u|e]|]; cbn in Hin;
          repeat (destruct Hin as [Hin|Hin]); try discriminate Hin;
          contradiction. }
      injection Hthis as -> ->.
      repeat split; [discriminate|exact Hnul].
    + intros _. exists warned.
      destruct sent as [[mid|msg]|e]; cbn [snd].
      * eexists. rewrite <- !app_assoc. split; [reflexivity|].
        intros e [Hin|Hin] client s; [now apply Hwarned|].
        destruct persisted as [[u|err]|]; cbn in Hin;
          repeat (destruct Hin as [<-|Hin]); try discriminate;
          contradiction.
      * eexists. rewrite <- !app_assoc. split; [reflexivity|].
        intros e [Hin|Hin] client s; [now apply Hwarned|].
        destruct Hin as [<-|[]]. discriminate.
      * exists []. split; [reflexivity|].
        intros e' [Hin|[]] client s. now apply Hwarned.
    + intros memories Hret.
      destruct sent as [[mid|msg]|e]; cbn [fst] in Hret;
        try discriminate Hret; injection Hret as <-.
      * right. eexists mid, _. split; [discriminate|].
        repeat split.
      * left. split; [reflexivity|]. right. now exists msg.
    + intros responseId _ ->. cbn [fst snd]. eexists.
      split; [reflexivity|]. repeat split.
      intros stored ->. apply in_or_app. right.
      destruct stored; now left.
    + intros message ->. reflexivity.
    + intros e _ ->. reflexivity.
    + intros e. destruct sent as [[mid|msg]|e0]; cbn [fst];
        try discriminate.
      intros [= ->]. split; [discriminate|reflexivity].
    + now destruct sent as [[mid|msg]|e0].
Qed.

End ResponseMore.

(** A blank response, and the response hi with a NUL in it, sent as
    message 77 while the memory store is down: the memory is returned
    all the same. *)
Lemma X10_response_callback_witness :
  ResponseCallback.respond Sample.nameAsUuid Sample.runtime Cases.callback
    (Cases.answer [32%N; 0%N; 10%N])
    (Js.Ok (ResponseCallback.success 77)) None 5 = (Js.Ok [], []) /\
  (exists before after,
     snd (ResponseCallback.respond Sample.nameAsUuid Sample.runtime
            Cases.callback (Cases.answer [32%N; 104%N; 0%N; 105%N; 32%N])
            (Js.Ok (ResponseCallback.success 77))
            (Some (Js.Throw `"store down")) 5) =
     before ++ [ResponseCallback.SendMessage Sample.botClient `"hi"] ++ after
     /\
     (forall e, In e before \/ In e after ->
                forall client t, e <> ResponseCallback.SendMessage client t))
  /\
  exists memory,
    fst (ResponseCallback.respond Sample.nameAsUuid Sample.runtime
           Cases.callback (Cases.answer [32%N; 104%N; 0%N; 105%N; 32%N])
           (Js.Ok (ResponseCallback.success 77))
           (Some (Js.Throw `"store down")) 5) = Js.Ok [memory] /\
    text (content memory) = `"hi" /\
    id memory = `"openchat-message-a-77".
Proof.
  split; [|split].
  - apply (proj1 (X10_response_callback Sample.nameAsUuid Sample.runtime
                    Cases.callback (Cases.answer [32%N; 0%N; 10%N])
                    (Js.Ok (ResponseCallback.success 77)) None 5)).
    reflexivity.
  - apply (proj1 (proj2 (proj2
             (X10_response_callback Sample.nameAsUuid Sample.runtime
                Cases.callback (Cases.answer [32%N; 104%N; 0%N; 105%N; 32%N])
                (Js.Ok (ResponseCallback.success 77))
                (Some (Js.Throw `"store down")) 5)))).
    vm_compute. discriminate.
  - destruct (proj1 (proj2 (proj2 (proj2 (proj2
                (X10_response_callback Sample.nameAsUuid Sample.runtime
                   Cases.callback
                   (Cases.answer [32%N; 104%N; 0%N; 105%N; 32%N])
                   (Js.Ok (ResponseCallback.success 77))
                   (Some (Js.Throw `"store down")) 5))))) 77%Z)
      as (memory & Hret & Htext & _).
    + vm_compute. discriminate.
    + reflexivity.
    + exists memory. split; [exact Hret|]. split; [exact Htext|].
      vm_compute in Hret. injection Hret as <-. reflexivity.
Defined.

(** ** More on context resolution *)

Section ContextMore.
Import OpenChatClient ActionContext.

Lemma pickInstallation_sound (m : Js.Map OpenChatInstallation)
  metadata state options i k :
  pickInstallation m metadata state options = Some (i, k) ->
  Js.truthy k = true /\ Js.get m k = Some i.
Proof.
  unfold pickInstallation, settled.
  destruct (orElse (byMetadata m metadata)
              (orElse (byPreferredKey m state options) (byFirstEntry m)))
    as [[i' k']|] eqn:E; [|discriminate].
  destruct (Js.truthy k') eqn:Ht; [|discriminate].
  intros [= <- <-]. split; [exact Ht|].
  unfold orElse in E.
  destruct (byMetadata m metadata) as [[i1 k1]|] eqn:E1.
  - injection E as <- <-. unfold byMetadata in E1.
    destruct (opt metadata locationKey) as [key|]; [|discriminate].
    destruct (Js.truthy key); [|discriminate].
    destruct (Js.get m key) eqn:Eg; [|discriminate].
    now injection E1 as <- <-.
  - destruct (byPreferredKey m state options) as [[i2 k2]|] eqn:E2.
    + injection E as <- <-. unfold byPreferredKey in E2.
      destruct (preferredKey state options) as [key|]; [|discriminate].
      destruct (Js.truthy key && Js.has m key); [|discriminate].
      destruct (Js.get m key) eqn:Eg; [|discriminate].
      now injection E2 as <- <-.
    + unfold byFirstEntry in E.
      destruct (Js.first m) as [[k3 i3]|] eqn:E3; [|discriminate].
      injection E as <- <-. now apply first_get.
Qed.

Lemma resolve_inv service message state options ctx :
  resolveOpenChatContext (Some service) message state options = Some ctx ->
  exists i k,
    pickInstallation (installations service)
      (extractMetadata message state options) state options = Some (i, k) /\
    ctx = contextOf service
            match extractMetadata message state options with
            | Some m => m
            | None => buildMetadataFromInstallation k i None
            end i.
Proof.
  unfold resolveOpenChatContext, getInstallations. cbv zeta.
  destruct (Js.size (installations service) =? 0)%Z; [discriminate|].
  destruct (pickInstallation (installations service)
              (extractMetadata message state options) state options)
    as [[i k]|] eqn:E; [|discriminate].
  intros [= <-]. exists i, k. split; [reflexivity|].
  rewrite completeMetadata_extracted. reflexivity.
Qed.

(** X12. In a Registry the service has reached, context resolution fails
    exactly when the Registry is empty: with one installation or more it
    always returns a context, whatever the metadata and the preferred keys
    are. *)
Theorem X12_resolution_fails_only_when_empty :
  forall deliveries message state options,
    let service := Notify.serviceAfter deliveries in
    resolveOpenChatContext (Some service) message state options = None <->
    installations service = [].
Proof.
  intros deliveries message state options service. split.
  - intros Hnone.
    destruct (installations service) as [|[k0 i0] rest] eqn:Em;
      [reflexivity|exfalso].
    pose proof (RegistryOk_serviceAfter deliveries) as Hok.
    fold service in Hok.
    assert (Hfirst : Js.first (installations service) = Some (k0, i0))
      by now rewrite Em.
    pose proof (RegistryOk_first_truthy _ _ _ Hok Hfirst) as Hk0.
    revert Hnone. unfold resolveOpenChatContext, getInstallations. cbv zeta.
    rewrite (get_Some_size _ _ _ _ (first_get _ _ _ _ Hfirst)).
    assert (Hpick : exists r,
              pickInstallation (installations service)
                (extractMetadata message state options) state options =
              Some r).
    { unfold pickInstallation, byFirstEntry. rewrite Hfirst.
      destruct (byMetadata (installations service)
                  (extractMetadata message state options))
        as [[i1 k1]|] eqn:E1.
      - cbn [orElse settled].
        assert (Ht : Js.truthy k1 = true).
        { unfold byMetadata in E1.
          destruct (opt (extractMetadata message state options) locationKey)
            as [key|]; [|discriminate].
          destruct (Js.truthy key) eqn:Ht; [|discriminate].
          destruct (Js.get (installations service) key); [|discriminate].
          now injection E1 as _ <-. }
        rewrite Ht. eauto.
      - destruct (byPreferredKey (installations service) state options)
          as [[i2 k2]|] eqn:E2; cbn [orElse settled].
        + assert (Ht : Js.truthy k2 = true).
          { unfold byPreferredKey in E2.
            destruct (preferredKey state options) as [key|]; [|discriminate].
            destruct (Js.truthy key) eqn:Ht; [|discriminate].
            cbn [andb] in E2.
            destruct (Js.has (installations service) key); [|discriminate].
            destruct (Js.get (installations service) key); [|discriminate].
            now injection E2 as _ <-. }
          rewrite Ht. eauto.
        + rewrite Hk0. eauto. }
    destruct Hpick as [[i k] ->]. discriminate.
  - apply resolve_empty.
Qed.

(** X13. Whatever context the resolver returns, its installation is one
    the Registry holds under a non-empty key, its client is scoped to that
    installation with the gateway and the autonomous permissions of its
    record, and its metadata carries a non-empty location key.  When no
    candidate carried a key, the metadata is synthesized for that
    installation under the key it was found by. *)
Theorem X13_resolved_context_is_registered :
  forall service message state options ctx,
    resolveOpenChatContext (Some service) message state options = Some ctx ->
    ActionContext.service ctx = service /\
    (exists key,
       Js.truthy key = true /\
       Js.get (installations service) key = Some (installation ctx) /\
       (extractMetadata message state options = None ->
        metadata ctx =
        buildMetadataFromInstallation key (installation ctx) None)) /\
    client ctx =
      createClientForScope (scope (installation ctx))
        (rec_apiGateway (record (installation ctx)))
        (Some (grantedAutonomousPermissions (record (installation ctx)))) /\
    hasLocationKey (Some (metadata ctx)) = true.
Proof.
  intros service message state options ctx Hctx.
  destruct (resolve_inv _ _ _ _ _ Hctx) as (i & k & Hpick & ->).
  destruct (pickInstallation_sound _ _ _ _ _ _ Hpick) as [Ht Hget].
  unfold contextOf. cbn.
  split; [reflexivity|]. split; [|split; [reflexivity|]].
  - exists k. split; [exact Ht|]. split; [exact Hget|].
    now intros ->.
  - destruct (extractMetadata message state options) as [m|] eqn:Em.
    + now apply extractMetadata_hasLocationKey in Em.
    + unfold hasLocationKey. cbn. exact Ht.
Qed.

(** The counterexample input of the priority rule: the context comes from
    the Registry all the same. *)
Lemma X13_resolved_context_is_registered_witness :
  exists key,
    Js.truthy key = true /\
    Js.get (installations Sample.service) key =
      Some (Sample.installationAt Sample.groupA) /\
    (extractMetadata (Sample.memoryWith None)
       (Some (Sample.stateWith (Sample.metadataUnder `"group:b")))
       (Some (Sample.optionsWith (Sample.metadataUnder `"group:zz"))) = None ->
     Sample.metadataUnder `"group:zz" =
     buildMetadataFromInstallation key (Sample.installationAt Sample.groupA)
       None).
Proof.
  apply (proj1 (proj2 (X13_resolved_context_is_registered Sample.service
           (Sample.memoryWith None)
           (Some (Sample.stateWith (Sample.metadataUnder `"group:b")))
           (Some (Sample.optionsWith (Sample.metadataUnder `"group:zz")))
           (contextOf Sample.service (Sample.metadataUnder `"group:zz")
              (Sample.installationAt Sample.groupA))
           eq_refl))).
Defined.

End ContextMore.

Section PreferredKey.
Import OpenChatClient ActionContext.

(** X14. When no candidate metadata carries a key, a preferred location
    key that is installed decides: the context is that installation with
    metadata synthesized for it.  The key of the options is preferred to the
    one of the state whenever the options have one, even an empty or an
    unknown one: then the state's key is not tried, and the context is the
    first installation of the Registry. *)
Theorem X14_preferred_key :
  forall deliveries message state options,
    let service := Notify.serviceAfter deliveries in
    let registry := installations service in
    extractMetadata message state options = None ->
    (forall key existing,
       preferredKey state options = Some key ->
       Js.get registry key = Some existing ->
       resolveOpenChatContext (Some service) message state options =
       Some (contextOf service
               (buildMetadataFromInstallation key existing None) existing)) /\
    (forall key firstKey first,
       opt options options_locationKey = Some key ->
       Js.get registry key = None ->
       Js.first registry = Some (firstKey, first) ->
       resolveOpenChatContext (Some service) message state options =
       Some (contextOf service
               (buildMetadataFromInstallation firstKey first None) first)).
Proof.
  intros deliveries message state options service registry Hnone.
  pose proof (RegistryOk_serviceAfter deliveries) as Hok. fold service in Hok.
  subst registry. split.
  - intros key existing Hpref Hget.
    pose proof (RegistryOk_get_truthy _ _ _ Hok Hget) as Ht.
    unfold resolveOpenChatContext, getInstallations. cbv zeta.
    rewrite (get_Some_size _ _ _ _ Hget).
    unfold pickInstallation, byMetadata, byPreferredKey.
    rewrite Hnone, Hpref. cbn [opt orElse]. unfold Js.has.
    rewrite Hget, Ht. cbn [andb orElse settled]. rewrite Ht.
    reflexivity.
  - intros key firstKey first Hopt Hget Hfirst.
    pose proof (RegistryOk_first_truthy _ _ _ Hok Hfirst) as Ht.
    unfold resolveOpenChatContext, getInstallations. cbv zeta.
    rewrite (get_Some_size _ _ _ _ (first_get _ _ _ _ Hfirst)).
    unfold pickInstallation, byMetadata, byPreferredKey, preferredKey,
      byFirstEntry.
    rewrite Hnone, Hopt. cbn [opt orElse Js.nullish_opt]. unfold Js.has.
    rewrite Hget, andb_false_r, Hfirst.
    cbn [orElse settled]. rewrite Ht. reflexivity.
Qed.

End PreferredKey.

(** The state prefers group b; and the options prefer an unknown key while
    the state prefers group b. *)
Lemma X14_preferred_key_witness :
  ActionContext.resolveOpenChatContext (Some Sample.service)
    (Sample.memoryWith None)
    (Some (ActionContext.mkState None (Some `"group:b"))) None =
  Some (contextOf Sample.service
          (OpenChatClient.buildMetadataFromInstallation `"group:b"
             (Sample.installationAt Sample.groupB) None)
          (Sample.installationAt Sample.groupB)) /\
  ActionContext.resolveOpenChatContext (Some Sample.service)
    (Sample.memoryWith None)
    (Some (ActionContext.mkState None (Some `"group:b")))
    (Some (ActionContext.mkOptions None None (Some `"group:zz"))) =
  Some (contextOf Sample.service
          (OpenChatClient.buildMetadataFromInstallation `"group:a"
             (Sample.installationAt Sample.groupA) None)
          (Sample.installationAt Sample.groupA)).
Proof.
  split.
  - apply (proj1 (X14_preferred_key Sample.deliveries (Sample.memoryWith None)
                    (Some (ActionContext.mkState None (Some `"group:b")))
                    None eq_refl)); reflexivity.
  - apply (proj2 (X14_preferred_key Sample.deliveries (Sample.memoryWith None)
                    (Some (ActionContext.mkState None (Some `"group:b")))
                    (Some (ActionContext.mkOptions None None
                             (Some `"group:zz")))
                    eq_refl)) with (key := `"group:zz"); reflexivity.
Defined.

(** ** More on the user directory *)

Section DirectoryMore.
Import UserDirectory DirectoryFrame.
Variable remote : Remote.

(** [lookupProfiles], case by case. *)
Lemma lookupProfiles_cases ids d :
  let valid := somes (map (encoded remote) ids) in
  let warned := warnedFor remote d ids in
  lookupProfiles remote ids d =
  match valid with
  | [] => (Js.Ok [], warned)
  | _ :: _ =>
      match Principal_fromText remote (storageIndexCanisterId d) with
      | Js.Throw e => (Js.Throw e, warned)
      | Js.Ok canister =>
          let queried := addQuery warned valid in
          match agent_query remote canister valid with
          | QueryThrows e => (Js.Throw e, queried)
          | QueryNotReplied =>
              (Js.Throw (`"User directory query was rejected for " ++
                         storageIndexCanisterId d), queried)
          | QueryReplied None => (Js.Ok [], queried)
          | QueryReplied (Some users) =>
              match mapM (mapSummary remote) users queried with
              | (Js.Ok profiles, d') => (Js.Ok (somes profiles), d')
              | (Js.Throw e, d') => (Js.Throw e, d')
              end
          end
      end
  end.
Proof.
  intros valid warned.
  assert (Hc : storageIndexCanisterId warned = storageIndexCanisterId d)
    by apply onlyWarned_warnedFor.
  unfold lookupProfiles, bind at 1. rewrite mapM_principalToBytes.
  fold valid. fold warned. destruct valid as [|v vs]; [reflexivity|].
  unfold bind at 1, remoteQuery, bind at 1, gets. rewrite Hc.
  destruct (Principal_fromText remote (storageIndexCanisterId d))
    as [canister|e]; [|reflexivity].
  unfold bind at 1, noteQuery, modify, ret. cbv zeta.
  destruct (agent_query remote canister (v :: vs)) as [e| |[users|]];
    try reflexivity.
  unfold bind, gets, throw. cbn. now rewrite Hc.
Qed.

Lemma mapM_mapSummary_named users : forall d,
  exists profiles d',
    mapM (mapSummary remote) users d = (Js.Ok profiles, d') /\
    List.length profiles = List.length users /\
    Forall (fun p => Js.truthy (userId p) = true) (somes profiles).
Proof.
  induction users as [|u users IH]; intros d.
  - exists [], d. repeat split. constructor.
  - cbn [mapM]. unfold bind at 1.
    assert (H : exists o d1,
              mapSummary remote u d = (Js.Ok o, d1) /\
              match o with
              | Some p => Js.truthy (userId p) = true
              | None => True
              end).
    { unfold mapSummary, principalToText, bind.
      destruct (user_id u) as [text|bytes]; cbn.
      - destruct text; eexists _, d; (split; [reflexivity|]); [exact I|].
        reflexivity.
      - destruct (Principal_toText remote bytes) as [text|e]; cbn.
        + destruct text; eexists _, d; (split; [reflexivity|]); [exact I|].
          reflexivity.
        + eexists _, _. split; [reflexivity|exact I]. }
    destruct H as (o & d1 & -> & Ho).
    destruct (IH d1) as (ps & d2 & E & Hlen & Hall).
    unfold bind. rewrite E. cbn. eexists _, d2.
    split; [reflexivity|]. split; [cbn; now rewrite Hlen|].
    destruct o as [p|]; cbn; [constructor; assumption|exact Hall].
Qed.

Lemma length_somes {A : Type} (l : list (option A)) :
  (List.length (somes l) <= List.length l)%nat.
Proof.
  unfold somes. induction l as [|[x|] l IH]; cbn; lia.
Qed.

(** X17. Every profile [lookupProfiles] returns has a user id that is not
    empty, and there are no more profiles than users in the reply.  It
    throws in three cases only, each with an id that encodes at hand: the
    canister id of the directory does not decode, the query itself throws,
    or the reply is a rejection, which it reports under the canister id. *)
Theorem X17_lookup_results_and_errors :
  forall ids d,
    let valid := somes (map (encoded remote) ids) in
    let canisterId := storageIndexCanisterId d in
    (forall profiles,
       fst (lookupProfiles remote ids d) = Js.Ok profiles ->
       Forall (fun p => Js.truthy (userId p) = true) profiles /\
       (profiles = [] \/
        exists canister users,
          Principal_fromText remote canisterId = Js.Ok canister /\
          agent_query remote canister valid = QueryReplied (Some users) /\
          (List.length profiles <= List.length users)%nat)) /\
    (forall e,
       fst (lookupProfiles remote ids d) = Js.Throw e ->
       valid <> [] /\
       (Principal_fromText remote canisterId = Js.Throw e \/
        exists canister,
          Principal_fromText remote canisterId = Js.Ok canister /\
          (agent_query remote canister valid = QueryThrows e \/
           agent_query remote canister valid = QueryNotReplied /\
           e = `"User directory query was rejected for " ++ canisterId))).
Proof.
  intros ids d valid canisterId.
  rewrite lookupProfiles_cases. cbv zeta. fold valid. fold canisterId.
  destruct valid as [|v vs] eqn:Ev.
  - split.
    + intros profiles [= <-]. split; [constructor|now left].
    + intros e H. discriminate H.
  - destruct (Principal_fromText remote canisterId) as [canister|e0] eqn:Ec.
    + destruct (agent_query remote canister (v :: vs))
        as [e1| |[users|]] eqn:Eq.
      * split; [intros profiles H; discriminate H|].
        intros e [= <-]. split; [discriminate|]. right.
        exists canister. split; [first [reflexivity|assumption]|now left].
      * split; [intros profiles H; discriminate H|].
        intros e [= <-]. split; [discriminate|]. right.
        exists canister. split; [first [reflexivity|assumption]|]. right.
        split; [first [reflexivity|assumption]|reflexivity].
      * destruct (mapM_mapSummary_named users
                    (addQuery (warnedFor remote d ids) (v :: vs)))
          as (ps & d' & -> & Hlen & Hall).
        split; [|intros e H; discriminate H].
        intros profiles [= <-]. split; [exact Hall|]. right.
        exists canister, users. split; [first [reflexivity|assumption]|].
        split; [first [reflexivity|assumption]|].
        rewrite <- Hlen. apply length_somes.
      * split; [|intros e H; discriminate H].
        intros profiles [= <-]. split; [constructor|now left].
    + split; [intros profiles H; discriminate H|].
      intros e [= <-]. split; [discriminate|]. now left.
Qed.

Lemma lookupProfiles_queries ids d :
  remoteQueries (snd (lookupProfiles remote ids d)) = remoteQueries d \/
  remoteQueries (snd (lookupProfiles remote ids d)) =
    remoteQueries d ++ [somes (map (encoded remote) ids)].
Proof.
  destruct (somes (map (encoded remote) ids)) as [|v vs] eqn:Hvalid.
  - left. rewrite (lookupProfiles_none _ _ _ Hvalid).
    apply onlyWarned_warnedFor.
  - destruct (Principal_fromText remote (storageIndexCanisterId d))
      as [canister|e] eqn:Hcanister.
    + right.
      destruct (lookupProfiles_some _ _ _ _ _ _ Hvalid Hcanister)
        as (r & d' & -> & _ & Hq). exact Hq.
    + left. rewrite lookupProfiles_cases. cbv zeta.
      rewrite Hvalid, Hcanister. apply onlyWarned_warnedFor.
Qed.

(** X16. A call of [getProfile] never throws and leaves the configuration
    and every cache entry but the one of its own key as they were; no
    entry is ever removed.  A profile it returns is the one the cache
    holds under its key afterwards, and at most one remote query goes out,
    for the one id. *)
Theorem X16_getProfile_frame :
  forall apiGateway userId now later d,
    let key := cacheKey (scopeKeyOf d apiGateway) userId in
    let outcome := getProfile remote apiGateway userId now later d in
    (exists r, fst outcome = Js.Ok r) /\
    cacheTtlMs (snd outcome) = cacheTtlMs d /\
    storageIndexCanisterId (snd outcome) = storageIndexCanisterId d /\
    (forall other,
       other <> key ->
       Js.get (cache (snd outcome)) other = Js.get (cache d) other) /\
    (forall k c,
       Js.get (cache d) k = Some c ->
       exists c', Js.get (cache (snd outcome)) k = Some c') /\
    (forall p,
       fst outcome = Js.Ok (Some p) ->
       exists c,
         Js.get (cache (snd outcome)) key = Some c /\ profile c = p) /\
    (remoteQueries (snd outcome) = remoteQueries d \/
     remoteQueries (snd outcome) =
       remoteQueries d ++ [somes (map (encoded remote) [userId])]).
Proof.
  intros apiGateway userId now later d key outcome.
  assert (Hlooked :
    let after := afterLookup key later (lookupProfiles remote [userId] d) in
    (exists r, fst after = Js.Ok r) /\
    cacheTtlMs (snd after) = cacheTtlMs d /\
    storageIndexCanisterId (snd after) = storageIndexCanisterId d /\
    (forall other,
       other <> key ->
       Js.get (cache (snd after)) other = Js.get (cache d) other) /\
    (forall k c,
       Js.get (cache d) k = Some c ->
       exists c', Js.get (cache (snd after)) k = Some c') /\
    (forall p,
       fst after = Js.Ok (Some p) ->
       exists c, Js.get (cache (snd after)) key = Some c /\ profile c = p) /\
    (remoteQueries (snd after) = remoteQueries d \/
     remoteQueries (snd after) =
       remoteQueries d ++ [somes (map (encoded remote) [userId])])).
  { cbv zeta.
    pose proof (lookupProfiles_sameStore remote [userId] d)
      as (Hcache & Httl & Hcanister).
    pose proof (lookupProfiles_queries [userId] d) as Hq.
    rewrite afterLookup_queries.
    destruct (lookupProfiles remote [userId] d) as [[[|p ps]|e] d'];
      cbn [snd fst afterLookup setCached addWarning cache cacheTtlMs
           storageIndexCanisterId] in *.
    - repeat split; eauto; try congruence;
        try (intros k c Hk; rewrite Hcache; now eauto);
        try (intros p H; discriminate H).
    - repeat split; eauto; try congruence;
        try (intros other Hne; rewrite get_set_other;
             [congruence|intros E; apply Hne; symmetry; exact E]);
        try (intros k c Hk; destruct (Js.eqb key k) eqn:E;
             [apply eqb_eq in E; subst k; rewrite get_set_same; now eauto
             |apply eqb_neq in E; rewrite get_set_other by exact E;
              rewrite Hcache; now eauto]);
        try (intros p0 [= <-]; rewrite get_set_same; now eauto).
    - repeat split; eauto; try congruence;
        try (intros k c Hk; rewrite Hcache; now eauto);
        try (intros p H; discriminate H). }
  cbv zeta in Hlooked.
  unfold outcome. rewrite getProfile_cases. cbv zeta. fold key.
  destruct (negb (Js.truthy (scopeKeyOf d apiGateway))
            || negb (Js.truthy userId)).
  - cbn [fst snd]. split; [eexists; reflexivity|].
    repeat split; eauto. intros p H. discriminate H.
  - destruct (Js.get (cache d) key) as [c|] eqn:Hget; [|exact Hlooked].
    destruct (expiresAt c >? now)%Z; [|exact Hlooked].
    cbn [fst snd]. split; [eexists; reflexivity|].
    repeat split; eauto.
    intros p [= <-]. eauto.
Qed.

End DirectoryMore.

Section CacheKeys.
Import UserDirectory.

(** A text without a given code unit, followed by that code unit and by
    any text, is read back in one way only. *)
Lemma split_at_first (c : N) (a1 a2 b1 b2 : Js.str) :
  ~ In c a1 -> ~ In c a2 ->
  a1 ++ c :: b1 = a2 ++ c :: b2 ->
  a1 = a2 /\ b1 = b2.
Proof.
  revert a2. induction a1 as [|x a1 IH]; intros [|y a2] H1 H2 E; cbn in E.
  - injection E as ->. now split.
  - injection E as <- _. exfalso. apply H2. now left.
  - injection E as -> _. exfalso. apply H1. now left.
  - injection E as -> E.
    destruct (IH a2) as [-> ->]; try assumption.
    + intros Hin. apply H1. now right.
    + intros Hin. apply H2. now right.
    + now split.
Qed.

Lemma split_at_last (c : N) (a1 a2 b1 b2 : Js.str) :
  ~ In c b1 -> ~ In c b2 ->
  a1 ++ c :: b1 = a2 ++ c :: b2 ->
  a1 = a2 /\ b1 = b2.
Proof.
  intros H1 H2 E. apply (f_equal (@rev N)) in E.
  rewrite !rev_app_distr in E. cbn [rev] in E. rewrite <- !app_assoc in E.
  cbn [app] in E.
  apply split_at_first in E as [Eb Ea].
  - split.
    + rewrite <- (rev_involutive a1), <- (rev_involutive a2). now f_equal.
    + rewrite <- (rev_involutive b1), <- (rev_involutive b2). now f_equal.
  - intros Hin. apply H1. now apply in_rev.
  - intros Hin. apply H2. now apply in_rev.
Qed.

(** X15. Two users at gateways never share a cache entry as long as the
    user ids hold no colon, as the text of a principal does not: the cache
    key then determines the gateway and the user.  With a colon in the user
    id the key is ambiguous: the gateway g with the user x:u has the key of
    the gateway g:x with the user u. *)
Theorem X15_cache_keys :
  (forall g1 u1 g2 u2,
     ~ In 58%N u1 -> ~ In 58%N u2 ->
     cacheKey g1 u1 = cacheKey g2 u2 ->
     g1 = g2 /\ u1 = u2) /\
  (forall g x u,
     cacheKey g (x ++ `":" ++ u) = cacheKey (g ++ `":" ++ x) u).
Proof.
  split.
  - intros g1 u1 g2 u2 H1 H2 E. unfold cacheKey in E.
    now apply (split_at_last 58 g1 g2 u1 u2).
  - intros g x u. unfold cacheKey. now rewrite <- !app_assoc.
Qed.

(** The anonymous principal at a gateway and at the same gateway with a
    port. *)
Lemma X15_cache_keys_witness :
  cacheKey `"https://gw" `"2vxsx-fae" <> cacheKey `"https://gw:8080" `"2vxsx-fae".
Proof.
  intros E.
  destruct (proj1 X15_cache_keys `"https://gw" `"2vxsx-fae"
              `"https://gw:8080" `"2vxsx-fae") as [Hg _].
  - vm_compute. intuition discriminate.
  - vm_compute. intuition discriminate.
  - exact E.
  - discriminate Hg.
Defined.

End CacheKeys.

(** ** The send action *)

Section SendMore.
Import OpenChatClient SendMessageAction.

Lemma matches_group installation g c :
  matchesRequestedScope installation (mkScope `"group" g c) =
  Js.eqb (getLocationKey (location installation)) (`"group:" ++ g).
Proof.
  unfold matchesRequestedScope. cbn [scope_kind scope_chatId].
  destruct (location installation); reflexivity.
Qed.

Lemma matches_channel installation chat c t :
  matchesRequestedScope installation (mkScope `"channel" chat (Some (c :: t)))
  = Js.eqb (getLocationKey (location installation))
      (`"community:" ++ c :: t).
Proof.
  unfold matchesRequestedScope. cbn [scope_kind scope_communityId].
  destruct (location installation); reflexivity.
Qed.

Lemma find_by_key (m : Js.Map OpenChatInstallation)
  (f : OpenChatInstallation -> bool) key :
  RegistryOk m ->
  (forall k i, In (k, i) m ->
               f i = Js.eqb (getLocationKey (location i)) key) ->
  find f (map snd m) = Js.get m key.
Proof.
  intros [_ Hall] Hf. induction Hall as [|[k0 i0] m [Hk _] _ IH]; cbn.
  - reflexivity.
  - cbn in Hk. rewrite (Hf k0 i0) by now left. rewrite <- Hk.
    destruct (Js.eqb k0 key); [reflexivity|].
    apply IH. intros k i Hin. apply (Hf k i). now right.
Qed.

Lemma find_none (l : list OpenChatInstallation)
  (f : OpenChatInstallation -> bool) :
  (forall i, f i = false) -> find f l = None.
Proof.
  intros Hf. induction l as [|i l IH]; cbn; [reflexivity|].
  now rewrite Hf.
Qed.

(** X19. [validate] holds exactly when the Registry is not empty, and then
    the handler, given a text, always has an installation to send through.
    A requested group, or a channel by the id of its community, is answered
    by the installation the Registry holds under the key of that group or
    community; when the Registry holds none, and whenever the kind of the
    scope is unknown or the community id of a channel is missing, the first
    installation is taken instead. *)
Theorem X19_send_target :
  forall deliveries,
    let service := Notify.serviceAfter deliveries in
    let registry := installations service in
    let orFirst (found : option OpenChatInstallation) :=
      match found with
      | Some i => Some i
      | None => hd_error (values service)
      end in
    (validate (Some service) = true <-> registry <> []) /\
    (forall c t requested hasSuccessLogger hasCallback sent,
       validate (Some service) = true ->
       exists target rest,
         targetInstallation service requested = Some target /\
         handler (Some service) (Some (c :: t)) requested hasSuccessLogger
           hasCallback sent =
         SendMessage
           (createClientForScope (scope target)
              (rec_apiGateway (record target))
              (Some (grantedAutonomousPermissions (record target))))
           (c :: t) :: rest) /\
    (forall g community,
       targetInstallation service (Some (mkScope `"group" g community)) =
       orFirst (Js.get registry (`"group:" ++ g))) /\
    (forall chat c t,
       targetInstallation service
         (Some (mkScope `"channel" chat (Some (c :: t)))) =
       orFirst (Js.get registry (`"community:" ++ c :: t))) /\
    (forall chat community,
       community = None \/ community = Some [] ->
       targetInstallation service (Some (mkScope `"channel" chat community)) =
       hd_error (values service)) /\
    (forall kind chat community,
       kind <> `"channel" -> kind <> `"group" -> kind <> `"direct" ->
       targetInstallation service (Some (mkScope kind chat community)) =
       hd_error (values service)).
Proof.
  intros deliveries service registry orFirst.
  pose proof (RegistryOk_serviceAfter deliveries) as Hok. fold service in Hok.
  assert (Hvalid : validate (Some service) = true <-> registry <> []).
  { unfold validate, getInstallations, Js.size. fold registry.
    destruct registry; cbn; split; intros H; try discriminate;
      try reflexivity; try congruence. }
  split; [exact Hvalid|].
  split; [|split; [|split; [|split]]].
  - intros c t requested hasSuccessLogger hasCallback sent Hv.
    apply Hvalid in Hv.
    assert (Htarget : exists target,
              targetInstallation service requested = Some target).
    { unfold targetInstallation, values, getInstallations. fold registry.
      destruct (match requested with
                | Some s => find (fun i => matchesRequestedScope i s)
                              (map snd registry)
                | None => None
                end) as [i|]; [eauto|].
      destruct registry as [|[k i] rest]; [contradiction|]. cbn. eauto. }
    destruct Htarget as [target Htarget]. exists target.
    unfold handler. rewrite Htarget. eexists. split; reflexivity.
  - intros g community. unfold targetInstallation, values, getInstallations.
    fold registry. cbv zeta.
    rewrite (find_by_key registry
               (fun i => matchesRequestedScope i (mkScope `"group" g community))
               (`"group:" ++ g) Hok); [reflexivity|].
    intros k i _. apply matches_group.
  - intros chat c t. unfold targetInstallation, values, getInstallations.
    fold registry. cbv zeta.
    rewrite (find_by_key registry
               (fun i => matchesRequestedScope i
                           (mkScope `"channel" chat (Some (c :: t))))
               (`"community:" ++ c :: t) Hok); [reflexivity|].
    intros k i _. apply matches_channel.
  - intros chat community Hmissing.
    unfold targetInstallation. cbv zeta. rewrite find_none; [reflexivity|].
    intros i. unfold matchesRequestedScope. cbn [scope_kind scope_communityId].
    destruct Hmissing as [-> | ->]; cbn;
      destruct (location i); reflexivity.
  - intros kind chat community H1 H2 H3.
    unfold targetInstallation. cbv zeta. rewrite find_none; [reflexivity|].
    intros i. unfold matchesRequestedScope. cbn [scope_kind].
    apply eqb_neq in H1, H2, H3. now rewrite H1, H2, H3.
Qed.

End SendMore.

(** A message for group b, and one for a group that is not installed. *)
Lemma X19_send_target_witness :
  SendMessageAction.targetInstallation Sample.service
    (Some (SendMessageAction.mkScope `"group" `"b" None)) =
    Some (Sample.installationAt Sample.groupB) /\
  SendMessageAction.targetInstallation Sample.service
    (Some (SendMessageAction.mkScope `"group" `"zz" None)) =
    Some (Sample.installationAt Sample.groupA) /\
  exists target rest,
    SendMessageAction.targetInstallation Sample.service
      (Some (SendMessageAction.mkScope `"channel" `"c" (Some []))) =
      Some target /\
    SendMessageAction.handler (Some Sample.service) (Some `"hello")
      (Some (SendMessageAction.mkScope `"channel" `"c" (Some []))) true true
      (Js.Ok tt) =
    SendMessageAction.SendMessage
      (OpenChatClient.createClientForScope (scope target)
         (rec_apiGateway (record target))
         (Some (grantedAutonomousPermissions (record target))))
      `"hello" :: rest.
Proof.
  destruct (X19_send_target Sample.deliveries)
    as (_ & Hsend & Hgroup & _).
  split; [|split].
  - rewrite Hgroup. reflexivity.
  - rewrite Hgroup. reflexivity.
  - apply (Hsend 104%N `"ello"). reflexivity.
Defined.

(** ** The events of a chat *)

Section EventsMore.
Import ChatEvents.

Lemma firstn_snoc {A : Type} (l : list A) (n : nat) (x : A) :
  nth_error l n = Some x -> firstn (S n) l = firstn n l ++ [x].
Proof.
  revert l. induction n as [|n IH]; intros [|y l]; cbn; try discriminate.
  - now intros [= ->].
  - intros H. f_equal. now apply IH.
Qed.

Lemma scanBack_spec (wrappers : list EventWrapper) (n : nat) :
  (n < List.length wrappers)%nat ->
  scanBack wrappers n =
  hd_error
    (rev (map ms_event
            (extractMessages (events_success (firstn (S n) wrappers))))).
Proof.
  induction n as [|n IH]; intros Hn.
  - destruct wrappers as [|w ws]; [cbn in Hn; lia|].
    cbn. unfold asMessage. destruct (w_event w); reflexivity.
  - destruct (nth_error wrappers (S n)) as [w|] eqn:Ew.
    + rewrite (firstn_snoc _ _ _ Ew).
      cbn [scanBack]. rewrite Ew. cbn [extractMessages].
      rewrite flat_map_app, map_app, rev_app_distr.
      cbn [flat_map]. rewrite app_nil_r.
      destruct (asMessage w) as [m|] eqn:Em; cbn.
      * reflexivity.
      * rewrite IH by lia. reflexivity.
    + apply nth_error_None in Ew. lia.
Qed.

(** X20. [extractLastMessage] returns the last message among the events of
    a successful response, the one that ends the list [extractMessages]
    makes of the same response, and nothing when the response is a failure
    or holds no message. *)
Theorem X20_last_message :
  forall response,
    extractLastMessage response =
      hd_error (rev (map ms_event (extractMessages response))) /\
    (extractLastMessage response = None <-> extractMessages response = []).
Proof.
  intros response.
  assert (H : extractLastMessage response =
              hd_error (rev (map ms_event (extractMessages response)))).
  { destruct response as [wrappers|message]; [|reflexivity].
    unfold extractLastMessage.
    destruct (List.length wrappers) as [|n] eqn:El.
    - destruct wrappers; [reflexivity|discriminate].
    - rewrite scanBack_spec by lia.
      rewrite <- El, firstn_all. reflexivity. }
  split; [exact H|]. rewrite H.
  destruct (extractMessages response) as [|s l] eqn:E.
  - split; reflexivity.
  - split; [|discriminate]. cbn [map rev].
    destruct (rev (map ms_event l)); discriminate.
Qed.

(** X21. For integer limits the page the history handler asks for holds at
    least one and at most fifty events, ten when no limit is given, and the
    limit of the options is taken before the one of the state.  The page
    never starts below zero nor above the latest event, and starts at most
    a page below it. *)
Theorem X21_history_page :
  forall optionsLimit stateLimit latest,
    let page := historyCriteria optionsLimit stateLimit latest in
    (1 <= maxEvents page <= 50)%Z /\
    maxMessages page = maxEvents page /\
    ascending page = true /\
    (0 <= startEventIndex page)%Z /\
    (forall index,
       latest = Some index -> (0 <= index)%Z ->
       (startEventIndex page <= index <=
        startEventIndex page + maxEvents page)%Z) /\
    (optionsLimit = None -> stateLimit = None -> maxEvents page = 10%Z) /\
    (forall requested,
       optionsLimit = Some requested -> (1 <= requested <= 50)%Z ->
       maxEvents page = requested).
Proof.
  intros optionsLimit stateLimit latest page.
  unfold page, historyCriteria, historyLimit, limitValue.
  cbn [maxEvents maxMessages ascending startEventIndex].
  split; [lia|]. split; [reflexivity|]. split; [reflexivity|].
  split; [lia|]. split; [|split].
  - intros index -> Hi. cbn [Js.nullish]. lia.
  - intros -> ->. reflexivity.
  - intros requested -> Hr. cbn [Js.nullish]. lia.
Qed.

(** The latest event has index 100 and 500 events are asked for. *)
Lemma X21_history_page_witness :
  startEventIndex (historyCriteria (Some 500%Z) None (Some 100%Z)) = 50%Z /\
  maxEvents (historyCriteria (Some 20%Z) (Some 5%Z) (Some 100%Z)) = 20%Z.
Proof.
  split.
  - reflexivity.
  - apply (proj2 (proj2 (proj2 (proj2 (proj2 (proj2
             (X21_history_page (Some 20%Z) (Some 5%Z) (Some 100%Z))))))) 20%Z
             eq_refl).
    lia.
Defined.

End EventsMore.

(** ** The ids handed to [deleteMessages] *)

Section DeleteMore.
Import DeleteMessageAction.
Variable BigInt_ofString : Js.str -> option Z.

Lemma parseMessageIds_undefined (values : list IdValue) :
  forallb isUndefined values = true ->
  parseMessageIds BigInt_ofString values = [].
Proof.
  induction values as [|v values IH]; [reflexivity|].
  cbn [forallb]. intros [Hv Hrest]%andb_true_iff.
  destruct v; try discriminate. cbn. now apply IH.
Qed.

Lemma parseMessageIds_app (l1 l2 : list IdValue) :
  parseMessageIds BigInt_ofString (l1 ++ l2) =
  parseMessageIds BigInt_ofString l1 ++ parseMessageIds BigInt_ofString l2.
Proof. unfold parseMessageIds. apply flat_map_app. Qed.

Lemma In_parseMessageIds (values : list IdValue) (n : Z) :
  In n (parseMessageIds BigInt_ofString values) <->
  exists v, In v values /\ toBigInt BigInt_ofString v = Some n.
Proof.
  unfold parseMessageIds. rewrite in_flat_map. split.
  - intros (v & Hv & Hn). exists v. split; [exact Hv|].
    destruct (toBigInt BigInt_ofString v) as [m|]; [|contradiction].
    destruct Hn as [->|[]]. reflexivity.
  - intros (v & Hv & Hn). exists v. split; [exact Hv|].
    rewrite Hn. now left.
Qed.

(** X22. The delete handler takes the listed ids when one of them is
    defined and then ignores the target and the message of the context;
    with no listed id it takes the target when that is defined; otherwise
    it falls back to the message of the context.  Every id it deletes is
    the conversion of one of the values it was given. *)
Theorem X22_deleted_ids :
  forall optionsIds stateIds optionsTarget stateTarget contextMessageId,
    let listed := normalizeIds optionsIds ++ normalizeIds stateIds in
    let target := orValue optionsTarget stateTarget in
    let own := match contextMessageId with
               | Some text => id_string text
               | None => id_undefined
               end in
    let ids := messageIds BigInt_ofString optionsIds stateIds optionsTarget
                 stateTarget contextMessageId in
    (forallb isUndefined listed = false ->
     ids = parseMessageIds BigInt_ofString listed) /\
    (listed = [] -> isUndefined target = false ->
     ids = parseMessageIds BigInt_ofString [target]) /\
    (listed = [] -> isUndefined target = true ->
     ids = parseMessageIds BigInt_ofString [own]) /\
    (forallb isUndefined listed = true -> listed <> [] ->
     ids = parseMessageIds BigInt_ofString [own]) /\
    (forall n,
       In n ids ->
       exists v,
         In v (listed ++ [target; own]) /\
         toBigInt BigInt_ofString v = Some n).
Proof.
  intros optionsIds stateIds optionsTarget stateTarget contextMessageId
    listed target own ids.
  assert (Hids : ids =
    parseMessageIds BigInt_ofString
      (match listed with
       | [] => if isUndefined target then [target; own] else [target]
       | _ :: _ =>
           if forallb isUndefined listed then listed ++ [own] else listed
       end)).
  { unfold ids, messageIds, providedIds. fold listed target own.
    destruct listed as [|v l]; [|reflexivity].
    cbn [forallb app]. rewrite andb_true_r. reflexivity. }
  clearbody ids listed target own.
  split; [|split; [|split; [|split]]].
  - intros Hf. rewrite Hids. destruct listed as [|v l]; [discriminate|].
    now rewrite Hf.
  - intros -> Ht. rewrite Hids, Ht. reflexivity.
  - intros -> Ht. rewrite Hids, Ht.
    destruct target; try discriminate. reflexivity.
  - intros Hf Hne. rewrite Hids.
    destruct listed as [|v l]; [now contradict Hne|].
    rewrite Hf, parseMessageIds_app, (parseMessageIds_undefined _ Hf).
    reflexivity.
  - intros n. rewrite Hids. intros (v & Hv & Hn)%In_parseMessageIds.
    exists v. split; [|exact Hn]. rewrite in_app_iff. cbn [In].
    destruct listed as [|w l].
    + right. destruct (isUndefined target); cbn [In] in Hv; tauto.
    + destruct (forallb isUndefined (w :: l)).
      * apply in_app_iff in Hv. destruct Hv as [H|H]; [now left|].
        right. right. exact H.
      * now left.
Qed.

End DeleteMore.

(** Listed ids shadow the target, and a list of absent ids falls back to
    the message at hand. *)
Lemma X22_deleted_ids_witness :
  DeleteMessageAction.messageIds Cases.digits
    (DeleteMessageAction.ids_array
       [DeleteMessageAction.id_undefined; DeleteMessageAction.id_number 7%Z])
    DeleteMessageAction.ids_missing
    (DeleteMessageAction.id_number 9%Z) DeleteMessageAction.id_undefined
    (Some `"12") = [7%Z] /\
  DeleteMessageAction.messageIds Cases.digits
    (DeleteMessageAction.ids_array [DeleteMessageAction.id_undefined])
    DeleteMessageAction.ids_missing
    (DeleteMessageAction.id_number 9%Z) DeleteMessageAction.id_undefined
    (Some `"12") = [12%Z].
Proof.
  split.
  - apply (proj1 (X22_deleted_ids Cases.digits
                    (DeleteMessageAction.ids_array
                       [DeleteMessageAction.id_undefined;
                        DeleteMessageAction.id_number 7%Z])
                    DeleteMessageAction.ids_missing
                    (DeleteMessageAction.id_number 9%Z)
                    DeleteMessageAction.id_undefined (Some `"12"))).
    reflexivity.
  - apply (proj1 (proj2 (proj2 (proj2
             (X22_deleted_ids Cases.digits
                (DeleteMessageAction.ids_array [DeleteMessageAction.id_undefined])
                DeleteMessageAction.ids_missing
                (DeleteMessageAction.id_number 9%Z)
                DeleteMessageAction.id_undefined (Some `"12")))))).
    + reflexivity.
    + discriminate.
Defined.

(** ** Room keys *)

Section RoomKeys.

Lemma lit_inj (a b : string) : Js.lit a = Js.lit b -> a = b.
Proof.
  unfold Js.lit. intros H.
  rewrite <- (string_of_list_ascii_of_string a),
          <- (string_of_list_ascii_of_string b).
  f_equal.
  apply (f_equal (map ascii_of_N)) in H.
  rewrite !map_map in H.
  rewrite (map_ext _ (fun x => x) ascii_N_embedding), map_id in H.
  rewrite (map_ext _ (fun x => x) ascii_N_embedding), map_id in H.
  exact H.
Qed.

Lemma to_int_proper (z : Z) :
  Z.to_int z <> Decimal.Pos Decimal.Nil /\
  Z.to_int z <> Decimal.Neg Decimal.Nil.
Proof.
  destruct z as [|p|p]; cbn; split; try discriminate.
  - intros [= H]. now apply DecimalPos.Unsigned.to_uint_nonnil in H.
  - intros [= H]. now apply DecimalPos.Unsigned.to_uint_nonnil in H.
Qed.

Lemma ofZ_inj (a b : Z) : Js.ofZ a = Js.ofZ b -> a = b.
Proof.
  unfold Js.ofZ. intros H%lit_inj.
  apply DecimalZ.to_int_inj.
  apply (f_equal NilZero.int_of_string) in H.
  destruct (to_int_proper a) as [Ha1 Ha2].
  destruct (to_int_proper b) as [Hb1 Hb2].
  rewrite !NilZero.isi in H by assumption.
  now injection H.
Qed.

(** X23. The room key of a thread is the one of its chat followed by a
    colon and the number of the thread: within one chat (and within one
    installation location) two threads have the same room key only when
    they are the same thread, and no thread has the room key of the chat
    itself, so that the metadata of a message in a thread never carries
    the room key of the main conversation. *)
Theorem X23_thread_room_keys :
  forall chatId location messageId apiGateway thread other,
    OpenChatClient.getRoomKey chatId (Some thread) =
      OpenChatClient.getRoomKey chatId None ++ `":" ++ Js.ofZ thread /\
    OpenChatClient.getRoomKey chatId (Some thread) <>
      OpenChatClient.getRoomKey chatId None /\
    (OpenChatClient.getRoomKey chatId (Some thread) =
       OpenChatClient.getRoomKey chatId (Some other) <-> thread = other) /\
    OpenChatClient.getRoomKeyFromLocation location (Some thread) <>
      OpenChatClient.getRoomKeyFromLocation location None /\
    (OpenChatClient.getRoomKeyFromLocation location (Some thread) =
       OpenChatClient.getRoomKeyFromLocation location (Some other) <->
     thread = other) /\
    roomKey (OpenChatClient.buildMessageMetadata chatId messageId apiGateway
               (Some thread)) <>
      roomKey (OpenChatClient.buildMessageMetadata chatId messageId apiGateway
                 None).
Proof.
  intros chatId location messageId apiGateway thread other.
  unfold OpenChatClient.getRoomKey, OpenChatClient.getRoomKeyFromLocation.
  cbv zeta.
  assert (Hbase : forall base : Js.str,
            base ++ `":" ++ Js.ofZ thread <> base).
  { intros base H. rewrite <- (app_nil_r base) in H at 2.
    apply app_inv_head in H. discriminate H. }
  assert (Hinj : forall base : Js.str,
            base ++ `":" ++ Js.ofZ thread = base ++ `":" ++ Js.ofZ other <->
            thread = other).
  { intros base. split; [|now intros ->].
    intros H. apply app_inv_head in H. apply app_inv_head in H.
    now apply ofZ_inj. }
  split; [reflexivity|]. split; [apply Hbase|]. split; [apply Hinj|].
  split; [apply Hbase|]. split; [apply Hinj|].
  cbn [roomKey OpenChatClient.buildMessageMetadata].
  unfold OpenChatClient.getRoomKey. cbv zeta.
  intros [= H]. now apply Hbase in H.
Qed.

End RoomKeys.

(** ** The target of a reaction *)

Section ReactMore.
Import ActionContext ChatEvents DeleteMessageAction ReactAction TextShape.
Variable BigInt_ofString : Js.str -> option Z.

Lemma fetchLatestMessageId_cases metadata summary chatEvents :
  let '(found, after, logged) :=
    fetchLatestMessageId metadata summary chatEvents in
  threadId after = threadId metadata /\
  chatId after = chatId metadata /\
  (forall id reaction thread, ~ In (AddReaction id reaction thread) logged) /\
  (forall id,
     found = Some id ->
     logged = [] /\
     exists latest response last,
       summary = Js.Ok (summary_success (Some latest)) /\
       chatEvents (latestCriteria latest) (threadId metadata) =
         Js.Ok response /\
       extractLastMessage response = Some last /\
       ev_messageId last = id).
Proof.
  unfold fetchLatestMessageId.
  destruct summary as [[|[latest|]]|e]; cbn -[extractLastMessage].
  2: destruct (chatEvents (latestCriteria latest) (threadId metadata))
       as [[wrappers|message]|e] eqn:Ec; cbn -[extractLastMessage].
  2: destruct (extractLastMessage (events_success wrappers))
       as [last|] eqn:El; cbn -[extractLastMessage].
  all: repeat split; try discriminate; try tauto.
  all: try (intros id reaction thread [H|[]]; discriminate H).
  injection H as <-.
  exists latest, (events_success wrappers), last. repeat split; assumption.
Qed.

(** X24. When the reaction handler calls [addReaction], the id is not zero
    and the reaction is the trimmed choice, not empty and without white
    space around it; the thread is the one of the resolved context.  The
    id is the conversion of the requested target, or, when that is missing
    or zero, the id of the last message among the events fetched for the
    page below the latest event index. *)
Theorem X24_reaction_target :
  forall context optionsReaction stateReaction optionsTarget stateTarget
         summary chatEvents reacted hasCallback id reaction thread,
    In (AddReaction id reaction thread)
       (snd (handler BigInt_ofString context optionsReaction stateReaction
               optionsTarget stateTarget summary chatEvents reacted
               hasCallback)) ->
    id <> 0%Z /\
    reaction = reactionText optionsReaction stateReaction /\
    reaction <> [] /\ startsClean reaction /\ endsClean reaction /\
    exists resolved,
      context = Some resolved /\
      thread = threadId (metadata resolved) /\
      let requested :=
        safeBigInt BigInt_ofString
          (targetId optionsTarget stateTarget (metadata resolved)) in
      (requested = Some id \/
       (missing requested = true /\
        exists latest response last,
          summary = Js.Ok (summary_success (Some latest)) /\
          chatEvents (latestCriteria latest) thread = Js.Ok response /\
          extractLastMessage response = Some last /\
          ev_messageId last = id)).
Proof.
  intros context optionsReaction stateReaction optionsTarget stateTarget
    summary chatEvents reacted hasCallback id reaction thread.
  unfold handler.
  destruct context as [resolved|]; [|cbn; intros [H|[]]; discriminate H].
  cbv zeta.
  destruct (Js.truthy (reactionText optionsReaction stateReaction))
    eqn:Hr; cbn [negb]; [|cbn; intros [H|[]]; discriminate H].
  set (requested := safeBigInt BigInt_ofString
                      (targetId optionsTarget stateTarget (metadata resolved))).
  assert (Hshape :
    forall found after looked,
      threadId after = threadId (metadata resolved) ->
      (forall i r t, ~ In (AddReaction i r t) looked) ->
      In (AddReaction id reaction thread)
        (snd
           match found with
           | Some id0 =>
               if (id0 =? 0)%Z
               then
                 (Js.Ok tt,
                  looked ++
                  [LogWarn
                     `"[OpenChat] Could not determine target message id for reaction"])
               else
                 match reacted with
                 | Js.Throw e =>
                     (Js.Throw e,
                      looked ++
                      [AddReaction id0
                         (reactionText optionsReaction stateReaction)
                         (threadId after)])
                 | Js.Ok (reaction_failure message code) =>
                     (Js.Ok tt,
                      looked ++
                      AddReaction id0
                        (reactionText optionsReaction stateReaction)
                        (threadId after) ::
                      LogError `"[OpenChat] Failed to add reaction"
                        (Some
                           (Js.nullish message
                              (Js.nullish (option_map Js.ofZ code)
                                 `"Unknown error"))) ::
                      (if hasCallback
                       then
                         [Callback
                            (`"Failed to react in OpenChat: " ++
                             Js.nullish message
                               (Js.nullish (option_map Js.ofZ code)
                                  `"Unknown error")) false]
                       else []))
                 | Js.Ok reaction_success =>
                     (Js.Ok tt,
                      looked ++
                      AddReaction id0
                        (reactionText optionsReaction stateReaction)
                        (threadId after) ::
                      LogInfo
                        (`"[OpenChat] Added reaction '" ++
                         reactionText optionsReaction stateReaction ++
                         `"' in " ++
                         MessageManager.interpolated (chatId after)) ::
                      (if hasCallback
                       then
                         [Callback
                            (`"Reacted with " ++
                             reactionText optionsReaction stateReaction ++
                             `" in OpenChat") true]
                       else []))
                 end
           | None =>
               (Js.Ok tt,
                looked ++
                [LogWarn
                   `"[OpenChat] Could not determine target message id for reaction"])
           end) ->
      found = Some id /\ id <> 0%Z /\
      reaction = reactionText optionsReaction stateReaction /\
      thread = threadId (metadata resolved)).
  { intros found after looked Ht Hlooked.
    destruct found as [id0|]; cbn [snd].
    - destruct (id0 =? 0)%Z eqn:Hz.
      + cbn [snd]. rewrite in_app_iff.
        intros [H|[H|[]]]; [now apply Hlooked in H|discriminate H].
      + apply Z.eqb_neq in Hz.
        destruct reacted as [[|message code]|e]; cbn [snd];
          rewrite in_app_iff; cbn [In];
          destruct hasCallback; cbn [In];
          intros [H|H]; try (now apply Hlooked in H);
          repeat (destruct H as [H|H]; try discriminate H;
                  try contradiction);
          injection H as <- <- <-; rewrite Ht; repeat split; assumption.
    - rewrite in_app_iff.
      intros [H|[H|[]]]; [now apply Hlooked in H|discriminate H]. }
  assert (Hclean :
    reaction = reactionText optionsReaction stateReaction ->
    reaction <> [] /\ startsClean reaction /\ endsClean reaction).
  { intros ->. split.
    - intros E. rewrite E in Hr. discriminate Hr.
    - unfold reactionText. apply trim_clean. }
  destruct (missing requested) eqn:Hm.
  - pose proof (fetchLatestMessageId_cases (metadata resolved) summary
                  chatEvents) as Hf.
    destruct (fetchLatestMessageId (metadata resolved) summary chatEvents)
      as [[found after] looked].
    destruct Hf as (Ht & _ & Hlooked & Hfound).
    intros Hin.
    destruct (Hshape found after looked Ht Hlooked Hin)
      as (-> & Hid & Hre & Hth).
    destruct (Hfound id eq_refl) as (_ & latest & response & last & Hs).
    split; [exact Hid|]. split; [exact Hre|].
    destruct (Hclean Hre) as (H1 & H2 & H3).
    split; [exact H1|]. split; [exact H2|]. split; [exact H3|].
    exists resolved. split; [reflexivity|]. split; [exact Hth|].
    right. split; [exact Hm|].
    exists latest, response, last. rewrite Hth. exact Hs.
  - intros Hin.
    destruct (Hshape requested (metadata resolved) [] eq_refl
                (fun _ _ _ H => H) Hin) as (Hreq & Hid & Hre & Hth).
    split; [exact Hid|]. split; [exact Hre|].
    destruct (Hclean Hre) as (H1 & H2 & H3).
    split; [exact H1|]. split; [exact H2|]. split; [exact H3|].
    exists resolved. split; [reflexivity|]. split; [exact Hth|].
    left. exact Hreq.
Qed.

End ReactMore.

(** The target "0" is no message: the reaction goes to message 43, the last
    one of the page fetched below event 5. *)
Lemma X24_reaction_target_witness :
  let context :=
    contextOf Sample.service (Sample.metadataUnder `"group:a")
      (Sample.installationAt Sample.groupA) in
  let chatEvents (criteria : ChatEvents.ChatEventsCriteria)
        (thread : option Z) :=
    Js.Ok (ChatEvents.events_success
             [ChatEvents.mkWrapper (event Cases.picture) None
                (ChatEvents.startEventIndex criteria);
              ChatEvents.mkWrapper (other_event `"membership") None 5%Z]) in
  snd (ReactAction.handler Cases.digits (Some context) None None
         (DeleteMessageAction.id_string `"0")
         DeleteMessageAction.id_undefined
         (Js.Ok (ReactAction.summary_success (Some 5%Z))) chatEvents
         (Js.Ok ReactAction.reaction_success) false) =
    [ReactAction.AddReaction 43 ReactAction.DEFAULT_REACTION None;
     ReactAction.LogInfo
       (`"[OpenChat] Added reaction '" ++ ReactAction.DEFAULT_REACTION ++
        `"' in a")] /\
  ReactAction.missing
    (ReactAction.safeBigInt Cases.digits
       (ReactAction.targetId (DeleteMessageAction.id_string `"0")
          DeleteMessageAction.id_undefined
          (ActionContext.metadata context))) = true.
Proof.
  intros context chatEvents. split; [reflexivity|].
  destruct (X24_reaction_target Cases.digits (Some context) None None
              (DeleteMessageAction.id_string `"0")
              DeleteMessageAction.id_undefined
              (Js.Ok (ReactAction.summary_success (Some 5%Z))) chatEvents
              (Js.Ok ReactAction.reaction_success) false
              43%Z ReactAction.DEFAULT_REACTION None)
    as (_ & _ & _ & _ & _ & resolved & Hc & _ & [H|[H _]]).
  - left. reflexivity.
  - injection Hc as <-. discriminate H.
  - injection Hc as <-. exact H.
Defined.

Section ReactExplicit.
Import ActionContext ChatEvents DeleteMessageAction ReactAction TextShape.
Variable BigInt_ofString : Js.str -> option Z.

Lemma trimStart_blank (s : Js.str) :
  forallb Js.isWhiteSpace s = true -> Js.trimStart s = [].
Proof.
  induction s as [|c s IH]; [reflexivity|].
  cbn [forallb Js.trimStart]. intros [Hc Hs]%andb_true_iff.
  rewrite Hc. now apply IH.
Qed.

(** X25. A requested target that converts to an id other than zero is
    reacted to as it is: the summary and the events of the chat are not
    consulted, and the handler calls [addReaction] once, first of all.  A
    reaction of the options that is blank is neither replaced by the one
    of the state nor by the default: the handler warns and reacts to
    nothing. *)
Theorem X25_explicit_target :
  forall resolved optionsReaction stateReaction optionsTarget stateTarget
         summary chatEvents response hasCallback id,
    safeBigInt BigInt_ofString
      (targetId optionsTarget stateTarget (metadata resolved)) = Some id ->
    id <> 0%Z ->
    (reactionText optionsReaction stateReaction <> [] ->
     exists rest,
       handler BigInt_ofString (Some resolved) optionsReaction stateReaction
         optionsTarget stateTarget summary chatEvents (Js.Ok response)
         hasCallback =
       (Js.Ok tt,
        AddReaction id (reactionText optionsReaction stateReaction)
          (threadId (metadata resolved)) :: rest) /\
       forall i r t, ~ In (AddReaction i r t) rest) /\
    (forall c blank,
       optionsReaction = Some (c :: blank) ->
       forallb Js.isWhiteSpace (c :: blank) = true ->
       handler BigInt_ofString (Some resolved) optionsReaction stateReaction
         optionsTarget stateTarget summary chatEvents (Js.Ok response)
         hasCallback =
       (Js.Ok tt, [LogWarn `"[OpenChat] Reaction text missing"])).
Proof.
  intros resolved optionsReaction stateReaction optionsTarget stateTarget
    summary chatEvents response hasCallback id Hid Hnz.
  split.
  - intros Hr. unfold handler. cbv zeta.
    destruct (reactionText optionsReaction stateReaction) as [|c r] eqn:Er;
      [now contradict Hr|].
    cbn [Js.truthy negb]. rewrite Hid. cbn [missing].
    apply Z.eqb_neq in Hnz. rewrite Hnz. cbv beta iota. rewrite Hnz.
    destruct response as [|message code]; destruct hasCallback;
      cbn [app]; eexists; (split; [reflexivity|]);
      intros i r0 t H; cbn [In] in H;
      repeat (destruct H as [H|H]; try discriminate H); contradiction.
  - intros c blank -> Hblank. unfold handler. cbv zeta.
    assert (Hempty : reactionText (Some (c :: blank)) stateReaction = []).
    { unfold reactionText, Js.trim.
      rewrite (trimStart_blank _ Hblank). reflexivity. }
    rewrite Hempty. reflexivity.
Qed.

End ReactExplicit.

(** Message 42 of the context is reacted to with a star; a blank reaction
    stops the handler. *)
Lemma X25_explicit_target_witness :
  let context :=
    contextOf Sample.service (Sample.metadataUnder `"group:a")
      (Sample.installationAt Sample.groupA) in
  (exists rest,
     ReactAction.handler Cases.digits (Some context) (Some `" * ") None
       DeleteMessageAction.id_undefined DeleteMessageAction.id_undefined
       (Js.Throw `"offline") (fun _ _ => Js.Throw `"offline")
       (Js.Ok ReactAction.reaction_success) true =
     (Js.Ok tt, ReactAction.AddReaction 42 `"*" None :: rest)) /\
  ReactAction.handler Cases.digits (Some context) (Some `"  ")
    (Some `"*")
    DeleteMessageAction.id_undefined DeleteMessageAction.id_undefined
    (Js.Throw `"offline") (fun _ _ => Js.Throw `"offline")
    (Js.Ok ReactAction.reaction_success) true =
  (Js.Ok tt, [ReactAction.LogWarn `"[OpenChat] Reaction text missing"]).
Proof.
  intros context. split.
  - destruct (X25_explicit_target Cases.digits context (Some `" * ") None
                DeleteMessageAction.id_undefined
                DeleteMessageAction.id_undefined
                (Js.Throw `"offline") (fun _ _ => Js.Throw `"offline")
                ReactAction.reaction_success true 42%Z eq_refl)
      as [H _]; [discriminate|].
    destruct H as (rest & H & _); [discriminate|].
    exists rest. exact H.
  - destruct (X25_explicit_target Cases.digits context (Some `"  ")
                (Some `"*")
                DeleteMessageAction.id_undefined
                DeleteMessageAction.id_undefined
                (Js.Throw `"offline") (fun _ _ => Js.Throw `"offline")
                ReactAction.reaction_success true 42%Z eq_refl)
      as [_ H]; [discriminate|].
    apply (H 32%N [32%N]); reflexivity.
Defined.

(** ** More on the identity mapper *)

Section IdentityMore.
Import OpenChatIds OpenChatClient MessageManager.





End IdentityMore.

